(** * The nbcon console ownership protocol (kernel/printk/nbcon.c)

    A shallow embedding of the non-blocking console ownership and handover
    protocol.  The console state word, the sequence counters, the dropped
    count and the panic CPU are shared memory.  Every access to one of the
    console's atomic variables is preceded by one step of the environment,
    taken from a finite schedule of interference events, so a
    compare-and-swap can fail and a re-read can observe a foreign owner; a
    plain read sees what the last such step left.  Functions that loop in
    the source take their iteration bound from the remaining schedule and
    return [None] only if that bound were exceeded; the theorems show that
    it is not. *)

From Stdlib Require Import ZArith NArith List Bool String Ascii Lia.
From Stdlib Require Import DecimalString.
Import ListNotations.
Local Open Scope Z_scope.

(** ** Error numbers (include/uapi/asm-generic/errno-base.h) *)

Definition EPERM : Z := 1.
Definition ENOENT : Z := 2.
Definition EAGAIN : Z := 11.
Definition EBUSY : Z := 16.

(** ** Data model *)

(** enum nbcon_prio; the source compares priorities as integers. *)
Inductive nbcon_prio : Type :=
| NBCON_PRIO_NONE
| NBCON_PRIO_NORMAL
| NBCON_PRIO_EMERGENCY
| NBCON_PRIO_PANIC.

Definition prio_val (p : nbcon_prio) : Z :=
  match p with
  | NBCON_PRIO_NONE => 0
  | NBCON_PRIO_NORMAL => 1
  | NBCON_PRIO_EMERGENCY => 2
  | NBCON_PRIO_PANIC => 3
  end.

Definition prio_eqb (a b : nbcon_prio) : bool := prio_val a =? prio_val b.
Definition prio_leb (a b : nbcon_prio) : bool := prio_val a <=? prio_val b.

(** struct nbcon_state: the fields of the console state word.  The bit-field
    declaration lives in include/linux/console.h, which is not part of the
    source tree at hand; the record keeps one component per field and two
    states are the same word ([atom]) exactly when all components agree. *)
Record nbcon_state : Type := mkState {
  prio : nbcon_prio;
  req_prio : nbcon_prio;
  unsafe : bool;
  unsafe_takeover : bool;
  cpu : Z
}.

Definition nbcon_state_eqb (a b : nbcon_state) : bool :=
  prio_eqb (prio a) (prio b) && prio_eqb (req_prio a) (req_prio b) &&
  Bool.eqb (unsafe a) (unsafe b) &&
  Bool.eqb (unsafe_takeover a) (unsafe_takeover b) &&
  (cpu a =? cpu b).

(** struct nbcon_state state = { }; *)
Definition nbcon_state_zero : nbcon_state :=
  mkState NBCON_PRIO_NONE NBCON_PRIO_NONE false false 0.

(** Which printk buffers a context points at. *)
Inductive pbufs_ref : Type :=
| PBUFS_NULL
| PBUFS_PANIC      (* &panic_nbcon_pbufs *)
| PBUFS_CONSOLE.   (* con->pbufs *)

(** struct nbcon_context, without the console pointer: the model has one
    console.  Sequence numbers are u64. *)
Record nbcon_context : Type := mkCtxt {
  ctxt_prio : nbcon_prio;
  allow_unsafe_takeover : bool;
  spinwait_max_us : Z;
  ctxt_seq : N;
  backlog : bool;
  pbufs : pbufs_ref
}.

Definition set_pbufs (c : nbcon_context) (p : pbufs_ref) : nbcon_context :=
  mkCtxt (ctxt_prio c) (allow_unsafe_takeover c) (spinwait_max_us c)
         (ctxt_seq c) (backlog c) p.
Definition set_ctxt_seq (c : nbcon_context) (s : N) : nbcon_context :=
  mkCtxt (ctxt_prio c) (allow_unsafe_takeover c) (spinwait_max_us c)
         s (backlog c) (pbufs c).
Definition set_backlog (c : nbcon_context) (b : bool) : nbcon_context :=
  mkCtxt (ctxt_prio c) (allow_unsafe_takeover c) (spinwait_max_us c)
         (ctxt_seq c) b (pbufs c).

(** struct nbcon_write_context; [outbuf = None] is the NULL pointer. *)
Record nbcon_write_context : Type := mkWctxt {
  ctxt : nbcon_context;
  outbuf : option string;
  len : N;
  wctxt_unsafe_takeover : bool
}.

Definition set_ctxt (wc : nbcon_write_context) (c : nbcon_context)
  : nbcon_write_context :=
  mkWctxt c (outbuf wc) (len wc) (wctxt_unsafe_takeover wc).

(** struct printk_message, with the text of the output buffer in place of the
    pointer to it; [outbuf_len] is the length of that text. *)
Record printk_message : Type := mkPmsg {
  pmsg_outbuf : string;
  pmsg_seq : N;
  pmsg_dropped : N
}.

Definition outbuf_len (m : printk_message) : N :=
  N.of_nat (String.length (pmsg_outbuf m)).

(** ** Shared memory and interference *)

(** One step of the environment: the other CPUs and contexts may overwrite
    any of the shared locations before this context's next atomic access. *)
Record env_event : Type := mkEvent {
  ev_state : option nbcon_state;
  ev_seq : option N;
  ev_prev_seq : option N;
  ev_dropped : option N;
  ev_panic_cpu : option Z
}.

(** Ghost record of one run of a driver's write callback: which callback,
    the text it was handed, and whether it handed the buffer back (a
    non-NULL [outbuf]). *)
Record driver_call : Type := mkCall {
  call_atomic : bool;
  call_text : string;
  call_completed : bool
}.

(** The shared memory the protocol works on: the console's [nbcon_state],
    [nbcon_seq], [nbcon_prev_seq] and [dropped] fields and the global
    [panic_cpu]; then the interference still to come, and the ghost record
    of the driver runs. *)
Record world : Type := mkWorld {
  con_nbcon_state : nbcon_state;
  con_nbcon_seq : N;
  con_nbcon_prev_seq : N;
  con_dropped : N;
  panic_cpu : Z;
  sched : list env_event;
  driver_calls : list driver_call
}.

Definition set_nbcon_state (s : nbcon_state) (w : world) : world :=
  mkWorld s (con_nbcon_seq w) (con_nbcon_prev_seq w) (con_dropped w)
          (panic_cpu w) (sched w) (driver_calls w).
Definition set_nbcon_seq (n : N) (w : world) : world :=
  mkWorld (con_nbcon_state w) n (con_nbcon_prev_seq w) (con_dropped w)
          (panic_cpu w) (sched w) (driver_calls w).
Definition set_nbcon_prev_seq (n : N) (w : world) : world :=
  mkWorld (con_nbcon_state w) (con_nbcon_seq w) n (con_dropped w)
          (panic_cpu w) (sched w) (driver_calls w).
Definition set_dropped (n : N) (w : world) : world :=
  mkWorld (con_nbcon_state w) (con_nbcon_seq w) (con_nbcon_prev_seq w) n
          (panic_cpu w) (sched w) (driver_calls w).
Definition set_sched (l : list env_event) (w : world) : world :=
  mkWorld (con_nbcon_state w) (con_nbcon_seq w) (con_nbcon_prev_seq w)
          (con_dropped w) (panic_cpu w) l (driver_calls w).
Definition log_driver_call (c : driver_call) (w : world) : world :=
  mkWorld (con_nbcon_state w) (con_nbcon_seq w) (con_nbcon_prev_seq w)
          (con_dropped w) (panic_cpu w) (sched w) (driver_calls w ++ [c]).

Definition overwrite {A : Type} (o : option A) (old : A) : A :=
  match o with Some v => v | None => old end.

Definition apply_event (e : env_event) (w : world) : world :=
  mkWorld (overwrite (ev_state e) (con_nbcon_state w))
          (overwrite (ev_seq e) (con_nbcon_seq w))
          (overwrite (ev_prev_seq e) (con_nbcon_prev_seq w))
          (overwrite (ev_dropped e) (con_dropped w))
          (overwrite (ev_panic_cpu e) (panic_cpu w))
          (sched w) (driver_calls w).

(** ** The monad of the embedding: state, and [None] for an exceeded bound *)

Definition M (A : Type) : Type := world -> option (A * world).

Definition ret {A : Type} (a : A) : M A := fun w => Some (a, w).

Definition bind {A B : Type} (m : M A) (k : A -> M B) : M B :=
  fun w => match m w with
           | Some (a, w') => k a w'
           | None => None
           end.

Definition out_of_fuel {A : Type} : M A := fun _ => None.

Definition gets {A : Type} (f : world -> A) : M A := fun w => Some (f w, w).
Definition modify (f : world -> world) : M unit := fun w => Some (tt, f w).

Declare Scope nbcon_scope.
Delimit Scope nbcon_scope with nbcon.
Notation "x <- m ;; k" := (bind m (fun x => k))
  (at level 61, m at next level, right associativity) : nbcon_scope.
Notation "' p <- m ;; k" := (bind m (fun x => match x with p => k end))
  (at level 61, p pattern, m at next level, right associativity) : nbcon_scope.
Notation "m ;;; k" := (bind m (fun _ => k))
  (at level 61, right associativity) : nbcon_scope.
Local Open Scope nbcon_scope.

(** The environment runs its next event, if one is left. *)
Definition env_step : M unit :=
  fun w => match sched w with
           | [] => Some (tt, w)
           | e :: rest => Some (tt, apply_event e (set_sched rest w))
           end.

(** The bound on the iterations of a compare-and-swap loop: an attempt can
    fail once on a stale expected value and once per event still to come. *)
Definition cas_fuel (w : world) : nat := S (S (List.length (sched w))).

(** ** Atomic accessors (nbcon.c, lines 129-156) *)

Definition nbcon_state_set (new : nbcon_state) : M unit :=
  modify (set_nbcon_state new).

Definition nbcon_state_read : M nbcon_state :=
  env_step ;;; gets con_nbcon_state.

(** Returns the success flag and the updated [cur]: unchanged on success,
    the observed state on failure. *)
Definition nbcon_state_try_cmpxchg (cur new : nbcon_state)
  : M (bool * nbcon_state) :=
  env_step ;;;
  s <- gets con_nbcon_state ;;
  if nbcon_state_eqb s cur
  then modify (set_nbcon_state new) ;;; ret (true, cur)
  else ret (false, s).

(** Modelled from the spec: the two macros of printk_ringbuffer.h that
    convert a u64 sequence to the unsigned long stored in the console and
    back.  On a 64-bit build both are the identity; the 32-bit folding
    against the ring buffer is outside this model. *)
Definition __u64seq_to_ulseq (s : N) : N := s.
Definition __ulseq_to_u64seq (s : N) : N := s.

Definition u64_max : N := 18446744073709551615%N.
Definition u64_add (a b : N) : N := ((a + b) mod (u64_max + 1))%N.

Definition nbcon_seq_read : M N :=
  env_step ;;;
  s <- gets con_nbcon_seq ;;
  ret (__ulseq_to_u64seq s).

(** Modelled from the spec: [prb_first_valid_seq] of the external ring
    buffer is a parameter of the forced reset. *)
Definition nbcon_seq_force (first_valid_seq seq : N) : M unit :=
  let valid_seq := N.max seq first_valid_seq in
  modify (set_nbcon_seq (__u64seq_to_ulseq valid_seq)).

(** atomic_long_try_cmpxchg on [nbcon_seq]: success flag and the value the
    expected-value variable holds afterwards. *)
Definition nbcon_seq_try_cmpxchg (old new : N) : M (bool * N) :=
  env_step ;;;
  s <- gets con_nbcon_seq ;;
  if (s =? old)%N
  then modify (set_nbcon_seq new) ;;; ret (true, old)
  else ret (false, s).

Definition nbcon_prev_seq_read : M N :=
  env_step ;;; gets con_nbcon_prev_seq.

Definition nbcon_prev_seq_try_cmpxchg (old new : N) : M (bool * N) :=
  env_step ;;;
  s <- gets con_nbcon_prev_seq ;;
  if (s =? old)%N
  then modify (set_nbcon_prev_seq new) ;;; ret (true, old)
  else ret (false, s).

(** nbcon_seq_try_update (lines 203-214) *)
Definition nbcon_seq_try_update (c : nbcon_context) (new_seq : N)
  : M nbcon_context :=
  let nbcon_seq := __u64seq_to_ulseq (ctxt_seq c) in
  '(ok, _) <- nbcon_seq_try_cmpxchg nbcon_seq (__u64seq_to_ulseq new_seq) ;;
  if ok
  then ret (set_ctxt_seq c new_seq)
  else s <- nbcon_seq_read ;; ret (set_ctxt_seq c s).

(** ** The compare-and-swap retry idiom

    [do { ... } while (!nbcon_state_try_cmpxchg(con, cur, &new))]: the body
    either leaves the loop (a [return], [break] or [goto]) or proposes a new
    state word; a failed exchange refreshes [cur] and runs the body again. *)

Inductive attempt (R : Type) : Type :=
| Leave (r : R)
| Swap (new : nbcon_state).
Arguments Leave {R} r.
Arguments Swap {R} new.

Inductive loop_exit (R : Type) : Type :=
| Left (r : R) (cur : nbcon_state)
| Swapped (cur new : nbcon_state).
Arguments Left {R} r cur.
Arguments Swapped {R} cur new.

Fixpoint cmpxchg_loop_n {R : Type} (fuel : nat)
         (body : nbcon_state -> M (attempt R)) (cur : nbcon_state)
  : M (loop_exit R) :=
  match fuel with
  | O => out_of_fuel
  | S fuel' =>
      a <- body cur ;;
      match a with
      | Leave r => ret (Left r cur)
      | Swap new =>
          '(ok, cur') <- nbcon_state_try_cmpxchg cur new ;;
          if ok then ret (Swapped cur new)
          else cmpxchg_loop_n fuel' body cur'
      end
  end.

Definition cmpxchg_loop {R : Type} (body : nbcon_state -> M (attempt R))
           (cur : nbcon_state) : M (loop_exit R) :=
  fun w => cmpxchg_loop_n (cas_fuel w) body cur w.

(** ** The acquisition protocol (nbcon.c, lines 240-799) *)

Definition PANIC_CPU_INVALID : Z := -1.

Section Protocol.

(** The CPU the modelled context runs on; every caller has migration
    disabled, so [smp_processor_id()] is fixed during a call. *)
Variable smp_processor_id : Z.

(** Modelled from the spec: [other_cpu_in_panic()] of printk.c, which is
    not part of the tree at hand: a panic is in progress and the panic CPU
    is not this one. *)
Definition panic_elsewhere (w : world) : bool :=
  negb (panic_cpu w =? PANIC_CPU_INVALID) &&
  negb (panic_cpu w =? smp_processor_id).

Definition other_cpu_in_panic : M bool := gets panic_elsewhere.

(** The state word a successful direct or requested acquire installs. *)
Definition acquire_new (c : nbcon_context) (cur : nbcon_state)
  : nbcon_state :=
  mkState (ctxt_prio c) NBCON_PRIO_NONE (unsafe_takeover cur)
          (unsafe_takeover cur) smp_processor_id.

(** nbcon_context_try_acquire_direct (lines 240-272).  The WARN_ON_ONCE
    only reports; it does not change the control flow. *)
Definition nbcon_context_try_acquire_direct
           (c : nbcon_context) (cur : nbcon_state) : M (Z * nbcon_state) :=
  x <- cmpxchg_loop
         (fun cur =>
            panic <- other_cpu_in_panic ;;
            if panic then ret (Leave (- EPERM))
            else if prio_leb (ctxt_prio c) (prio cur) ||
                    prio_leb (ctxt_prio c) (req_prio cur)
            then ret (Leave (- EPERM))
            else if unsafe cur then ret (Leave (- EBUSY))
            else ret (Swap (acquire_new c cur)))
         cur ;;
  match x with
  | Left err cur => ret (err, cur)
  | Swapped cur _ => ret (0, cur)
  end.

(** nbcon_waiter_matches (lines 274-294) *)
Definition nbcon_waiter_matches (cur : nbcon_state)
           (expected_prio : nbcon_prio) : bool :=
  prio_eqb (req_prio cur) expected_prio.

(** nbcon_context_try_acquire_requested (lines 320-365) *)
Definition nbcon_context_try_acquire_requested
           (c : nbcon_context) (cur : nbcon_state) : M (Z * nbcon_state) :=
  panic <- other_cpu_in_panic ;;
  if panic then ret (- EPERM, cur)
  else if negb (nbcon_waiter_matches cur (ctxt_prio c))
  then ret (- EPERM, cur)
  else if negb (prio_eqb (prio cur) NBCON_PRIO_NONE)
  then ret (- EBUSY, cur)
  else
    '(ok, cur) <- nbcon_state_try_cmpxchg cur (acquire_new c cur) ;;
    if negb ok then ret (- EPERM, cur)
    else ret (0, cur).

Definition set_req_prio (cur : nbcon_state) (p : nbcon_prio)
  : nbcon_state :=
  mkState (prio cur) p (unsafe cur) (unsafe_takeover cur) (cpu cur).

Definition udelay (usecs : Z) : M unit := ret tt.

(** The value an [int] takes when it is assigned [z]: the low 32 bits, read
    as a two's complement number. *)
Definition INT_MAX : Z := 2147483647.
Definition to_int (z : Z) : Z :=
  (z + (INT_MAX + 1)) mod (2 * (INT_MAX + 1)) - (INT_MAX + 1).

(** The spin loop of the handover (lines 446-463); [n] is the number of
    iterations left, [request_err] the value the variable holds. *)
Fixpoint handover_spin (n : nat) (c : nbcon_context) (cur : nbcon_state)
         (request_err : Z) : M (Z * nbcon_state) :=
  match n with
  | O => ret (request_err, cur)
  | S n' =>
      '(request_err, cur) <- nbcon_context_try_acquire_requested c cur ;;
      if request_err =? 0 then ret (0, cur)
      else if request_err =? - EPERM then ret (request_err, cur)
      else
        udelay 1 ;;;
        cur <- nbcon_state_read ;;
        handover_spin n' c cur request_err
  end.

(** The removal of the request (lines 466-494). *)
Fixpoint handover_unset (fuel : nat) (c : nbcon_context)
         (cur : nbcon_state) (request_err : Z) : M (Z * nbcon_state) :=
  match fuel with
  | O => out_of_fuel
  | S fuel' =>
      if negb (nbcon_waiter_matches cur (ctxt_prio c))
      then ret (- EPERM, cur)
      else
        let new := set_req_prio cur NBCON_PRIO_NONE in
        '(ok, cur) <- nbcon_state_try_cmpxchg cur new ;;
        if ok then ret (request_err, new)
        else
          '(err, cur) <- nbcon_context_try_acquire_requested c cur ;;
          if err =? 0 then ret (0, cur)
          else handover_unset fuel' c cur request_err
  end.

(** nbcon_context_try_acquire_handover (lines 403-495).  [timeout] is an
    [int] (line 409): the assignment of line 446 converts the budget to
    it, and the loop runs while [timeout >= 0], that is [timeout + 1]
    times, and not at all when the conversion made it negative. *)
Definition nbcon_context_try_acquire_handover
           (c : nbcon_context) (cur : nbcon_state) : M (Z * nbcon_state) :=
  if cpu cur =? smp_processor_id then ret (- EBUSY, cur)
  else if unsafe_takeover cur then ret (- EBUSY, cur)
  else if spinwait_max_us c =? 0 then ret (- EBUSY, cur)
  else
    let new := set_req_prio cur (ctxt_prio c) in
    '(ok, cur) <- nbcon_state_try_cmpxchg cur new ;;
    if negb ok then ret (- EAGAIN, cur)
    else
      let cur := new in
      let timeout := to_int (spinwait_max_us c) in
      '(request_err, cur) <-
         handover_spin (Z.to_nat (timeout + 1)) c cur (- EBUSY) ;;
      if request_err =? 0 then ret (0, cur)
      else fun w => handover_unset (cas_fuel w) c cur request_err w.

(** The state word a hostile takeover installs. *)
Definition hostile_new (c : nbcon_context) (cur : nbcon_state)
  : nbcon_state :=
  mkState (ctxt_prio c) (req_prio cur)
          (unsafe cur || unsafe_takeover cur)
          (unsafe_takeover cur || unsafe cur) smp_processor_id.

(** nbcon_context_try_acquire_hostile (lines 509-540) *)
Definition nbcon_context_try_acquire_hostile
           (c : nbcon_context) (cur : nbcon_state) : M (Z * nbcon_state) :=
  if negb (allow_unsafe_takeover c) then ret (- EPERM, cur)
  else if negb (prio_eqb (ctxt_prio c) NBCON_PRIO_PANIC)
  then ret (- EPERM, cur)
  else
    x <- cmpxchg_loop (R := Z)
           (fun cur => ret (Swap (hostile_new c cur))) cur ;;
    match x with
    | Left err cur => ret (err, cur)
    | Swapped cur _ => ret (0, cur)
    end.

(** The [try_again] loop of nbcon_context_try_acquire (lines 564-576);
    returns [err]. *)
Fixpoint try_acquire_loop (fuel : nat) (c : nbcon_context)
         (cur : nbcon_state) : M Z :=
  match fuel with
  | O => out_of_fuel
  | S fuel' =>
      '(err, cur) <- nbcon_context_try_acquire_direct c cur ;;
      if negb (err =? - EBUSY) then ret err
      else
        '(err, cur) <- nbcon_context_try_acquire_handover c cur ;;
        if err =? - EAGAIN then try_acquire_loop fuel' c cur
        else if negb (err =? - EBUSY) then ret err
        else
          '(err, _) <- nbcon_context_try_acquire_hostile c cur ;;
          ret err
  end.

(** nbcon_context_try_acquire (lines 556-592) *)
Definition nbcon_context_try_acquire (c : nbcon_context)
  : M (bool * nbcon_context) :=
  cur <- nbcon_state_read ;;
  err <- (fun w => try_acquire_loop (cas_fuel w) c cur w) ;;
  if negb (err =? 0) then ret (false, c)
  else
    pcpu <- gets panic_cpu ;;
    let c := if pcpu =? smp_processor_id
             then set_pbufs c PBUFS_PANIC
             else set_pbufs c PBUFS_CONSOLE in
    s <- nbcon_seq_read ;;
    ret (true, set_ctxt_seq c s).

(** nbcon_owner_matches (lines 594-612) *)
Definition nbcon_owner_matches (cur : nbcon_state) (expected_cpu : Z)
           (expected_prio : nbcon_prio) : bool :=
  if negb (prio_eqb (prio cur) expected_prio) then false
  else if negb (cpu cur =? expected_cpu) then false
  else true.

(** The state word a release installs. *)
Definition release_new (cur : nbcon_state) : nbcon_state :=
  mkState NBCON_PRIO_NONE (req_prio cur)
          (unsafe cur || unsafe_takeover cur) (unsafe_takeover cur)
          (cpu cur).

(** nbcon_context_release (lines 618-643) *)
Definition nbcon_context_release (c : nbcon_context) : M nbcon_context :=
  cur <- nbcon_state_read ;;
  cmpxchg_loop
    (fun cur =>
       if negb (nbcon_owner_matches cur smp_processor_id (ctxt_prio c))
       then ret (Leave tt)
       else ret (Swap (release_new cur)))
    cur ;;;
  ret (set_pbufs c PBUFS_NULL).

(** nbcon_context_can_proceed (lines 671-714); the context comes back
    because a release clears its [pbufs]. *)
Definition nbcon_context_can_proceed (c : nbcon_context)
           (cur : nbcon_state) : M (bool * nbcon_context) :=
  if negb (nbcon_owner_matches cur smp_processor_id (ctxt_prio c))
  then ret (false, c)
  else if prio_eqb (req_prio cur) NBCON_PRIO_NONE then ret (true, c)
  else if unsafe cur then ret (true, c)
  else
    c <- nbcon_context_release c ;;
    ret (false, c).

Definition set_unsafe (cur : nbcon_state) (u : bool) : nbcon_state :=
  mkState (prio cur) (req_prio cur) u (unsafe_takeover cur) (cpu cur).

(** __nbcon_context_update_unsafe (lines 773-799).  The loop is left
    with [None] at [goto out] and with [Some c] at [return false]. *)
Definition __nbcon_context_update_unsafe (c : nbcon_context) (u : bool)
  : M (bool * nbcon_context) :=
  cur <- nbcon_state_read ;;
  x <- cmpxchg_loop
         (fun cur =>
            if negb u && unsafe_takeover cur then ret (Leave None)
            else
              '(ok, c') <- nbcon_context_can_proceed c cur ;;
              if negb ok then ret (Leave (Some c'))
              else ret (Swap (set_unsafe cur u)))
         cur ;;
  match x with
  | Left (Some c') _ => ret (false, c')
  | Left None cur => nbcon_context_can_proceed c cur
  | Swapped _ new => nbcon_context_can_proceed c new
  end.

Definition nbcon_context_enter_unsafe (c : nbcon_context) :=
  __nbcon_context_update_unsafe c true.
Definition nbcon_context_exit_unsafe (c : nbcon_context) :=
  __nbcon_context_update_unsafe c false.

End Protocol.

(** ** The record emitter and the flush (nbcon.c, lines 890-1012, 1214-1387) *)

(** Modelled from the spec: the two notices of printk.c, which is not part
    of the tree at hand.  Each is put in front of the rendered text, so the
    output buffer grows by the length of the notice. *)
Definition replay_notice : string :=
  "** replaying previous printk message **" ++ String "010" EmptyString.

Definition dropped_notice (dropped : N) : string :=
  "** " ++ NilEmpty.string_of_uint (N.to_uint dropped) ++
  " printk messages dropped **" ++ String "010" EmptyString.

Definition console_prepend_replay (m : printk_message) : printk_message :=
  mkPmsg (replay_notice ++ pmsg_outbuf m) (pmsg_seq m) (pmsg_dropped m).

Definition console_prepend_dropped (m : printk_message) (dropped : N)
  : printk_message :=
  mkPmsg (dropped_notice dropped ++ pmsg_outbuf m) (pmsg_seq m)
         (pmsg_dropped m).

(** A driver write callback: it is handed the write context and works on the
    console state word (through nbcon_can_proceed, nbcon_enter_unsafe,
    nbcon_exit_unsafe and nbcon_reacquire); it hands back the write context,
    with [outbuf = None] if it lost and reacquired ownership. *)
Definition write_callback : Type :=
  nbcon_write_context -> nbcon_state -> nbcon_write_context * nbcon_state.

Section Emitter.

Variable smp_processor_id : Z.

(** [console_srcu_read_flags(con) & CON_EXTENDED] *)
Variable is_extended : bool.

(** The ring buffer reader [printk_get_next_message(&pmsg, seq,
    is_extended, may_suppress)] of printk.c: [None] when it returns false,
    otherwise the message it filled in. *)
Variable printk_get_next_message : N -> bool -> bool -> option printk_message.

(** [con->write_atomic] and [con->write_thread]; [None] is a NULL
    callback. *)
Variable write_atomic : option write_callback.
Variable write_thread : option write_callback.

(** The emergency nesting counter of this CPU. *)
Variable cpu_emergency_nesting : Z.

Definition call_driver (use_atomic : bool) (cb : write_callback)
           (wc : nbcon_write_context) : M nbcon_write_context :=
  fun w =>
    let '(wc', s') := cb wc (con_nbcon_state w) in
    Some (wc', set_nbcon_state s'
                 (log_driver_call
                    (mkCall use_atomic
                            match outbuf wc with
                            | Some t => t
                            | None => EmptyString
                            end
                            match outbuf wc' with
                            | Some _ => true
                            | None => false
                            end) w)).

(** The tail of nbcon_emit_next_record from the label [update_con]
    (lines 994-1011). *)
Definition emit_update_con (wctxt : nbcon_write_context)
           (c : nbcon_context) (pmsg : printk_message)
           (con_dropped_seen dropped : N)
  : M (bool * nbcon_write_context) :=
  '(ok, c) <- nbcon_context_enter_unsafe smp_processor_id c ;;
  if negb ok then ret (false, set_ctxt wctxt c)
  else
    (if negb (dropped =? con_dropped_seen)%N
     then modify (set_dropped dropped)
     else ret tt) ;;;
    c <- nbcon_seq_try_update c (u64_add (pmsg_seq pmsg) 1) ;;
    '(ok, c) <- nbcon_context_exit_unsafe smp_processor_id c ;;
    ret (ok, set_ctxt wctxt c).

(** The replay marking of nbcon_emit_next_record (lines 927-947): the
    flag is false when the ownership check fails and the function returns
    false. *)
Definition emit_mark_replay (c : nbcon_context) (pmsg : printk_message)
  : M (bool * nbcon_context * printk_message) :=
  ulseq <- nbcon_prev_seq_read ;;
  if (__ulseq_to_u64seq ulseq =? pmsg_seq pmsg)%N
  then ret (true, c, console_prepend_replay pmsg)
  else
    cur <- nbcon_state_read ;;
    '(ok, c) <- nbcon_context_can_proceed smp_processor_id c cur ;;
    if negb ok then ret (false, c, pmsg)
    else
      nbcon_prev_seq_try_cmpxchg
        ulseq (__u64seq_to_ulseq (pmsg_seq pmsg)) ;;;
      ret (true, c, pmsg).

(** nbcon_emit_next_record (lines 890-1012) *)
Definition nbcon_emit_next_record (wctxt : nbcon_write_context)
           (use_atomic : bool) : M (bool * nbcon_write_context) :=
  '(ok, c) <- nbcon_context_enter_unsafe smp_processor_id (ctxt wctxt) ;;
  if negb ok then ret (false, set_ctxt wctxt c)
  else
    match printk_get_next_message (ctxt_seq c) is_extended true with
    | None =>
        '(ok, c) <- nbcon_context_exit_unsafe smp_processor_id
                                             (set_backlog c false) ;;
        ret (ok, set_ctxt wctxt c)
    | Some pmsg =>
        let c := set_backlog c true in
        con_dropped_seen <- gets con_dropped ;;
        let dropped := u64_add con_dropped_seen (pmsg_dropped pmsg) in
        let pmsg := if negb (dropped =? 0)%N && negb is_extended
                    then console_prepend_dropped pmsg dropped
                    else pmsg in
        '(ok, c, pmsg) <- emit_mark_replay c pmsg ;;
        if negb ok then ret (false, set_ctxt wctxt c)
        else
          '(ok, c) <- nbcon_context_exit_unsafe smp_processor_id c ;;
          if negb ok then ret (false, set_ctxt wctxt c)
          else if (outbuf_len pmsg =? 0)%N
          then emit_update_con wctxt c pmsg con_dropped_seen dropped
          else
            cur <- nbcon_state_read ;;
            let wctxt := mkWctxt c (Some (pmsg_outbuf pmsg))
                                 (outbuf_len pmsg) (unsafe_takeover cur) in
            match (if use_atomic then write_atomic else write_thread) with
            | None =>
                c <- nbcon_context_release smp_processor_id c ;;
                ret (false, set_ctxt wctxt c)
            | Some cb =>
                wctxt <- call_driver use_atomic cb wctxt ;;
                match outbuf wctxt with
                | None =>
                    c <- nbcon_context_release smp_processor_id
                                               (ctxt wctxt) ;;
                    ret (false, set_ctxt wctxt c)
                | Some _ =>
                    emit_update_con wctxt (ctxt wctxt) pmsg
                                    con_dropped_seen 0%N
                end
            end
    end.

(** Modelled from the spec: [this_cpu_in_panic()] of printk.c compares the
    panic CPU with the running one.  nbcon_get_default_prio
    (lines 1214-1226). *)
Definition nbcon_get_default_prio : M nbcon_prio :=
  pcpu <- gets panic_cpu ;;
  if pcpu =? smp_processor_id then ret NBCON_PRIO_PANIC
  else if negb (cpu_emergency_nesting =? 0) then ret NBCON_PRIO_EMERGENCY
  else ret NBCON_PRIO_NORMAL.

(** The [while] loop of __nbcon_atomic_flush_pending_con
    (lines 1368-1383): [inl err] is a [return err] from inside the loop,
    [inr err] leaves the loop towards the release. *)
Fixpoint flush_loop (fuel : nat) (wctxt : nbcon_write_context)
         (stop_seq : N)
  : M (Z * nbcon_write_context + Z * nbcon_write_context) :=
  match fuel with
  | O => out_of_fuel
  | S fuel' =>
      s <- nbcon_seq_read ;;
      if negb (s <? stop_seq)%N then ret (inr (0, wctxt))
      else
        '(ok, wctxt) <- nbcon_emit_next_record wctxt true ;;
        if negb ok then ret (inl (- EAGAIN, wctxt))
        else if negb (backlog (ctxt wctxt))
        then
          s <- nbcon_seq_read ;;
          if (s <? stop_seq)%N then ret (inr (- ENOENT, wctxt))
          else ret (inr (0, wctxt))
        else flush_loop fuel' wctxt stop_seq
  end.

(** The bound on the flush loop: between two events the cursor is put in
    step once and then advances with every record. *)
Definition flush_fuel (stop_seq : N) (w : world) : nat :=
  (S (List.length (sched w)) * (N.to_nat stop_seq + 2))%nat.

(** __nbcon_atomic_flush_pending_con (lines 1353-1387) *)
Definition __nbcon_atomic_flush_pending_con (stop_seq : N)
           (allow_unsafe_takeover : bool) : M Z :=
  p <- nbcon_get_default_prio ;;
  let c := mkCtxt p allow_unsafe_takeover 2000 0 false PBUFS_NULL in
  '(ok, c) <- nbcon_context_try_acquire smp_processor_id c ;;
  if negb ok then ret (- EPERM)
  else
    let wctxt := mkWctxt c None 0 false in
    x <- (fun w => flush_loop (flush_fuel stop_seq w) wctxt stop_seq w) ;;
    match x with
    | inl (err, _) => ret err
    | inr (err, wctxt) =>
        nbcon_context_release smp_processor_id (ctxt wctxt) ;;;
        ret err
    end.

End Emitter.

(** nbcon_init (lines 1719-1732) and nbcon_free (lines 1738-1750), as far as
    the shared words go: both store the all-zero state. *)
Definition nbcon_init (first_valid_seq init_seq : N) : M unit :=
  nbcon_seq_force first_valid_seq init_seq ;;;
  modify (set_nbcon_prev_seq u64_max) ;;;
  nbcon_state_set nbcon_state_zero.

Definition nbcon_free : M unit :=
  nbcon_state_set nbcon_state_zero.

(** ** Vocabulary of the specifications *)

(** Total correctness: from [w] the computation [m] finishes within its
    bound, with a result and a final world that satisfy [Q]. *)
Definition returns {A : Type} (m : M A) (w : world)
           (Q : A -> world -> Prop) : Prop :=
  exists a w', m w = Some (a, w') /\ Q a w'.

(** A property of the world that no step of the environment breaks. *)
Definition stable (I : world -> Prop) : Prop :=
  forall e rest w,
    sched w = e :: rest -> I w -> I (apply_event e (set_sched rest w)).

(** What every store of the protocol to the state word has in common: a set
    [unsafe_takeover] bit stays set. *)
Definition takeover_kept (old new : nbcon_state) : Prop :=
  unsafe_takeover old = true -> unsafe_takeover new = true.

(** [I] survives the environment and every such store. *)
Definition respected (I : world -> Prop) : Prop :=
  stable I /\
  forall w new,
    I w -> takeover_kept (con_nbcon_state w) new -> I (set_nbcon_state new w).

(** The interference of contexts that follow the protocol: once the bit is
    set, a state word they store has it set. *)
Definition event_keeps_takeover (e : env_event) : Prop :=
  match ev_state e with
  | Some s => unsafe_takeover s = true
  | None => True
  end.

Definition takeover_is_sticky (w : world) : Prop :=
  unsafe_takeover (con_nbcon_state w) = true /\
  Forall event_keeps_takeover (sched w).



(** How many exchanges that expect [cur] can still fail in [w]: one per
    event to come, and one more if [cur] is not the current word. *)
Definition stale_attempts (cur : nbcon_state) (w : world) : nat :=
  (List.length (sched w) +
   (if nbcon_state_eqb (con_nbcon_state w) cur then 0 else 1))%nat.

(** No interference is left. *)
Definition quiet (w : world) : Prop := sched w = [].

(** The outcome of a direct acquire in terms of the state word [cur] it
    decided on and the world [w] it returned in. *)
Definition direct_outcome (smp_processor_id : Z) (c : nbcon_context)
           (err : Z) (cur : nbcon_state) (w : world) : Prop :=
  (err = - EPERM /\
   (panic_elsewhere smp_processor_id w = true \/
    prio_val (ctxt_prio c) <= prio_val (prio cur) \/
    prio_val (ctxt_prio c) <= prio_val (req_prio cur))) \/
  (err = - EBUSY /\
   panic_elsewhere smp_processor_id w = false /\
   prio_val (prio cur) < prio_val (ctxt_prio c) /\
   prio_val (req_prio cur) < prio_val (ctxt_prio c) /\
   unsafe cur = true) \/
  (err = 0 /\
   prio_val (prio cur) < prio_val (ctxt_prio c) /\
   prio_val (req_prio cur) < prio_val (ctxt_prio c) /\
   unsafe cur = false /\
   con_nbcon_state w =
   mkState (ctxt_prio c) NBCON_PRIO_NONE (unsafe_takeover cur)
           (unsafe_takeover cur) smp_processor_id).

(** The outcome of an acquire by the registered waiter. *)
Definition requested_outcome (smp_processor_id : Z) (c : nbcon_context)
           (cur : nbcon_state) (err : Z) (cur' : nbcon_state) (w : world)
  : Prop :=
  (err = 0 /\ cur' = cur /\
   prio cur = NBCON_PRIO_NONE /\ req_prio cur = ctxt_prio c /\
   con_nbcon_state w = acquire_new smp_processor_id c cur) \/
  (err = - EBUSY /\ cur' = cur /\ prio cur <> NBCON_PRIO_NONE) \/
  err = - EPERM.

(** The values an acquire attempt of one waiter can end with. *)
Definition acquire_errno (err : Z) : Prop :=
  err = 0 \/ err = - EPERM \/ err = - EBUSY.



(** What the emitter needs of an invariant besides [respected]: it survives
    the stores to [dropped] and [nbcon_prev_seq] and a run of the driver. *)
Definition emitter_respected (I : world -> Prop) : Prop :=
  respected I /\
  (forall w n, I w -> I (set_dropped n w)) /\
  (forall w n, I w -> I (set_nbcon_prev_seq n w)) /\
  (forall w s x, I w -> I (set_nbcon_state s (log_driver_call x w))).

(** The cursor is [n] and no interference to come touches it. *)
Definition event_leaves_seq (e : env_event) : Prop := ev_seq e = None.

Definition seq_is (n : N) (w : world) : Prop :=
  con_nbcon_seq w = n /\ Forall event_leaves_seq (sched w).

(** At most [k] events are left. *)
Definition sched_within (k : nat) (w : world) : Prop :=
  (List.length (sched w) <= k)%nat.

(** The ring buffer reader returns the record at [seq] or a later one, and
    sequence numbers stay below the largest u64. *)
Definition reader_in_order
           (rd : N -> bool -> bool -> option printk_message) : Prop :=
  forall s e ms m,
    rd s e ms = Some m -> (s <= pmsg_seq m /\ pmsg_seq m < u64_max)%N.

(** The context inside a write context is private to nbcon.c.  A driver
    changes it only through the exported functions: a release inside
    nbcon_can_proceed, nbcon_enter_unsafe or nbcon_exit_unsafe clears
    [pbufs], and nbcon_reacquire keeps the priority and hands back a NULL
    [outbuf]. *)
Definition same_context (c c' : nbcon_context) : Prop :=
  c' = c \/ c' = set_pbufs c PBUFS_NULL.

Definition callback_keeps_context (cb : option write_callback) : Prop :=
  forall f wc s,
    cb = Some f ->
    ctxt_prio (ctxt (fst (f wc s))) = ctxt_prio (ctxt wc) /\
    (outbuf (fst (f wc s)) <> None ->
     same_context (ctxt wc) (ctxt (fst (f wc s)))).

(** An invariant that survives an advance of the cursor. *)
Definition seq_tolerant (I : world -> Prop) : Prop :=
  forall w new,
    I w -> (con_nbcon_seq w < new)%N -> I (set_nbcon_seq new w).

(** What bounds the iterations of the flush loop that are still to come. *)
Definition flush_measure (stop_seq : N) (wctxt : nbcon_write_context)
           (w : world) : nat :=
  (List.length (sched w) * (N.to_nat stop_seq + 2) +
   (N.to_nat stop_seq - N.to_nat (con_nbcon_seq w)) +
   (if (ctxt_seq (ctxt wctxt) =? con_nbcon_seq w)%N then 0 else 1))%nat.

(** The previous-owner sequence is [v] and no interference to come touches
    it. *)
Definition event_leaves_prev_seq (e : env_event) : Prop :=
  ev_prev_seq e = None.

Definition prev_seq_is (v : N) (w : world) : Prop :=
  con_nbcon_prev_seq w = v /\ Forall event_leaves_prev_seq (sched w).

(** What the drivers have been handed so far. *)
Definition handed_to_driver (l : list driver_call) (w : world) : Prop :=
  driver_calls w = l.

(** ** Scenarios used to exercise the theorems *)

Definition no_event : env_event := mkEvent None None None None None.
Definition state_event (s : nbcon_state) : env_event :=
  mkEvent (Some s) None None None None.

(** A console owned by a NORMAL context on CPU 1, in a safe region. *)
Definition owned_safe : nbcon_state :=
  mkState NBCON_PRIO_NORMAL NBCON_PRIO_NONE false false 1.
(** The same owner inside an unsafe region. *)
Definition owned_unsafe : nbcon_state :=
  mkState NBCON_PRIO_NORMAL NBCON_PRIO_NONE true false 1.

Definition world_of (s : nbcon_state) (l : list env_event) : world :=
  mkWorld s 5 4 0 PANIC_CPU_INVALID l [].

Definition ctxt_of (p : nbcon_prio) (allow : bool) (spin : Z)
  : nbcon_context :=
  mkCtxt p allow spin 5 false PBUFS_CONSOLE.

(** A console that went through a hostile takeover, owned by a PANIC context
    on CPU 0, with one more store of a protocol-abiding context to come. *)
Definition takeover_state : nbcon_state :=
  mkState NBCON_PRIO_PANIC NBCON_PRIO_NONE true true 0.
Definition takeover_world : world :=
  world_of takeover_state
           [state_event (mkState NBCON_PRIO_NONE NBCON_PRIO_NONE true true 0)].

(** The NORMAL owner on CPU 1 at a safe point, with a handover request of an
    EMERGENCY context pending. *)
Definition handover_pending : nbcon_state :=
  mkState NBCON_PRIO_NORMAL NBCON_PRIO_EMERGENCY false false 1.
(** The word after that owner has released: the request is still there. *)
Definition released_with_request : nbcon_state :=
  mkState NBCON_PRIO_NONE NBCON_PRIO_EMERGENCY false false 1.

(** The console owned by the NORMAL printer on CPU 0, at a safe point. *)
Definition owned_by_cpu0 : nbcon_state :=
  mkState NBCON_PRIO_NORMAL NBCON_PRIO_NONE false false 0.

Definition printer : nbcon_context := ctxt_of NBCON_PRIO_NORMAL false 0.
Definition printer_wctxt : nbcon_write_context :=
  mkWctxt printer None 0 false.

(** A ring buffer that holds the records 0 to 7. *)
Definition reader_all (s : N) (is_extended may_suppress : bool)
  : option printk_message :=
  if (s <? 8)%N then Some (mkPmsg "hello" s 0) else None.

(** A ring buffer that has reclaimed everything below record 6 and holds
    the records 6 and 7. *)
Definition reader_after_reclaim (s : N) (is_extended may_suppress : bool)
  : option printk_message :=
  if (s <? 8)%N
  then Some (mkPmsg "hello" (N.max s 6) (N.max s 6 - s))
  else None.

(** A driver that writes the text out and keeps ownership. *)
Definition plain_driver : write_callback := fun wc s => (wc, s).

(** The printer owns the console and the previous-owner sequence already
    holds the sequence of the record to print. *)
Definition replay_world : world :=
  mkWorld owned_by_cpu0 5 5 0 PANIC_CPU_INVALID [] [].

(** Interference for a retry by the same owner: while the printer is inside
    its unsafe region an EMERGENCY context posts a handover request; after
    the printer has released, that context acquires the console and
    releases it again without printing. *)
Definition request_posted : nbcon_state :=
  mkState NBCON_PRIO_NORMAL NBCON_PRIO_EMERGENCY true false 0.

Definition retry_schedule : list env_event :=
  [no_event; no_event; no_event; state_event request_posted;
   no_event; no_event; no_event; no_event; no_event;
   state_event (mkState NBCON_PRIO_NONE NBCON_PRIO_NONE false false 1)].

(** The second attempt of the same context: acquire again, then emit. *)
Definition reacquire_and_emit (wc : nbcon_write_context)
  : M (bool * nbcon_write_context) :=
  '(_, c) <- nbcon_context_try_acquire 0 (ctxt wc) ;;
  nbcon_emit_next_record 0 false reader_all (Some plain_driver) None
                         (set_ctxt wc c) true.

(** ** The exported entry points and the callers
    (nbcon.c, lines 739-870, 1245-1327, 1401-1607, 1771-1817) *)

(** [struct nbcon_write_context wctxt = { }] and [memset(ctxt, 0, ...)]. *)
Definition nbcon_context_zero : nbcon_context :=
  mkCtxt NBCON_PRIO_NONE false 0 0 false PBUFS_NULL.

Definition nbcon_write_context_zero : nbcon_write_context :=
  mkWctxt nbcon_context_zero None 0 false.

Definition set_ctxt_prio (c : nbcon_context) (p : nbcon_prio)
  : nbcon_context :=
  mkCtxt p (allow_unsafe_takeover c) (spinwait_max_us c)
         (ctxt_seq c) (backlog c) (pbufs c).

Definition cpu_relax : M unit := ret tt.

Section Callers.

Variable smp_processor_id : Z.
Variable is_extended : bool.
Variable printk_get_next_message : N -> bool -> bool -> option printk_message.
Variable write_atomic : option write_callback.
Variable write_thread : option write_callback.
Variable cpu_emergency_nesting : Z.

(** The ring buffer as the callers query it: [prb_read_valid(prb, seq,
    NULL)] and [prb_next_reserve_seq(prb)]. *)
Variable prb_read_valid : N -> bool.
Variable prb_next_reserve_seq : N.

(** [con->kthread] is not NULL; [system_state > SYSTEM_RUNNING];
    [console_srcu_read_flags(con) & CON_NBCON];
    [console_is_usable(con, flags, use_atomic)] as a function of
    [use_atomic]. *)
Variable con_kthread : bool.
Variable system_state_after_running : bool.
Variable con_flags_nbcon : bool.
Variable console_is_usable : bool -> bool.

(** What [console_lock_spinning_disable_and_check(cookie)] of printk.c
    answers. *)
Variable console_lock_spinning_disable_and_check : bool.

(** nbcon_can_proceed (lines 739-748) *)
Definition nbcon_can_proceed (wctxt : nbcon_write_context)
  : M (bool * nbcon_write_context) :=
  cur <- nbcon_state_read ;;
  '(ok, c) <- nbcon_context_can_proceed smp_processor_id (ctxt wctxt) cur ;;
  ret (ok, set_ctxt wctxt c).

(** nbcon_enter_unsafe (lines 813-818) *)
Definition nbcon_enter_unsafe (wctxt : nbcon_write_context)
  : M (bool * nbcon_write_context) :=
  '(ok, c) <- nbcon_context_enter_unsafe smp_processor_id (ctxt wctxt) ;;
  ret (ok, set_ctxt wctxt c).

(** nbcon_exit_unsafe (lines 833-838) *)
Definition nbcon_exit_unsafe (wctxt : nbcon_write_context)
  : M (bool * nbcon_write_context) :=
  '(ok, c) <- nbcon_context_exit_unsafe smp_processor_id (ctxt wctxt) ;;
  ret (ok, set_ctxt wctxt c).

(** The loop of nbcon_reacquire (lines 863-864).  The source spins without
    a bound; [fuel] is the number of attempts the model allows. *)
Fixpoint reacquire_spin (fuel : nat) (c : nbcon_context)
  : M nbcon_context :=
  match fuel with
  | O => out_of_fuel
  | S fuel' =>
      '(ok, c) <- nbcon_context_try_acquire smp_processor_id c ;;
      if ok then ret c
      else cpu_relax ;;; reacquire_spin fuel' c
  end.

(** nbcon_reacquire (lines 857-870) *)
Definition nbcon_reacquire (fuel : nat) (wctxt : nbcon_write_context)
  : M nbcon_write_context :=
  c <- reacquire_spin fuel (ctxt wctxt) ;;
  cur <- nbcon_state_read ;;
  ret (mkWctxt c None 0 (unsafe_takeover cur)).

(** nbcon_emit_one (lines 1245-1266) *)
Definition nbcon_emit_one (wctxt : nbcon_write_context) (use_atomic : bool)
  : M (bool * nbcon_write_context) :=
  '(ok, c) <- nbcon_context_try_acquire smp_processor_id (ctxt wctxt) ;;
  let wctxt := set_ctxt wctxt c in
  if negb ok then ret (false, wctxt)
  else
    '(ok, wctxt) <- nbcon_emit_next_record
                      smp_processor_id is_extended printk_get_next_message
                      write_atomic write_thread wctxt use_atomic ;;
    if negb ok then ret (false, wctxt)
    else
      c <- nbcon_context_release smp_processor_id (ctxt wctxt) ;;
      ret (backlog c, set_ctxt wctxt c).

(** nbcon_legacy_emit_next_record (lines 1292-1327); the result is
    [progress] and what is stored to [*handover].  The interrupt, lockdep
    and device-lock brackets do not touch the console's words. *)
Definition nbcon_legacy_emit_next_record (use_atomic : bool)
  : M (bool * bool) :=
  let wctxt := nbcon_write_context_zero in
  if use_atomic
  then
    p <- nbcon_get_default_prio smp_processor_id cpu_emergency_nesting ;;
    '(progress, _) <-
       nbcon_emit_one (set_ctxt wctxt (set_ctxt_prio (ctxt wctxt) p))
                      use_atomic ;;
    ret (progress, console_lock_spinning_disable_and_check)
  else
    p <- nbcon_get_default_prio smp_processor_id cpu_emergency_nesting ;;
    '(progress, _) <-
       nbcon_emit_one (set_ctxt wctxt (set_ctxt_prio (ctxt wctxt) p))
                      use_atomic ;;
    ret (progress, false).

(** nbcon_atomic_flush_pending_con (lines 1401-1441).  The source jumps
    back to [again] without a bound; [fuel] is the number of rounds the
    model allows. *)
Fixpoint nbcon_atomic_flush_pending_con (fuel : nat) (stop_seq : N)
         (allow_unsafe_takeover : bool) : M unit :=
  match fuel with
  | O => out_of_fuel
  | S fuel' =>
      err <- __nbcon_atomic_flush_pending_con
               smp_processor_id is_extended printk_get_next_message
               write_atomic write_thread cpu_emergency_nesting
               stop_seq allow_unsafe_takeover ;;
      if negb (err =? 0) then ret tt
      else if negb con_kthread || system_state_after_running
      then
        s <- nbcon_seq_read ;;
        if prb_read_valid s
        then nbcon_atomic_flush_pending_con
               fuel' prb_next_reserve_seq allow_unsafe_takeover
        else ret tt
      else ret tt
  end.

(** __nbcon_atomic_flush_pending (lines 1449-1470): the body of
    [for_each_console_srcu] for the one console of the model. *)
Definition __nbcon_atomic_flush_pending (fuel : nat) (stop_seq : N)
           (allow_unsafe_takeover : bool) : M unit :=
  if negb con_flags_nbcon then ret tt
  else if negb (console_is_usable true) then ret tt
  else
    s <- nbcon_seq_read ;;
    if (stop_seq <=? s)%N then ret tt
    else nbcon_atomic_flush_pending_con fuel stop_seq allow_unsafe_takeover.

(** nbcon_atomic_flush_pending (lines 1480-1483) *)
Definition nbcon_atomic_flush_pending (fuel : nat) : M unit :=
  __nbcon_atomic_flush_pending fuel prb_next_reserve_seq false.

(** nbcon_atomic_flush_unsafe (lines 1492-1495) *)
Definition nbcon_atomic_flush_unsafe (fuel : nat) : M unit :=
  __nbcon_atomic_flush_pending fuel prb_next_reserve_seq true.

(** nbcon_device_try_acquire (lines 1771-1788); the second component is
    what [con->nbcon_device_ctxt] holds afterwards. *)
Definition nbcon_device_try_acquire : M (bool * nbcon_context) :=
  let c := set_ctxt_prio nbcon_context_zero NBCON_PRIO_NORMAL in
  '(ok, c) <- nbcon_context_try_acquire smp_processor_id c ;;
  if negb ok then ret (false, c)
  else
    '(ok, c) <- nbcon_context_enter_unsafe smp_processor_id c ;;
    if negb ok then ret (false, c)
    else ret (true, c).

(** nbcon_device_release (lines 1795-1817), on the context kept in
    [con->nbcon_device_ctxt]. *)
Definition nbcon_device_release (c : nbcon_context) : M nbcon_context :=
  '(ok, c) <- nbcon_context_exit_unsafe smp_processor_id c ;;
  if negb ok then ret c
  else
    c <- nbcon_context_release smp_processor_id c ;;
    (if console_is_usable true &&
        (negb con_kthread || system_state_after_running)
     then
       s <- nbcon_seq_read ;;
       if prb_read_valid s
       then
         __nbcon_atomic_flush_pending_con
           smp_processor_id is_extended printk_get_next_message
           write_atomic write_thread cpu_emergency_nesting
           prb_next_reserve_seq false ;;;
         ret tt
       else ret tt
     else ret tt) ;;;
    ret c.

End Callers.

(** The per-CPU emergency nesting counter is an unsigned int. *)
Definition UINT_MAX : Z := 4294967295.

(** nbcon_cpu_emergency_enter (lines 1510-1518), on the value of the
    counter of this CPU. *)
Definition nbcon_cpu_emergency_enter (nesting : Z) : Z :=
  (nesting + 1) mod (UINT_MAX + 1).

Section Emergency.

Variable smp_processor_id : Z.
Variable is_extended : bool.
Variable printk_get_next_message : N -> bool -> bool -> option printk_message.
Variable write_atomic : option write_callback.
Variable write_thread : option write_callback.
Variable prb_read_valid : N -> bool.
Variable prb_next_reserve_seq : N.
Variable con_kthread : bool.
Variable system_state_after_running : bool.
Variable con_flags_nbcon : bool.
Variable console_is_usable : bool -> bool.

(** [force_printkthreads()], [printing_via_unlock],
    [is_printk_legacy_deferred()] and the answer of [console_trylock()];
    [console_unlock()] of printk.c flushes the legacy consoles and may work
    on the console's words. *)
Variable force_printkthreads : bool.
Variable printing_via_unlock : bool.
Variable is_printk_legacy_deferred : bool.
Variable console_trylock : bool.
Variable console_unlock : M unit.

(** nbcon_cpu_emergency_exit (lines 1528-1569): the new value of the
    counter and whether [printk_trigger_flush()] is called. *)
Definition nbcon_cpu_emergency_exit (fuel : nat) (nesting : Z)
  : M (Z * bool) :=
  do_trigger_flush <-
    (if nesting =? 1
     then
       nbcon_atomic_flush_pending
         smp_processor_id is_extended printk_get_next_message
         write_atomic write_thread nesting prb_read_valid
         prb_next_reserve_seq con_kthread system_state_after_running
         con_flags_nbcon console_is_usable fuel ;;;
       if negb force_printkthreads && printing_via_unlock &&
          negb is_printk_legacy_deferred
       then
         if console_trylock then console_unlock ;;; ret false
         else ret true
       else ret true
     else ret false) ;;
  let nesting := if nesting =? 0 then nesting else nesting - 1 in
  ret (nesting, do_trigger_flush).

(** nbcon_cpu_emergency_flush (lines 1582-1607) *)
Definition nbcon_cpu_emergency_flush (fuel : nat) (nesting : Z) : M unit :=
  let is_emergency := negb (nesting =? 0) in
  if negb is_emergency then ret tt
  else
    nbcon_atomic_flush_pending
      smp_processor_id is_extended printk_get_next_message
      write_atomic write_thread nesting prb_read_valid
      prb_next_reserve_seq con_kthread system_state_after_running
      con_flags_nbcon console_is_usable fuel ;;;
    if negb force_printkthreads && printing_via_unlock &&
       negb is_printk_legacy_deferred
    then
      if console_trylock then console_unlock else ret tt
    else ret tt.

End Emergency.

(** ** Vocabulary of the further properties *)

(** A direct acquire of [c] finds [cur] blocked by the unsafe bit alone. *)
Definition direct_busy (c : nbcon_context) (cur : nbcon_state) : Prop :=
  prio_val (prio cur) < prio_val (ctxt_prio c) /\
  prio_val (req_prio cur) < prio_val (ctxt_prio c) /\
  unsafe cur = true.

(** The stores of one acquire attempt of the context [c], by the phase they
    are made in.  [I] holds while [c] has no request posted, [W] while its
    request is posted and [J] once it owns the console; [SI] is what the
    state words seen in the first phase have in common.  Each store is
    described by the word it replaces, which is the word the function
    decided on: a direct acquire replaces a safe word of lower priority, the
    request is posted on the word the direct acquire found busy, the waiter
    acquires a word without owner that carries its request, the request is
    removed from a word that carries it, and a hostile takeover follows a
    direct acquire that found the console busy. *)
Definition acquire_phases (smp_processor_id : Z) (c : nbcon_context)
           (I W J : world -> Prop) (SI : nbcon_state -> Prop) : Prop :=
  stable I /\ stable W /\ stable J /\
  (forall w, I w -> SI (con_nbcon_state w)) /\
  (forall w,
      I w ->
      prio_val (prio (con_nbcon_state w)) < prio_val (ctxt_prio c) ->
      prio_val (req_prio (con_nbcon_state w)) < prio_val (ctxt_prio c) ->
      unsafe (con_nbcon_state w) = false ->
      J (set_nbcon_state
           (acquire_new smp_processor_id c (con_nbcon_state w)) w)) /\
  (forall w,
      I w -> direct_busy c (con_nbcon_state w) ->
      cpu (con_nbcon_state w) <> smp_processor_id ->
      unsafe_takeover (con_nbcon_state w) = false ->
      spinwait_max_us c <> 0 ->
      W (set_nbcon_state
           (set_req_prio (con_nbcon_state w) (ctxt_prio c)) w)) /\
  (forall w,
      W w ->
      prio (con_nbcon_state w) = NBCON_PRIO_NONE ->
      req_prio (con_nbcon_state w) = ctxt_prio c ->
      J (set_nbcon_state
           (acquire_new smp_processor_id c (con_nbcon_state w)) w)) /\
  (forall w,
      W w ->
      req_prio (con_nbcon_state w) = ctxt_prio c ->
      I (set_nbcon_state
           (set_req_prio (con_nbcon_state w) NBCON_PRIO_NONE) w)) /\
  (forall w cur,
      I w -> SI cur -> direct_busy c cur ->
      allow_unsafe_takeover c = true -> ctxt_prio c = NBCON_PRIO_PANIC ->
      J (set_nbcon_state
           (hostile_new smp_processor_id c (con_nbcon_state w)) w)).

(** What the environment alone makes of a world. *)
Definition env_next (w : world) : world :=
  match sched w with
  | [] => w
  | e :: rest => apply_event e (set_sched rest w)
  end.

Fixpoint env_run (k : nat) (w : world) : world :=
  match k with
  | O => w
  | S k' => env_next (env_run k' w)
  end.

(** [w'] differs from [w] by steps of the environment only: the program
    has stored nothing in between. *)
Definition env_only (w w' : world) : Prop := exists k, w' = env_run k w.

(** A property of the state word that holds now and for every word the
    interference to come stores. *)
Definition event_state_has (P : nbcon_state -> Prop) (e : env_event)
  : Prop :=
  match ev_state e with
  | Some s => P s
  | None => True
  end.

Definition state_always (P : nbcon_state -> Prop) (w : world) : Prop :=
  P (con_nbcon_state w) /\ Forall (event_state_has P) (sched w).

(** The owner's priority is at least [p]. *)
Definition outranks (p : nbcon_prio) (s : nbcon_state) : Prop :=
  prio_val p <= prio_val (prio s).

(** The context of priority [p] on CPU [owner_cpu] owns the console and is
    inside an unsafe section. *)
Definition held_unsafe (p : nbcon_prio) (owner_cpu : Z) (s : nbcon_state)
  : Prop :=
  prio s = p /\ cpu s = owner_cpu /\ unsafe s = true.

(** The console went through an unsafe hostile takeover. *)
Definition taken_over (s : nbcon_state) : Prop :=
  unsafe_takeover s = true /\ unsafe s = true.

(** A word with unsafe_takeover set has unsafe set. *)
Definition takeover_marks_unsafe (s : nbcon_state) : Prop :=
  unsafe_takeover s = true -> unsafe s = true.

(** The context of priority [p] on CPU [this_cpu] is not the owner. *)
Definition not_owner (this_cpu : Z) (p : nbcon_prio) (s : nbcon_state)
  : Prop :=
  nbcon_owner_matches s this_cpu p = false.

(** The stores of the owner [c]: a release replaces a word that names it
    as the owner, and so does an update of the unsafe bit, which clears the
    bit only in a word without unsafe_takeover. *)
Definition owner_stores (smp_processor_id : Z) (c : nbcon_context)
           (I : world -> Prop) : Prop :=
  stable I /\
  (forall w,
      I w ->
      nbcon_owner_matches (con_nbcon_state w) smp_processor_id (ctxt_prio c)
      = true ->
      I (set_nbcon_state (release_new (con_nbcon_state w)) w)) /\
  (forall w u,
      I w ->
      nbcon_owner_matches (con_nbcon_state w) smp_processor_id (ctxt_prio c)
      = true ->
      (u = false -> unsafe_takeover (con_nbcon_state w) = false) ->
      I (set_nbcon_state (set_unsafe (con_nbcon_state w) u) w)).

(** A direct acquire of [c] can replace the word [s]. *)
Definition acquirable (c : nbcon_context) (s : nbcon_state) : Prop :=
  prio_val (prio s) < prio_val (ctxt_prio c) /\
  prio_val (req_prio s) < prio_val (ctxt_prio c) /\
  unsafe s = false.

(** No other CPU is in panic, now or after any event to come. *)
Definition event_panic_here (this_cpu : Z) (e : env_event) : Prop :=
  match ev_panic_cpu e with
  | Some z => z = PANIC_CPU_INVALID \/ z = this_cpu
  | None => True
  end.

Definition never_panic_elsewhere (this_cpu : Z) (w : world) : Prop :=
  panic_elsewhere this_cpu w = false /\
  Forall (event_panic_here this_cpu) (sched w).

(** ** Scenarios used to exercise the further properties *)

(** An EMERGENCY context on CPU 1 owns the console inside an unsafe
    section. *)
Definition emergency_unsafe : nbcon_state :=
  mkState NBCON_PRIO_EMERGENCY NBCON_PRIO_NONE true false 1.

(** The same owner after a waiter of priority PANIC has posted its
    request. *)
Definition emergency_unsafe_requested : nbcon_state :=
  mkState NBCON_PRIO_EMERGENCY NBCON_PRIO_PANIC true false 1.

(** The console after an unsafe hostile takeover and the release that
    followed it. *)
Definition released_after_takeover : nbcon_state :=
  mkState NBCON_PRIO_NONE NBCON_PRIO_NONE true true 0.

(** The text nbcon_emit_next_record hands to the driver for the record [m]
    when the console's dropped count is [con_dropped] and its
    previous-owner sequence is [prev_seq]. *)
Definition rendered (is_extended : bool) (con_dropped prev_seq : N)
           (m : printk_message) : printk_message :=
  let dropped := u64_add con_dropped (pmsg_dropped m) in
  let m1 := if negb (dropped =? 0)%N && negb is_extended
            then console_prepend_dropped m dropped else m in
  if (prev_seq =? pmsg_seq m)%N then console_prepend_replay m1 else m1.

(** The context [c] on CPU [this_cpu] owns the console at a safe point:
    no request is pending, the console was never taken over, and the
    context's sequence number is the console's. *)
Definition owns_safely (this_cpu : Z) (c : nbcon_context) (w : world)
  : Prop :=
  quiet w /\
  con_nbcon_state w =
  mkState (ctxt_prio c) NBCON_PRIO_NONE false false this_cpu /\
  ctxt_seq c = con_nbcon_seq w.

(** The ring buffer holds the records from [from] up to, not including,
    [stop], each under its own sequence number and with nothing lost
    before it. *)
Definition records_in_order
           (rd : N -> bool -> bool -> option printk_message)
           (is_extended : bool) (from stop : N) : Prop :=
  forall s,
    (from <= s < stop)%N ->
    exists m,
      rd s is_extended true = Some m /\ pmsg_seq m = s /\
      pmsg_dropped m = 0%N.

(** What printing the [n] records from sequence [s] on hands to the
    write_atomic callback: one completed call per record that has text. *)
Fixpoint flushed_calls (rd : N -> bool -> bool -> option printk_message)
         (is_extended : bool) (n : nat) (s : N) : list driver_call :=
  match n with
  | O => []
  | S n' =>
      match rd s is_extended true with
      | Some m =>
          if (outbuf_len m =? 0)%N then []
          else [mkCall true (pmsg_outbuf m) true]
      | None => []
      end ++ flushed_calls rd is_extended n' (s + 1)
  end.

(** Nobody else is active, the console is free at a safe point and was
    never taken over, no record was dropped, and the record that comes
    next has not been started by a previous owner. *)
Definition ready_to_flush (this_cpu : Z) (w : world) : Prop :=
  quiet w /\ panic_elsewhere this_cpu w = false /\
  prio (con_nbcon_state w) = NBCON_PRIO_NONE /\
  req_prio (con_nbcon_state w) = NBCON_PRIO_NONE /\
  unsafe (con_nbcon_state w) = false /\
  unsafe_takeover (con_nbcon_state w) = false /\
  con_dropped w = 0%N /\
  con_nbcon_prev_seq w <> con_nbcon_seq w.

(** The same for a context of priority [p] that finds the console free or
    owned, at a safe point, by a context of lower priority. *)
Definition ready_to_flush_at (p : nbcon_prio) (this_cpu : Z) (w : world)
  : Prop :=
  quiet w /\ panic_elsewhere this_cpu w = false /\
  prio_val (prio (con_nbcon_state w)) < prio_val p /\
  req_prio (con_nbcon_state w) = NBCON_PRIO_NONE /\
  unsafe (con_nbcon_state w) = false /\
  unsafe_takeover (con_nbcon_state w) = false /\
  con_dropped w = 0%N /\
  con_nbcon_prev_seq w <> con_nbcon_seq w.

(** A driver that writes the text out, keeps the ownership and leaves the
    write context as it got it. *)
Definition transparent_driver (this_cpu : Z) (cb : write_callback) : Prop :=
  forall wc p,
    cb wc (mkState p NBCON_PRIO_NONE false false this_cpu) =
    (wc, mkState p NBCON_PRIO_NONE false false this_cpu).

(** The world after the records from the console's cursor up to, not
    including, [stop_seq] have been printed by CPU [this_cpu] and the
    console has been released: the cursor stands at [stop_seq], the
    previous-owner sequence names the last record printed, and the driver
    has been called once for each record that has text. *)
Definition flushed (this_cpu : Z)
           (rd : N -> bool -> bool -> option printk_message)
           (is_extended : bool) (stop_seq : N) (w : world) : world :=
  mkWorld (mkState NBCON_PRIO_NONE NBCON_PRIO_NONE false false this_cpu)
          (N.max (con_nbcon_seq w) stop_seq)
          (if (con_nbcon_seq w <? stop_seq)%N
           then stop_seq - 1 else con_nbcon_prev_seq w)%N
          0 (panic_cpu w) []
          (driver_calls w ++
           flushed_calls rd is_extended
                         (N.to_nat (stop_seq - con_nbcon_seq w))
                         (con_nbcon_seq w)).

(** The context nbcon_device_try_acquire sets up: all zero but for the
    priority. *)
Definition device_ctxt : nbcon_context :=
  set_ctxt_prio nbcon_context_zero NBCON_PRIO_NORMAL.

(** The console has an owner, a waiter, or is marked unsafe. *)
Definition busy (s : nbcon_state) : Prop :=
  prio s <> NBCON_PRIO_NONE \/ req_prio s <> NBCON_PRIO_NONE \/
  unsafe s = true.



(** * Properties *)

(** ** Equality of state words *)

Lemma prio_eqb_eq (a b : nbcon_prio) : prio_eqb a b = true <-> a = b.
Proof.
  unfold prio_eqb; split.
  - destruct a, b; simpl; intros H; try reflexivity; discriminate H.
  - intros ->. apply Z.eqb_refl.
Qed.

Lemma prio_eqb_refl (a : nbcon_prio) : prio_eqb a a = true.
Proof. now apply prio_eqb_eq. Qed.

Lemma nbcon_state_eqb_eq (a b : nbcon_state) :
  nbcon_state_eqb a b = true <-> a = b.
Proof.
  unfold nbcon_state_eqb; split.
  - intros H.
    repeat (apply andb_true_iff in H; destruct H as [H ?]).
    destruct a, b; simpl in *.
    apply prio_eqb_eq in H. apply prio_eqb_eq in H3.
    apply Bool.eqb_prop in H2. apply Bool.eqb_prop in H1.
    apply Z.eqb_eq in H0. congruence.
  - intros ->. rewrite !prio_eqb_refl, !Bool.eqb_reflx, Z.eqb_refl.
    reflexivity.
Qed.

Lemma nbcon_state_eqb_refl (a : nbcon_state) : nbcon_state_eqb a a = true.
Proof. now apply nbcon_state_eqb_eq. Qed.

Lemma nbcon_state_eqb_neq (a b : nbcon_state) :
  nbcon_state_eqb a b = false <-> a <> b.
Proof.
  split.
  - intros H E. apply nbcon_state_eqb_eq in E. congruence.
  - intros H. destruct (nbcon_state_eqb a b) eqn:E; [|reflexivity].
    apply nbcon_state_eqb_eq in E. contradiction.
Qed.

(** ** Rules for [returns] *)

Lemma returns_ret {A : Type} (a : A) (w : world) (Q : A -> world -> Prop) :
  Q a w -> returns (ret a) w Q.
Proof. intros H. exists a, w. split; [reflexivity | exact H]. Qed.

Lemma returns_bind {A B : Type} (m : M A) (k : A -> M B) (w : world)
      (Q : B -> world -> Prop) :
  returns m w (fun a w' => returns (k a) w' Q) -> returns (bind m k) w Q.
Proof.
  intros (a & w1 & Hm & b & w2 & Hk & HQ).
  exists b, w2. unfold bind. rewrite Hm. split; assumption.
Qed.

Lemma returns_weaken {A : Type} (m : M A) (w : world)
      (P Q : A -> world -> Prop) :
  returns m w P -> (forall a w', P a w' -> Q a w') -> returns m w Q.
Proof.
  intros (a & w' & Hm & HP) H. exists a, w'. split; [exact Hm | auto].
Qed.

Lemma returns_gets {A : Type} (f : world -> A) (w : world)
      (Q : A -> world -> Prop) :
  Q (f w) w -> returns (gets f) w Q.
Proof. intros H. exists (f w), w. split; [reflexivity | exact H]. Qed.

Lemma returns_modify (f : world -> world) (w : world)
      (Q : unit -> world -> Prop) :
  Q tt (f w) -> returns (modify f) w Q.
Proof. intros H. exists tt, (f w). split; [reflexivity | exact H]. Qed.

Lemma returns_eq {A : Type} (m : M A) (w : world) (a : A) (w' : world)
      (Q : A -> world -> Prop) :
  m w = Some (a, w') -> Q a w' -> returns m w Q.
Proof. intros Hm HQ. exists a, w'. split; assumption. Qed.

Lemma returns_inv {A : Type} (m : M A) (w : world) (a : A) (w' : world)
      (Q : A -> world -> Prop) :
  returns m w Q -> m w = Some (a, w') -> Q a w'.
Proof.
  intros (a0 & w0 & Hm & HQ) E. rewrite E in Hm.
  injection Hm as <- <-. exact HQ.
Qed.

(** ** The environment *)

Lemma env_step_cases (w : world) :
  (sched w = [] /\ env_step w = Some (tt, w)) \/
  (exists e rest, sched w = e :: rest /\
                  env_step w = Some (tt, apply_event e (set_sched rest w))).
Proof.
  unfold env_step. destruct (sched w) as [|e rest] eqn:E.
  - left. split; reflexivity.
  - right. exists e, rest. split; reflexivity.
Qed.

Lemma env_step_quiet (w : world) : quiet w -> env_step w = Some (tt, w).
Proof. unfold quiet, env_step. intros ->. reflexivity. Qed.

Lemma returns_env_step (I : world -> Prop) (w : world) :
  stable I -> I w ->
  returns env_step w
          (fun _ w' =>
             I w' /\
             (List.length (sched w') <= List.length (sched w))%nat /\
             (sched w <> [] ->
              (List.length (sched w') < List.length (sched w))%nat) /\
             (sched w = [] -> w' = w)).
Proof.
  intros HS HI.
  destruct (env_step_cases w) as [[E H] | (e & rest & E & H)].
  - eapply returns_eq; [exact H|]. rewrite E. simpl.
    repeat split; auto. intros C; now elim C.
  - eapply returns_eq; [exact H|]. rewrite E. simpl.
    repeat split; auto. intros C; discriminate C.
Qed.

Lemma stable_True : stable (fun _ => True).
Proof. intros e rest w _ _. exact I. Qed.

Lemma respected_True : respected (fun _ => True).
Proof. split; [apply stable_True | auto]. Qed.

Lemma respected_takeover_is_sticky : respected takeover_is_sticky.
Proof.
  split.
  - intros e rest w E [Hu HF]. rewrite E in HF.
    apply Forall_cons_iff in HF. destruct HF as [He HF].
    split; [|exact HF]. simpl. unfold event_keeps_takeover in He.
    destruct (ev_state e); simpl; assumption.
  - intros w new [Hu HF] HT. split; [|exact HF]. simpl. apply HT, Hu.
Qed.


(** ** The atomic accessors *)

Lemma nbcon_state_read_eq (w : world) :
  exists w1, env_step w = Some (tt, w1) /\
             nbcon_state_read w = Some (con_nbcon_state w1, w1).
Proof.
  unfold nbcon_state_read, bind, gets.
  destruct (env_step_cases w) as [[_ H] | (e & rest & _ & H)];
    rewrite H; eexists; split; reflexivity.
Qed.

Lemma nbcon_state_try_cmpxchg_eq (cur new : nbcon_state) (w : world) :
  exists w1,
    env_step w = Some (tt, w1) /\
    nbcon_state_try_cmpxchg cur new w =
    Some (if nbcon_state_eqb (con_nbcon_state w1) cur
          then ((true, cur), set_nbcon_state new w1)
          else ((false, con_nbcon_state w1), w1)).
Proof.
  unfold nbcon_state_try_cmpxchg, bind, gets, modify, ret.
  destruct (env_step_cases w) as [[_ H] | (e & rest & _ & H)];
    rewrite H; eexists; (split; [reflexivity|]);
    match goal with |- context [nbcon_state_eqb ?a ?b] =>
      destruct (nbcon_state_eqb a b); reflexivity end.
Qed.

Lemma env_step_inv (I : world -> Prop) (w w1 : world) :
  stable I -> I w -> env_step w = Some (tt, w1) ->
  I w1 /\
  ((sched w = [] /\ w1 = w) \/
   (List.length (sched w1) < List.length (sched w))%nat).
Proof.
  intros HS HI H.
  destruct (env_step_cases w) as [[E H'] | (e & rest & E & H')];
    rewrite H' in H; injection H as <-.
  - split; [exact HI | left; split; [exact E | reflexivity]].
  - split; [eapply HS; eauto | right]. rewrite E. simpl. lia.
Qed.

Lemma returns_nbcon_state_read (I : world -> Prop) (w : world) :
  stable I -> I w ->
  returns nbcon_state_read w
          (fun s w' => I w' /\ s = con_nbcon_state w' /\
                       ((sched w = [] /\ w' = w) \/
                        (List.length (sched w') < List.length (sched w))%nat)).
Proof.
  intros HS HI. destruct (nbcon_state_read_eq w) as (w1 & He & Hr).
  eapply returns_eq; [exact Hr|].
  destruct (env_step_inv I w w1 HS HI He) as [HI1 Hc]. auto.
Qed.

(** ** The rule of the compare-and-swap loop *)

Lemma env_step_sched (w w1 : world) :
  env_step w = Some (tt, w1) ->
  (sched w = [] /\ w1 = w) \/
  (List.length (sched w1) < List.length (sched w))%nat.
Proof.
  intros H.
  destruct (env_step_cases w) as [[E H'] | (e & rest & E & H')];
    rewrite H' in H; injection H as <-.
  - left; split; [exact E | reflexivity].
  - right. rewrite E. simpl. lia.
Qed.

Lemma stale_attempts_fresh (w : world) :
  stale_attempts (con_nbcon_state w) w = List.length (sched w).
Proof. unfold stale_attempts. rewrite nbcon_state_eqb_refl. lia. Qed.

Lemma stale_attempts_failed (cur : nbcon_state) (w w1 : world) :
  env_step w = Some (tt, w1) -> con_nbcon_state w1 <> cur ->
  (stale_attempts (con_nbcon_state w1) w1 < stale_attempts cur w)%nat.
Proof.
  intros He Hne. rewrite stale_attempts_fresh. unfold stale_attempts.
  destruct (env_step_sched w w1 He) as [[Hq ->] | Hlt].
  - apply nbcon_state_eqb_neq in Hne. rewrite Hne. lia.
  - lia.
Qed.

(** If the invariant [J], which may speak of the expected word, survives a
    failed exchange, and a body run either leaves with [Q] or proposes,
    without touching the world, a word whose store establishes [Q], then
    the loop finishes with [Q]. *)
Lemma cmpxchg_loop_n_rule {R : Type} (J : nbcon_state -> world -> Prop)
      (body : nbcon_state -> M (attempt R))
      (Q : loop_exit R -> world -> Prop) :
  (forall cur w w1,
      J cur w -> env_step w = Some (tt, w1) -> con_nbcon_state w1 <> cur ->
      J (con_nbcon_state w1) w1) ->
  (forall cur w,
      J cur w ->
      returns (body cur) w
              (fun a w' =>
                 match a with
                 | Leave r => Q (Left r cur) w'
                 | Swap new =>
                     w' = w /\
                     forall w1, env_step w = Some (tt, w1) ->
                                con_nbcon_state w1 = cur ->
                                Q (Swapped cur new) (set_nbcon_state new w1)
                 end)) ->
  forall fuel cur w,
    J cur w -> (stale_attempts cur w < fuel)%nat ->
    returns (cmpxchg_loop_n fuel body cur) w Q.
Proof.
  intros HJ Hbody. induction fuel as [|fuel IH]; intros cur w HI Hf.
  - lia.
  - simpl. apply returns_bind.
    eapply returns_weaken; [apply Hbody; exact HI|].
    intros a w' Ha. destruct a as [r | new].
    + apply returns_ret. exact Ha.
    + destruct Ha as [-> HQ].
      destruct (nbcon_state_try_cmpxchg_eq cur new w) as (w1 & He & Hc).
      apply returns_bind.
      destruct (nbcon_state_eqb (con_nbcon_state w1) cur) eqn:E;
        (eapply returns_eq; [exact Hc|]).
      * apply returns_ret. apply HQ; [exact He|].
        now apply nbcon_state_eqb_eq.
      * apply nbcon_state_eqb_neq in E.
        apply IH; [eapply HJ; eauto|].
        pose proof (stale_attempts_failed cur w w1 He E). lia.
Qed.

Lemma cmpxchg_loop_rule {R : Type} (J : nbcon_state -> world -> Prop)
      (body : nbcon_state -> M (attempt R))
      (Q : loop_exit R -> world -> Prop) :
  (forall cur w w1,
      J cur w -> env_step w = Some (tt, w1) -> con_nbcon_state w1 <> cur ->
      J (con_nbcon_state w1) w1) ->
  (forall cur w,
      J cur w ->
      returns (body cur) w
              (fun a w' =>
                 match a with
                 | Leave r => Q (Left r cur) w'
                 | Swap new =>
                     w' = w /\
                     forall w1, env_step w = Some (tt, w1) ->
                                con_nbcon_state w1 = cur ->
                                Q (Swapped cur new) (set_nbcon_state new w1)
                 end)) ->
  forall cur w, J cur w -> returns (cmpxchg_loop body cur) w Q.
Proof.
  intros HJ Hbody cur w HI. unfold cmpxchg_loop.
  apply (cmpxchg_loop_n_rule J body Q HJ Hbody); [exact HI|].
  unfold cas_fuel, stale_attempts.
  destruct (nbcon_state_eqb (con_nbcon_state w) cur); lia.
Qed.

(** The invariant used throughout: [I] holds and at most [n] exchanges can
    still fail. *)
Lemma bounded_survives_failure (I : world -> Prop) (n : nat)
      (cur : nbcon_state) (w w1 : world) :
  stable I ->
  I w /\ (stale_attempts cur w <= n)%nat ->
  env_step w = Some (tt, w1) -> con_nbcon_state w1 <> cur ->
  I w1 /\ (stale_attempts (con_nbcon_state w1) w1 <= n)%nat.
Proof.
  intros HS [HI Hn] He Hne. split.
  - apply (env_step_inv I w w1 HS HI He).
  - pose proof (stale_attempts_failed cur w w1 He Hne). lia.
Qed.

(** ** Direct acquire *)

Lemma prio_leb_false (a b : nbcon_prio) :
  prio_leb a b = false <-> prio_val b < prio_val a.
Proof. unfold prio_leb. rewrite Z.leb_gt. reflexivity. Qed.

Lemma prio_leb_true (a b : nbcon_prio) :
  prio_leb a b = true <-> prio_val a <= prio_val b.
Proof. unfold prio_leb. rewrite Z.leb_le. reflexivity. Qed.

Lemma try_acquire_direct_returns (I : world -> Prop)
      (smp_processor_id : Z) (c : nbcon_context) (cur : nbcon_state)
      (w : world) :
  respected I -> I w ->
  returns (nbcon_context_try_acquire_direct smp_processor_id c cur) w
          (fun r w' =>
             I w' /\
             direct_outcome smp_processor_id c (fst r) (snd r) w' /\
             (fst r <> 0 ->
              (stale_attempts (snd r) w' <= stale_attempts cur w)%nat)).
Proof.
  intros [HS HW] HI. unfold nbcon_context_try_acquire_direct.
  apply returns_bind.
  apply (cmpxchg_loop_rule
           (fun cur' w' => I w' /\
              (stale_attempts cur' w' <= stale_attempts cur w)%nat)).
  - intros cur0 w0 w1. apply bounded_survives_failure, HS.
  - clear HI. intros cur0 w0 [HI Hn].
    apply returns_bind. apply returns_gets.
    destruct (panic_elsewhere smp_processor_id w0) eqn:Ep.
    { apply returns_ret, returns_ret. split; [exact HI|].
      split; [left; auto | auto]. }
    destruct (prio_leb (ctxt_prio c) (prio cur0)) eqn:E1.
    { apply returns_ret, returns_ret. split; [exact HI|].
      apply prio_leb_true in E1. split; [left; auto | auto]. }
    destruct (prio_leb (ctxt_prio c) (req_prio cur0)) eqn:E2.
    { apply returns_ret, returns_ret. split; [exact HI|].
      apply prio_leb_true in E2. split; [left; auto | auto]. }
    apply prio_leb_false in E1. apply prio_leb_false in E2. simpl.
    destruct (unsafe cur0) eqn:Eu.
    { apply returns_ret, returns_ret. split; [exact HI|].
      split; [right; left; auto | auto]. }
    apply returns_ret. split; [reflexivity|].
    intros w1 He Hc. apply returns_ret.
    destruct (env_step_inv I w0 w1 HS HI He) as [HI1 _].
    split; [|split].
    + apply HW; [exact HI1|]. rewrite Hc. intros H. exact H.
    + right; right. simpl. auto.
    + simpl. intros C. now elim C.
  - split; [exact HI | lia].
Qed.

(** C1.  A direct acquire fails with -EPERM when another CPU is in panic or
    when the context's priority is not strictly greater than both the
    owner's and the requested priority; it fails with -EBUSY when those
    checks pass and the unsafe bit is set; otherwise it succeeds and one
    store sets prio to the context's priority, cpu to the caller's CPU,
    req_prio to NONE and unsafe to the value of unsafe_takeover.  The
    first three parts are the immediate outcomes for the word [cur] the
    caller passes in; the last one holds under any interference, for the
    word the function decided on after its retries. *)
Theorem nbcon_context_try_acquire_direct_spec
        (smp_processor_id : Z) (c : nbcon_context) (cur : nbcon_state)
        (w : world) :
  (panic_elsewhere smp_processor_id w = true \/
   prio_val (ctxt_prio c) <= prio_val (prio cur) \/
   prio_val (ctxt_prio c) <= prio_val (req_prio cur) ->
   nbcon_context_try_acquire_direct smp_processor_id c cur w =
   Some ((- EPERM, cur), w)) /\
  (panic_elsewhere smp_processor_id w = false ->
   prio_val (prio cur) < prio_val (ctxt_prio c) ->
   prio_val (req_prio cur) < prio_val (ctxt_prio c) ->
   unsafe cur = true ->
   nbcon_context_try_acquire_direct smp_processor_id c cur w =
   Some ((- EBUSY, cur), w)) /\
  (panic_elsewhere smp_processor_id w = false ->
   prio_val (prio cur) < prio_val (ctxt_prio c) ->
   prio_val (req_prio cur) < prio_val (ctxt_prio c) ->
   unsafe cur = false ->
   con_nbcon_state w = cur -> quiet w ->
   nbcon_context_try_acquire_direct smp_processor_id c cur w =
   Some ((0, cur),
         set_nbcon_state
           (mkState (ctxt_prio c) NBCON_PRIO_NONE (unsafe_takeover cur)
                    (unsafe_takeover cur) smp_processor_id) w)) /\
  returns (nbcon_context_try_acquire_direct smp_processor_id c cur) w
          (fun r w' => direct_outcome smp_processor_id c (fst r) (snd r) w').
Proof.
  repeat split.
  - intros H.
    unfold nbcon_context_try_acquire_direct, cmpxchg_loop, cas_fuel, bind.
    simpl. unfold bind, other_cpu_in_panic, gets.
    destruct (panic_elsewhere smp_processor_id w) eqn:Ep; [reflexivity|].
    destruct H as [H | [H | H]]; [discriminate H | |].
    + apply prio_leb_true in H. rewrite H. reflexivity.
    + apply prio_leb_true in H. rewrite H, orb_true_r. reflexivity.
  - intros Hp H1 H2 Hu.
    unfold nbcon_context_try_acquire_direct, cmpxchg_loop, cas_fuel, bind.
    simpl. unfold bind, other_cpu_in_panic, gets. rewrite Hp.
    apply prio_leb_false in H1. apply prio_leb_false in H2.
    rewrite H1, H2, Hu. reflexivity.
  - intros Hp H1 H2 Hu Hc Hq.
    unfold nbcon_context_try_acquire_direct, cmpxchg_loop, cas_fuel, bind.
    simpl. unfold bind, other_cpu_in_panic, gets. rewrite Hp.
    apply prio_leb_false in H1. apply prio_leb_false in H2.
    rewrite H1, H2, Hu. simpl.
    unfold nbcon_state_try_cmpxchg, bind, gets, modify, ret.
    rewrite (env_step_quiet w Hq). rewrite Hc, nbcon_state_eqb_refl.
    reflexivity.
  - eapply returns_weaken.
    + apply (try_acquire_direct_returns (fun _ => True));
        [apply respected_True | exact I].
    + intros r w' (_ & H & _). exact H.
Qed.

Lemma nbcon_context_try_acquire_direct_spec_witness :
  nbcon_context_try_acquire_direct
    0 (ctxt_of NBCON_PRIO_EMERGENCY false 0) owned_safe
    (world_of owned_safe []) =
  Some ((0, owned_safe),
        set_nbcon_state
          (mkState NBCON_PRIO_EMERGENCY NBCON_PRIO_NONE false false 0)
          (world_of owned_safe [])) /\
  nbcon_context_try_acquire_direct
    0 (ctxt_of NBCON_PRIO_EMERGENCY false 0) owned_unsafe
    (world_of owned_unsafe []) =
  Some ((- EBUSY, owned_unsafe), world_of owned_unsafe []) /\
  nbcon_context_try_acquire_direct
    0 (ctxt_of NBCON_PRIO_NORMAL false 0) owned_safe
    (world_of owned_safe []) =
  Some ((- EPERM, owned_safe), world_of owned_safe []).
Proof.
  split; [|split].
  - apply (nbcon_context_try_acquire_direct_spec
             0 (ctxt_of NBCON_PRIO_EMERGENCY false 0) owned_safe
             (world_of owned_safe [])); reflexivity.
  - apply (nbcon_context_try_acquire_direct_spec
             0 (ctxt_of NBCON_PRIO_EMERGENCY false 0) owned_unsafe
             (world_of owned_unsafe [])); reflexivity.
  - apply (nbcon_context_try_acquire_direct_spec
             0 (ctxt_of NBCON_PRIO_NORMAL false 0) owned_safe
             (world_of owned_safe [])).
    right; left. simpl. lia.
Defined.

(** ** The exchange, with the invariant and the failure budget *)

Lemma returns_try_cmpxchg (I : world -> Prop) (cur new : nbcon_state)
      (w : world) :
  respected I -> I w -> takeover_kept cur new ->
  returns (nbcon_state_try_cmpxchg cur new) w
          (fun r w' =>
             I w' /\
             ((fst r = true /\ snd r = cur /\ con_nbcon_state w' = new) \/
              (fst r = false /\ snd r = con_nbcon_state w' /\
               snd r <> cur /\
               (stale_attempts (snd r) w' < stale_attempts cur w)%nat))).
Proof.
  intros [HS HW] HI HT.
  destruct (nbcon_state_try_cmpxchg_eq cur new w) as (w1 & He & Hc).
  destruct (env_step_inv I w w1 HS HI He) as [HI1 _].
  destruct (nbcon_state_eqb (con_nbcon_state w1) cur) eqn:E;
    (eapply returns_eq; [exact Hc|]).
  - apply nbcon_state_eqb_eq in E. split.
    + apply HW; [exact HI1 | rewrite E; exact HT].
    + left. simpl. auto.
  - apply nbcon_state_eqb_neq in E. split; [exact HI1|].
    right. simpl. repeat split; auto.
    apply stale_attempts_failed; assumption.
Qed.

Lemma takeover_kept_acquire_new (smp_processor_id : Z) (c : nbcon_context)
      (cur : nbcon_state) :
  takeover_kept cur (acquire_new smp_processor_id c cur).
Proof. intros H. exact H. Qed.

Lemma takeover_kept_set_req_prio (cur : nbcon_state) (p : nbcon_prio) :
  takeover_kept cur (set_req_prio cur p).
Proof. intros H. exact H. Qed.

Lemma takeover_kept_hostile_new (smp_processor_id : Z) (c : nbcon_context)
      (cur : nbcon_state) :
  takeover_kept cur (hostile_new smp_processor_id c cur).
Proof. intros H. simpl. rewrite H. reflexivity. Qed.

Lemma takeover_kept_release_new (cur : nbcon_state) :
  takeover_kept cur (release_new cur).
Proof. intros H. exact H. Qed.

Lemma takeover_kept_set_unsafe (cur : nbcon_state) (u : bool) :
  takeover_kept cur (set_unsafe cur u).
Proof. intros H. exact H. Qed.

(** ** Acquire by the registered waiter *)

Lemma try_acquire_requested_returns (I : world -> Prop)
      (smp_processor_id : Z) (c : nbcon_context) (cur : nbcon_state)
      (w : world) :
  respected I -> I w ->
  returns (nbcon_context_try_acquire_requested smp_processor_id c cur) w
          (fun r w' =>
             I w' /\
             requested_outcome smp_processor_id c cur (fst r) (snd r) w' /\
             (fst r <> 0 ->
              (stale_attempts (snd r) w' <= stale_attempts cur w)%nat)).
Proof.
  intros HR HI. unfold nbcon_context_try_acquire_requested.
  apply returns_bind, returns_gets.
  destruct (panic_elsewhere smp_processor_id w).
  { apply returns_ret. simpl. split; [exact HI|]. split; [|lia].
    right; right; reflexivity. }
  unfold nbcon_waiter_matches.
  destruct (prio_eqb (req_prio cur) (ctxt_prio c)) eqn:Ew; simpl.
  2:{ apply returns_ret. simpl. split; [exact HI|]. split; [|lia].
      right; right; reflexivity. }
  destruct (prio_eqb (prio cur) NBCON_PRIO_NONE) eqn:Ep; simpl.
  2:{ apply returns_ret. simpl. split; [exact HI|]. split; [|lia].
      right; left. repeat split; auto.
      intros C. apply prio_eqb_eq in C. congruence. }
  apply prio_eqb_eq in Ew, Ep.
  apply returns_bind.
  eapply returns_weaken.
  { apply (returns_try_cmpxchg I); [exact HR | exact HI |].
    apply takeover_kept_acquire_new. }
  intros [ok cur'] w' [HI' H]. simpl in H.
  destruct H as [(-> & -> & Hs) | (-> & Hc & Hne & Hlt)]; simpl.
  - apply returns_ret. simpl. split; [exact HI'|]. split.
    + left. auto.
    + intros C. now elim C.
  - apply returns_ret. simpl. split; [exact HI'|]. split.
    + right; right; reflexivity.
    + intros _. lia.
Qed.

(** ** Handover *)

Lemma requested_outcome_errno (smp_processor_id : Z) (c : nbcon_context)
      (cur : nbcon_state) (err : Z) (cur' : nbcon_state) (w : world) :
  requested_outcome smp_processor_id c cur err cur' w -> acquire_errno err.
Proof.
  unfold acquire_errno.
  intros [(-> & _) | [(-> & _) | ->]]; auto.
Qed.

Lemma handover_spin_returns (I : world -> Prop) (smp_processor_id : Z)
      (c : nbcon_context) (n : nat) :
  respected I ->
  forall cur request_err w,
    I w -> acquire_errno request_err ->
    returns (handover_spin smp_processor_id n c cur request_err) w
            (fun r w' => I w' /\ acquire_errno (fst r)).
Proof.
  intros HR. induction n as [|n IH]; intros cur request_err w HI He; simpl.
  - apply returns_ret. split; assumption.
  - apply returns_bind.
    eapply returns_weaken;
      [apply (try_acquire_requested_returns I); assumption|].
    intros [err cur'] w' (HI' & Ho & _).
    apply requested_outcome_errno in Ho. simpl in Ho.
    destruct (err =? 0).
    { apply returns_ret. split; [exact HI' | left; reflexivity]. }
    destruct (err =? _); [apply returns_ret; split; assumption|].
    apply returns_bind. unfold udelay. apply returns_ret.
    apply returns_bind.
    eapply returns_weaken;
      [apply (returns_nbcon_state_read I); [apply HR | exact HI']|].
    intros s w2 (HI2 & _ & _). apply IH; assumption.
Qed.

Lemma handover_unset_returns (I : world -> Prop) (smp_processor_id : Z)
      (c : nbcon_context) (request_err : Z) :
  respected I -> acquire_errno request_err ->
  forall fuel cur w,
    I w -> (stale_attempts cur w < fuel)%nat ->
    returns (handover_unset smp_processor_id fuel c cur request_err) w
            (fun r w' => I w' /\ acquire_errno (fst r)).
Proof.
  intros HR He. induction fuel as [|fuel IH]; intros cur w HI Hf; [lia|].
  simpl.
  destruct (nbcon_waiter_matches cur (ctxt_prio c)); simpl.
  2:{ apply returns_ret. split; [exact HI | right; left; reflexivity]. }
  apply returns_bind.
  eapply returns_weaken.
  { apply (returns_try_cmpxchg I); [exact HR | exact HI |].
    apply takeover_kept_set_req_prio. }
  intros [ok cur1] w1 [HI1 H]. simpl in H.
  destruct H as [(-> & _ & _) | (-> & _ & _ & Hlt)].
  - apply returns_ret. split; assumption.
  - apply returns_bind.
    eapply returns_weaken;
      [apply (try_acquire_requested_returns I); assumption|].
    intros [err cur2] w2 (HI2 & _ & Hle). simpl in Hle.
    destruct (err =? 0) eqn:E.
    { apply returns_ret. split; [exact HI2 | left; reflexivity]. }
    apply Z.eqb_neq in E. apply IH; [exact HI2|].
    specialize (Hle E). lia.
Qed.

Lemma stale_attempts_lt_cas_fuel (cur : nbcon_state) (w : world) :
  (stale_attempts cur w < cas_fuel w)%nat.
Proof.
  unfold cas_fuel, stale_attempts.
  destruct (nbcon_state_eqb (con_nbcon_state w) cur); lia.
Qed.

Lemma acquire_errno_not_eagain (err : Z) :
  acquire_errno err -> err <> - EAGAIN.
Proof. intros [-> | [-> | ->]] C; discriminate C. Qed.

Lemma try_acquire_handover_returns (I : world -> Prop)
      (smp_processor_id : Z) (c : nbcon_context) (cur : nbcon_state)
      (w : world) :
  respected I -> I w ->
  returns (nbcon_context_try_acquire_handover smp_processor_id c cur) w
          (fun r w' =>
             I w' /\
             (fst r = - EAGAIN ->
              (stale_attempts (snd r) w' < stale_attempts cur w)%nat)).
Proof.
  intros HR HI. unfold nbcon_context_try_acquire_handover.
  destruct (cpu cur =? smp_processor_id).
  { apply returns_ret. split; [exact HI|]. simpl. intros C.
    discriminate C. }
  destruct (unsafe_takeover cur).
  { apply returns_ret. split; [exact HI|]. simpl. intros C.
    discriminate C. }
  destruct (spinwait_max_us c =? 0).
  { apply returns_ret. split; [exact HI|]. simpl. intros C.
    discriminate C. }
  apply returns_bind.
  eapply returns_weaken.
  { apply (returns_try_cmpxchg I); [exact HR | exact HI |].
    apply takeover_kept_set_req_prio. }
  intros [ok cur1] w1 [HI1 H]. simpl in H.
  destruct H as [(-> & _ & _) | (-> & _ & _ & Hlt)]; simpl.
  2:{ apply returns_ret. split; [exact HI1 | intros _; exact Hlt]. }
  apply returns_bind.
  eapply returns_weaken.
  { apply (handover_spin_returns I); [exact HR | exact HI1 |].
    right; right; reflexivity. }
  intros [err cur2] w2 [HI2 He]. simpl in He.
  destruct (err =? 0) eqn:E.
  { apply returns_ret. split; [exact HI2|]. simpl. intros C.
    discriminate C. }
  eapply returns_weaken.
  { apply (handover_unset_returns I smp_processor_id c err HR He
             (cas_fuel w2) cur2 w2 HI2).
    apply stale_attempts_lt_cas_fuel. }
  intros r w3 [HI3 He3]. split; [exact HI3|].
  intros C. apply acquire_errno_not_eagain in He3. contradiction.
Qed.

(** ** Hostile takeover *)

Lemma try_acquire_hostile_returns (I : world -> Prop)
      (smp_processor_id : Z) (c : nbcon_context) (cur : nbcon_state)
      (w : world) :
  respected I -> I w ->
  returns (nbcon_context_try_acquire_hostile smp_processor_id c cur) w
          (fun r w' =>
             I w' /\
             ((fst r = - EPERM /\
               (allow_unsafe_takeover c = false \/
                ctxt_prio c <> NBCON_PRIO_PANIC)) \/
              (fst r = 0 /\
               allow_unsafe_takeover c = true /\
               ctxt_prio c = NBCON_PRIO_PANIC /\
               con_nbcon_state w' =
               hostile_new smp_processor_id c (snd r)))).
Proof.
  intros [HS HW] HI. unfold nbcon_context_try_acquire_hostile.
  destruct (allow_unsafe_takeover c) eqn:Ea; simpl.
  2:{ apply returns_ret. split; [exact HI|]. left. auto. }
  destruct (prio_eqb (ctxt_prio c) NBCON_PRIO_PANIC) eqn:Ep; simpl.
  2:{ apply returns_ret. split; [exact HI|]. left. split; [reflexivity|].
      right. intros C. apply prio_eqb_eq in C. congruence. }
  apply prio_eqb_eq in Ep.
  apply returns_bind.
  apply (cmpxchg_loop_rule (fun _ w' => I w')).
  - intros cur0 w0 w1 HI0 He _. apply (env_step_inv I w0 w1 HS HI0 He).
  - intros cur0 w0 HI0. apply returns_ret. split; [reflexivity|].
    intros w1 He Hc. apply returns_ret.
    destruct (env_step_inv I w0 w1 HS HI0 He) as [HI1 _]. split.
    + apply HW; [exact HI1|]. rewrite Hc. apply takeover_kept_hostile_new.
    + right. simpl. auto.
  - exact HI.
Qed.

(** ** The acquire as a whole *)

Lemma try_acquire_loop_returns (I : world -> Prop) (smp_processor_id : Z)
      (c : nbcon_context) :
  respected I ->
  forall fuel cur w,
    I w -> (stale_attempts cur w < fuel)%nat ->
    returns (try_acquire_loop smp_processor_id fuel c cur) w
            (fun _ w' => I w').
Proof.
  intros HR. induction fuel as [|fuel IH]; intros cur w HI Hf; [lia|].
  simpl. apply returns_bind.
  eapply returns_weaken;
    [apply (try_acquire_direct_returns I); assumption|].
  intros [err cur1] w1 (HI1 & _ & Hle). simpl in Hle.
  destruct (err =? _) eqn:E; simpl.
  2:{ apply returns_ret. exact HI1. }
  apply Z.eqb_eq in E.
  assert (Hle1 : (stale_attempts cur1 w1 <= stale_attempts cur w)%nat).
  { apply Hle. rewrite E. intros C. discriminate C. }
  apply returns_bind.
  eapply returns_weaken;
    [apply (try_acquire_handover_returns I); assumption|].
  intros [err2 cur2] w2 [HI2 Hlt]. simpl in Hlt.
  destruct (err2 =? _) eqn:E2.
  { apply Z.eqb_eq in E2. apply IH; [exact HI2|].
    specialize (Hlt E2). lia. }
  clear E2. destruct (err2 =? _); simpl.
  2:{ apply returns_ret. exact HI2. }
  apply returns_bind.
  eapply returns_weaken;
    [apply (try_acquire_hostile_returns I); assumption|].
  intros [err3 cur3] w3 [HI3 _]. apply returns_ret. exact HI3.
Qed.

Lemma returns_nbcon_seq_read (I : world -> Prop) (w : world) :
  stable I -> I w ->
  returns nbcon_seq_read w
          (fun s w' => I w' /\ s = con_nbcon_seq w' /\
                       ((sched w = [] /\ w' = w) \/
                        (List.length (sched w') < List.length (sched w))%nat)).
Proof.
  intros HS HI. unfold nbcon_seq_read.
  apply returns_bind.
  eapply returns_weaken; [apply (returns_env_step I); assumption|].
  intros [] w1 (HI1 & _ & Hlt & Hq).
  apply returns_bind, returns_gets, returns_ret.
  split; [exact HI1|]. split; [reflexivity|].
  destruct (sched w) eqn:E.
  - left. split; [reflexivity | now apply Hq].
  - right. apply Hlt. discriminate.
Qed.

Lemma try_acquire_returns (I : world -> Prop) (smp_processor_id : Z)
      (c : nbcon_context) (w : world) :
  respected I -> I w ->
  returns (nbcon_context_try_acquire smp_processor_id c) w
          (fun r w' =>
             I w' /\
             (fst r = false -> snd r = c) /\
             (fst r = true ->
              exists p,
                snd r = set_ctxt_seq (set_pbufs c p) (con_nbcon_seq w'))).
Proof.
  intros HR HI. unfold nbcon_context_try_acquire.
  apply returns_bind.
  eapply returns_weaken;
    [apply (returns_nbcon_state_read I); [apply HR | exact HI]|].
  intros cur w1 (HI1 & _ & _).
  apply returns_bind.
  eapply returns_weaken.
  { apply (try_acquire_loop_returns I smp_processor_id c HR
             (cas_fuel w1) cur w1 HI1).
    apply stale_attempts_lt_cas_fuel. }
  intros err w2 HI2.
  destruct (err =? 0); simpl.
  2:{ apply returns_ret. split; [exact HI2|]. simpl.
      split; [reflexivity | intros C; discriminate C]. }
  apply returns_bind, returns_gets.
  apply returns_bind.
  eapply returns_weaken;
    [apply (returns_nbcon_seq_read I); [apply HR | exact HI2]|].
  intros s w3 (HI3 & Hs & _). apply returns_ret.
  split; [exact HI3|]. simpl. split; [intros C; discriminate C|].
  intros _. rewrite Hs.
  destruct (panic_cpu w2 =? smp_processor_id); eexists; reflexivity.
Qed.

(** ** Release, can_proceed and the unsafe bit *)

Lemma owner_matches_release_new (smp_processor_id : Z) (p : nbcon_prio)
      (cur : nbcon_state) :
  p <> NBCON_PRIO_NONE ->
  nbcon_owner_matches (release_new cur) smp_processor_id p = false.
Proof.
  intros Hp. unfold nbcon_owner_matches. simpl.
  destruct (prio_eqb NBCON_PRIO_NONE p) eqn:E; [|reflexivity].
  apply prio_eqb_eq in E. congruence.
Qed.

Lemma release_returns (I : world -> Prop) (smp_processor_id : Z)
      (c : nbcon_context) (w : world) :
  respected I -> I w ->
  returns (nbcon_context_release smp_processor_id c) w
          (fun r w' =>
             I w' /\ r = set_pbufs c PBUFS_NULL /\
             (ctxt_prio c <> NBCON_PRIO_NONE ->
              nbcon_owner_matches (con_nbcon_state w') smp_processor_id
                                  (ctxt_prio c) = false)).
Proof.
  intros [HS HW] HI. unfold nbcon_context_release.
  apply returns_bind.
  eapply returns_weaken;
    [apply (returns_nbcon_state_read I); [apply HS | exact HI]|].
  intros cur w1 (HI1 & Hc & _).
  apply returns_bind.
  apply (cmpxchg_loop_rule
           (fun cur' w' => I w' /\ cur' = con_nbcon_state w')).
  - intros cur0 w0 w2 [HI0 _] He _. split; [|reflexivity].
    apply (env_step_inv I w0 w2 HS HI0 He).
  - intros cur0 w0 [HI0 Hc0].
    destruct (nbcon_owner_matches cur0 smp_processor_id (ctxt_prio c))
             eqn:E; simpl.
    + apply returns_ret. split; [reflexivity|].
      intros w2 He Hc2. apply returns_ret.
      destruct (env_step_inv I w0 w2 HS HI0 He) as [HI2 _].
      split; [|split; [reflexivity|]].
      * apply HW; [exact HI2|]. rewrite Hc2.
        apply takeover_kept_release_new.
      * intros Hp. simpl. now apply owner_matches_release_new.
    + apply returns_ret, returns_ret.
      split; [exact HI0|]. split; [reflexivity|].
      intros _. rewrite <- Hc0. exact E.
  - split; assumption.
Qed.

Lemma can_proceed_returns (I : world -> Prop) (smp_processor_id : Z)
      (c : nbcon_context) (cur : nbcon_state) (w : world) :
  respected I -> I w ->
  returns (nbcon_context_can_proceed smp_processor_id c cur) w
          (fun r w' =>
             I w' /\
             ((fst r = true /\ snd r = c /\ w' = w /\
               nbcon_owner_matches cur smp_processor_id (ctxt_prio c)
               = true) \/
              (fst r = false /\
               (snd r = c \/ snd r = set_pbufs c PBUFS_NULL)))).
Proof.
  intros HR HI. unfold nbcon_context_can_proceed.
  destruct (nbcon_owner_matches cur smp_processor_id (ctxt_prio c)); simpl.
  2:{ apply returns_ret. split; [exact HI|]. right. auto. }
  destruct (prio_eqb (req_prio cur) NBCON_PRIO_NONE).
  { apply returns_ret. split; [exact HI|]. left. auto. }
  destruct (unsafe cur).
  { apply returns_ret. split; [exact HI|]. left. auto. }
  apply returns_bind.
  eapply returns_weaken; [apply (release_returns I); assumption|].
  intros c' w' (HI' & -> & _). apply returns_ret.
  split; [exact HI'|]. right. auto.
Qed.

Lemma update_unsafe_returns (I : world -> Prop) (smp_processor_id : Z)
      (c : nbcon_context) (u : bool) (w : world) :
  respected I -> I w ->
  returns (__nbcon_context_update_unsafe smp_processor_id c u) w
          (fun r w' =>
             I w' /\
             ((fst r = true /\ snd r = c /\
               nbcon_owner_matches (con_nbcon_state w') smp_processor_id
                                   (ctxt_prio c) = true) \/
              (fst r = false /\
               (snd r = c \/ snd r = set_pbufs c PBUFS_NULL)))).
Proof.
  intros HR HI. pose proof HR as [HS HW].
  unfold __nbcon_context_update_unsafe.
  apply returns_bind.
  eapply returns_weaken;
    [apply (returns_nbcon_state_read I); [apply HS | exact HI]|].
  intros cur w1 (HI1 & Hc & _).
  apply returns_bind.
  apply (cmpxchg_loop_rule
           (fun cur' w' => I w' /\ cur' = con_nbcon_state w')).
  - intros cur0 w0 w2 [HI0 _] He _. split; [|reflexivity].
    apply (env_step_inv I w0 w2 HS HI0 He).
  - intros cur0 w0 [HI0 Hc0].
    destruct (negb u && unsafe_takeover cur0).
    { apply returns_ret.
      eapply returns_weaken; [apply (can_proceed_returns I); assumption|].
      intros r w' [HI' [(Hr & Hs & -> & Ho) | H]];
        (split; [exact HI'|]); [left | right; exact H].
      rewrite <- Hc0. auto. }
    apply returns_bind.
    eapply returns_weaken; [apply (can_proceed_returns I); assumption|].
    intros [ok c'] w' [HI' H]. simpl in H.
    destruct H as [(-> & -> & -> & Ho) | (-> & H)]; simpl.
    + apply returns_ret. split; [reflexivity|].
      intros w2 He Hc2.
      destruct (env_step_inv I w0 w2 HS HI0 He) as [HI2 _].
      assert (HI3 : I (set_nbcon_state (set_unsafe cur0 u) w2)).
      { apply HW; [exact HI2|]. rewrite Hc2.
        apply takeover_kept_set_unsafe. }
      eapply returns_weaken; [apply (can_proceed_returns I); assumption|].
      intros r w3 [HI4 [(Hr & Hs & -> & Ho') | H]];
        (split; [exact HI4|]); [left | right; exact H].
      simpl. auto.
    + apply returns_ret, returns_ret. split; [exact HI'|]. right. auto.
  - split; assumption.
Qed.

(** ** The sticky unsafe_takeover bit *)

(** C2.  Once unsafe_takeover is set, and as long as the other contexts
    store only words that have it set, a direct, requested, handover or
    hostile acquire, a release, enter_unsafe and exit_unsafe all finish
    with the bit still set; nbcon_init and nbcon_free store the all-zero
    word and so reset it. *)
Theorem unsafe_takeover_sticky
        (smp_processor_id : Z) (c : nbcon_context) (cur : nbcon_state)
        (w : world) :
  takeover_is_sticky w ->
  returns (nbcon_context_try_acquire_direct smp_processor_id c cur) w
          (fun _ w' => takeover_is_sticky w') /\
  returns (nbcon_context_try_acquire_requested smp_processor_id c cur) w
          (fun _ w' => takeover_is_sticky w') /\
  returns (nbcon_context_try_acquire_handover smp_processor_id c cur) w
          (fun _ w' => takeover_is_sticky w') /\
  returns (nbcon_context_try_acquire_hostile smp_processor_id c cur) w
          (fun _ w' => takeover_is_sticky w') /\
  returns (nbcon_context_try_acquire smp_processor_id c) w
          (fun _ w' => takeover_is_sticky w') /\
  returns (nbcon_context_release smp_processor_id c) w
          (fun _ w' => takeover_is_sticky w') /\
  returns (nbcon_context_enter_unsafe smp_processor_id c) w
          (fun _ w' => takeover_is_sticky w') /\
  returns (nbcon_context_exit_unsafe smp_processor_id c) w
          (fun _ w' => takeover_is_sticky w') /\
  (forall first_valid_seq init_seq,
      returns (nbcon_init first_valid_seq init_seq) w
              (fun _ w' => unsafe_takeover (con_nbcon_state w') = false)) /\
  returns nbcon_free w
          (fun _ w' => unsafe_takeover (con_nbcon_state w') = false).
Proof.
  intros HI. pose proof respected_takeover_is_sticky as HR.
  repeat split.
  - eapply returns_weaken;
      [apply (try_acquire_direct_returns takeover_is_sticky); assumption|].
    intros r w' H. apply H.
  - eapply returns_weaken;
      [apply (try_acquire_requested_returns takeover_is_sticky);
       assumption|].
    intros r w' H. apply H.
  - eapply returns_weaken;
      [apply (try_acquire_handover_returns takeover_is_sticky);
       assumption|].
    intros r w' H. apply H.
  - eapply returns_weaken;
      [apply (try_acquire_hostile_returns takeover_is_sticky);
       assumption|].
    intros r w' H. apply H.
  - eapply returns_weaken;
      [apply (try_acquire_returns takeover_is_sticky); assumption|].
    intros r w' H. apply H.
  - eapply returns_weaken;
      [apply (release_returns takeover_is_sticky); assumption|].
    intros r w' H. apply H.
  - eapply returns_weaken;
      [apply (update_unsafe_returns takeover_is_sticky); assumption|].
    intros r w' H. apply H.
  - eapply returns_weaken;
      [apply (update_unsafe_returns takeover_is_sticky); assumption|].
    intros r w' H. apply H.
  - intros first_valid_seq init_seq. eexists _, _.
    split; reflexivity.
  - eexists _, _. split; reflexivity.
Qed.

Lemma unsafe_takeover_sticky_witness :
  takeover_is_sticky takeover_world /\
  returns (nbcon_context_exit_unsafe
             0 (ctxt_of NBCON_PRIO_PANIC true 0)) takeover_world
          (fun _ w' => takeover_is_sticky w').
Proof.
  assert (H : takeover_is_sticky takeover_world).
  { split; [reflexivity|]. repeat constructor. }
  split; [exact H|].
  apply (unsafe_takeover_sticky 0 (ctxt_of NBCON_PRIO_PANIC true 0)
                                takeover_state takeover_world H).
Defined.

(** ** can_proceed *)

Lemma owner_matches_true (cur : nbcon_state) (expected_cpu : Z)
      (expected_prio : nbcon_prio) :
  nbcon_owner_matches cur expected_cpu expected_prio = true <->
  prio cur = expected_prio /\ cpu cur = expected_cpu.
Proof.
  unfold nbcon_owner_matches.
  destruct (prio_eqb (prio cur) expected_prio) eqn:Ep; simpl.
  - apply prio_eqb_eq in Ep.
    destruct (cpu cur =? expected_cpu) eqn:Ec; simpl.
    + apply Z.eqb_eq in Ec. tauto.
    + apply Z.eqb_neq in Ec. split; [discriminate | tauto].
  - split; [discriminate|]. intros [H _]. apply prio_eqb_eq in H.
    congruence.
Qed.

Lemma prio_eqb_false (a b : nbcon_prio) : prio_eqb a b = false <-> a <> b.
Proof.
  split.
  - intros H E. apply prio_eqb_eq in E. congruence.
  - intros H. destruct (prio_eqb a b) eqn:E; [|reflexivity].
    apply prio_eqb_eq in E. contradiction.
Qed.

Lemma release_quiet (smp_processor_id : Z) (c : nbcon_context) (w : world) :
  quiet w ->
  nbcon_context_release smp_processor_id c w =
  Some (set_pbufs c PBUFS_NULL,
        if nbcon_owner_matches (con_nbcon_state w) smp_processor_id
                               (ctxt_prio c)
        then set_nbcon_state (release_new (con_nbcon_state w)) w
        else w).
Proof.
  intros Hq. unfold nbcon_context_release, nbcon_state_read, bind.
  rewrite (env_step_quiet w Hq). unfold gets, cmpxchg_loop, cas_fuel.
  simpl. unfold bind.
  destruct (nbcon_owner_matches (con_nbcon_state w) smp_processor_id
                                (ctxt_prio c)); simpl.
  - unfold nbcon_state_try_cmpxchg, bind, gets, modify, ret.
    rewrite (env_step_quiet w Hq), nbcon_state_eqb_refl. reflexivity.
  - reflexivity.
Qed.

Lemma can_proceed_not_owner (smp_processor_id : Z) (c : nbcon_context)
      (cur : nbcon_state) (w : world) :
  ~ (prio cur = ctxt_prio c /\ cpu cur = smp_processor_id) ->
  nbcon_context_can_proceed smp_processor_id c cur w = Some ((false, c), w).
Proof.
  intros H. unfold nbcon_context_can_proceed.
  destruct (nbcon_owner_matches cur smp_processor_id (ctxt_prio c)) eqn:E;
    [|reflexivity].
  apply owner_matches_true in E. contradiction.
Qed.

Lemma can_proceed_owner (smp_processor_id : Z) (c : nbcon_context)
      (cur : nbcon_state) (w : world) :
  prio cur = ctxt_prio c -> cpu cur = smp_processor_id ->
  req_prio cur = NBCON_PRIO_NONE \/ unsafe cur = true ->
  nbcon_context_can_proceed smp_processor_id c cur w = Some ((true, c), w).
Proof.
  intros Hp Hc H. unfold nbcon_context_can_proceed.
  rewrite (proj2 (owner_matches_true cur _ _) (conj Hp Hc)). simpl.
  destruct (prio_eqb (req_prio cur) NBCON_PRIO_NONE) eqn:Er;
    [reflexivity|].
  destruct H as [H | H].
  - apply prio_eqb_false in Er. contradiction.
  - rewrite H. reflexivity.
Qed.

(** C3.  can_proceed returns false when the (prio, cpu) pair of the state
    word no longer matches the caller; true when it matches and no request
    is pending; true when it matches, a request is pending and the unsafe
    bit is set; and when it matches, a request is pending and the console
    is safe, it is a release followed by return false: with no
    interference the store clears prio, and under any interference the
    call finishes with false and the caller is not the owner. *)
Theorem nbcon_context_can_proceed_spec
        (smp_processor_id : Z) (c : nbcon_context) (cur : nbcon_state)
        (w : world) :
  (~ (prio cur = ctxt_prio c /\ cpu cur = smp_processor_id) ->
   nbcon_context_can_proceed smp_processor_id c cur w =
   Some ((false, c), w)) /\
  (prio cur = ctxt_prio c -> cpu cur = smp_processor_id ->
   req_prio cur = NBCON_PRIO_NONE ->
   nbcon_context_can_proceed smp_processor_id c cur w =
   Some ((true, c), w)) /\
  (prio cur = ctxt_prio c -> cpu cur = smp_processor_id ->
   req_prio cur <> NBCON_PRIO_NONE -> unsafe cur = true ->
   nbcon_context_can_proceed smp_processor_id c cur w =
   Some ((true, c), w)) /\
  (prio cur = ctxt_prio c -> cpu cur = smp_processor_id ->
   req_prio cur <> NBCON_PRIO_NONE -> unsafe cur = false ->
   nbcon_context_can_proceed smp_processor_id c cur w =
   (c' <- nbcon_context_release smp_processor_id c ;; ret (false, c')) w /\
   (con_nbcon_state w = cur -> quiet w ->
    nbcon_context_can_proceed smp_processor_id c cur w =
    Some ((false, set_pbufs c PBUFS_NULL),
          set_nbcon_state
            (mkState NBCON_PRIO_NONE (req_prio cur) (unsafe_takeover cur)
                     (unsafe_takeover cur) (cpu cur)) w)) /\
   (ctxt_prio c <> NBCON_PRIO_NONE ->
    returns (nbcon_context_can_proceed smp_processor_id c cur) w
            (fun r w' =>
               fst r = false /\
               ~ (prio (con_nbcon_state w') = ctxt_prio c /\
                  cpu (con_nbcon_state w') = smp_processor_id)))).
Proof.
  unfold nbcon_context_can_proceed. repeat split.
  - intros H.
    destruct (nbcon_owner_matches cur smp_processor_id (ctxt_prio c)) eqn:E;
      [|reflexivity].
    apply owner_matches_true in E. contradiction.
  - intros Hp Hc Hr.
    rewrite (proj2 (owner_matches_true cur _ _) (conj Hp Hc)). simpl.
    rewrite Hr. reflexivity.
  - intros Hp Hc Hr Hu.
    rewrite (proj2 (owner_matches_true cur _ _) (conj Hp Hc)). simpl.
    apply prio_eqb_false in Hr. rewrite Hr, Hu. reflexivity.
  - rename H into Hp, H0 into Hc, H1 into Hr, H2 into Hu.
    rewrite (proj2 (owner_matches_true cur _ _) (conj Hp Hc)). simpl.
    apply prio_eqb_false in Hr. rewrite Hr, Hu. reflexivity.
  - rename H into Hp, H0 into Hc, H1 into Hr, H2 into Hu.
    intros Hs Hq.
    rewrite (proj2 (owner_matches_true cur _ _) (conj Hp Hc)). simpl.
    apply prio_eqb_false in Hr. rewrite Hr, Hu.
    unfold bind. rewrite (release_quiet _ _ _ Hq). rewrite Hs.
    rewrite (proj2 (owner_matches_true cur _ _) (conj Hp Hc)).
    unfold release_new. rewrite Hu. reflexivity.
  - rename H into Hp, H0 into Hc, H1 into Hr, H2 into Hu.
    intros Hn.
    rewrite (proj2 (owner_matches_true cur _ _) (conj Hp Hc)). simpl.
    apply prio_eqb_false in Hr. rewrite Hr, Hu.
    apply returns_bind.
    eapply returns_weaken;
      [apply (release_returns (fun _ => True));
       [apply respected_True | exact I]|].
    intros c' w' (_ & _ & Ho). apply returns_ret.
    split; [reflexivity|]. specialize (Ho Hn).
    intros C. apply owner_matches_true in C. congruence.
Qed.

Lemma nbcon_context_can_proceed_spec_witness :
  nbcon_context_can_proceed 1 (ctxt_of NBCON_PRIO_NORMAL false 0)
                            handover_pending (world_of handover_pending []) =
  Some ((false, set_pbufs (ctxt_of NBCON_PRIO_NORMAL false 0) PBUFS_NULL),
        world_of released_with_request []) /\
  nbcon_context_can_proceed 1 (ctxt_of NBCON_PRIO_NORMAL false 0)
                            owned_safe (world_of owned_safe []) =
  Some ((true, ctxt_of NBCON_PRIO_NORMAL false 0), world_of owned_safe []) /\
  nbcon_context_can_proceed 0 (ctxt_of NBCON_PRIO_NORMAL false 0)
                            owned_safe (world_of owned_safe []) =
  Some ((false, ctxt_of NBCON_PRIO_NORMAL false 0), world_of owned_safe []).
Proof.
  split; [|split].
  - apply (nbcon_context_can_proceed_spec
             1 (ctxt_of NBCON_PRIO_NORMAL false 0) handover_pending
             (world_of handover_pending []));
      try reflexivity; discriminate.
  - apply (proj1 (proj2 (nbcon_context_can_proceed_spec
             1 (ctxt_of NBCON_PRIO_NORMAL false 0) owned_safe
             (world_of owned_safe [])))); reflexivity.
  - apply (nbcon_context_can_proceed_spec
             0 (ctxt_of NBCON_PRIO_NORMAL false 0) owned_safe
             (world_of owned_safe [])).
    simpl. intros [_ C]. discriminate C.
Defined.

(** ** Hostile takeover *)

(** C4.  A hostile takeover fails with -EPERM unless the context has
    allow_unsafe_takeover set and priority PANIC.  When it is legal it
    succeeds whatever the unsafe bit is: the word it stores has the
    caller's priority and CPU, unsafe_takeover set if the console was
    unsafe or the bit was already set, and unsafe set if it was set or
    unsafe_takeover was; the request field is left alone. *)
Theorem nbcon_context_try_acquire_hostile_spec
        (smp_processor_id : Z) (c : nbcon_context) (cur : nbcon_state)
        (w : world) :
  (allow_unsafe_takeover c = false \/ ctxt_prio c <> NBCON_PRIO_PANIC ->
   nbcon_context_try_acquire_hostile smp_processor_id c cur w =
   Some ((- EPERM, cur), w)) /\
  (allow_unsafe_takeover c = true -> ctxt_prio c = NBCON_PRIO_PANIC ->
   (con_nbcon_state w = cur -> quiet w ->
    nbcon_context_try_acquire_hostile smp_processor_id c cur w =
    Some ((0, cur),
          set_nbcon_state
            (mkState NBCON_PRIO_PANIC (req_prio cur)
                     (unsafe cur || unsafe_takeover cur)
                     (unsafe_takeover cur || unsafe cur)
                     smp_processor_id) w)) /\
   returns (nbcon_context_try_acquire_hostile smp_processor_id c cur) w
           (fun r w' =>
              fst r = 0 /\
              con_nbcon_state w' =
              mkState NBCON_PRIO_PANIC (req_prio (snd r))
                      (unsafe (snd r) || unsafe_takeover (snd r))
                      (unsafe_takeover (snd r) || unsafe (snd r))
                      smp_processor_id)).
Proof.
  split; [|split].
  - intros H. unfold nbcon_context_try_acquire_hostile.
    destruct (allow_unsafe_takeover c); simpl; [|reflexivity].
    destruct H as [H | H]; [discriminate H|].
    apply prio_eqb_false in H. rewrite H. reflexivity.
  - intros Hs Hq. unfold nbcon_context_try_acquire_hostile.
    rewrite H, H0. simpl.
    unfold cmpxchg_loop, cas_fuel, bind. simpl.
    unfold nbcon_state_try_cmpxchg, bind, gets, modify, ret.
    rewrite (env_step_quiet w Hq), Hs, nbcon_state_eqb_refl.
    unfold hostile_new. rewrite H0. reflexivity.
  - eapply returns_weaken;
      [apply (try_acquire_hostile_returns (fun _ => True));
       [apply respected_True | exact I]|].
    intros r w' [_ [[_ [C | C]] | (Hr & _ & _ & Hs)]].
    + congruence.
    + contradiction.
    + split; [exact Hr|]. rewrite Hs. unfold hostile_new.
      rewrite H0. reflexivity.
Qed.

Lemma nbcon_context_try_acquire_hostile_spec_witness :
  nbcon_context_try_acquire_hostile
    0 (ctxt_of NBCON_PRIO_PANIC true 0) owned_unsafe
    (world_of owned_unsafe []) =
  Some ((0, owned_unsafe),
        world_of (mkState NBCON_PRIO_PANIC NBCON_PRIO_NONE true true 0) []) /\
  nbcon_context_try_acquire_hostile
    0 (ctxt_of NBCON_PRIO_EMERGENCY true 0) owned_unsafe
    (world_of owned_unsafe []) =
  Some ((- EPERM, owned_unsafe), world_of owned_unsafe []).
Proof.
  split.
  - apply (nbcon_context_try_acquire_hostile_spec
             0 (ctxt_of NBCON_PRIO_PANIC true 0) owned_unsafe
             (world_of owned_unsafe [])); reflexivity.
  - apply (nbcon_context_try_acquire_hostile_spec
             0 (ctxt_of NBCON_PRIO_EMERGENCY true 0) owned_unsafe
             (world_of owned_unsafe [])).
    right. discriminate.
Defined.

(** ** Handover *)

(** C5.  The handover returns -EBUSY at once, leaving the world as it is
    (no request stored, no step of the environment awaited), when the
    owner's CPU is the caller's, or unsafe_takeover is set, or
    spinwait_max_us is 0.  Otherwise it tries to store the request, and if
    that exchange fails because the word is no longer [cur], it returns
    -EAGAIN with the word it found and has stored nothing. *)
Theorem nbcon_context_try_acquire_handover_spec
        (smp_processor_id : Z) (c : nbcon_context) (cur : nbcon_state)
        (w : world) :
  (cpu cur = smp_processor_id \/ unsafe_takeover cur = true \/
   spinwait_max_us c = 0 ->
   nbcon_context_try_acquire_handover smp_processor_id c cur w =
   Some ((- EBUSY, cur), w)) /\
  (cpu cur <> smp_processor_id -> unsafe_takeover cur = false ->
   spinwait_max_us c <> 0 ->
   forall w1,
     env_step w = Some (tt, w1) -> con_nbcon_state w1 <> cur ->
     nbcon_context_try_acquire_handover smp_processor_id c cur w =
     Some ((- EAGAIN, con_nbcon_state w1), w1)).
Proof.
  unfold nbcon_context_try_acquire_handover. split.
  - intros H.
    destruct (cpu cur =? smp_processor_id) eqn:Ec; [reflexivity|].
    destruct (unsafe_takeover cur) eqn:Eu; [reflexivity|].
    destruct (spinwait_max_us c =? 0) eqn:Es; [reflexivity|].
    apply Z.eqb_neq in Ec, Es.
    destruct H as [H | [H | H]]; [contradiction | discriminate H |
                                   contradiction].
  - intros Hc Hu Hs w1 He Hne.
    apply Z.eqb_neq in Hc, Hs. rewrite Hc, Hu, Hs.
    destruct (nbcon_state_try_cmpxchg_eq
                cur (set_req_prio cur (ctxt_prio c)) w) as (w1' & He' & Hx).
    rewrite He in He'. injection He' as <-.
    apply nbcon_state_eqb_neq in Hne. rewrite Hne in Hx.
    unfold bind. rewrite Hx. reflexivity.
Qed.

Lemma nbcon_context_try_acquire_handover_spec_witness :
  nbcon_context_try_acquire_handover
    1 (ctxt_of NBCON_PRIO_EMERGENCY false 500) owned_unsafe
    (world_of owned_unsafe []) =
  Some ((- EBUSY, owned_unsafe), world_of owned_unsafe []) /\
  nbcon_context_try_acquire_handover
    0 (ctxt_of NBCON_PRIO_EMERGENCY false 500) owned_unsafe
    (world_of owned_unsafe [state_event owned_safe]) =
  Some ((- EAGAIN, owned_safe), world_of owned_safe []).
Proof.
  split.
  - apply (nbcon_context_try_acquire_handover_spec
             1 (ctxt_of NBCON_PRIO_EMERGENCY false 500) owned_unsafe
             (world_of owned_unsafe [])).
    left. reflexivity.
  - apply (proj2 (nbcon_context_try_acquire_handover_spec
             0 (ctxt_of NBCON_PRIO_EMERGENCY false 500) owned_unsafe
             (world_of owned_unsafe [state_event owned_safe]))
             ltac:(discriminate) eq_refl ltac:(discriminate)
             (world_of owned_safe []) eq_refl).
    discriminate.
Defined.

(** ** Release and the pending request *)




(** ** Invariants of the emitter *)

Lemma emitter_respected_True : emitter_respected (fun _ => True).
Proof. repeat split; auto. Qed.


Lemma emitter_respected_seq_is (n : N) : emitter_respected (seq_is n).
Proof.
  split; [split|].
  - intros e rest w E [Hs HF]. rewrite E in HF.
    apply Forall_cons_iff in HF. destruct HF as [He HF].
    split; [|exact HF]. simpl. unfold event_leaves_seq in He.
    rewrite He. exact Hs.
  - intros w new [Hs HF] _. split; assumption.
  - repeat split; intros; destruct H; assumption.
Qed.

Lemma emitter_respected_sched_within (k : nat) :
  emitter_respected (sched_within k).
Proof.
  unfold sched_within. split; [split|].
  - intros e rest w E H. simpl. rewrite E in H. simpl in H. lia.
  - intros w new H _. exact H.
  - repeat split; intros; assumption.
Qed.

Lemma emitter_respected_and (I J : world -> Prop) :
  emitter_respected I -> emitter_respected J ->
  emitter_respected (fun w => I w /\ J w).
Proof.
  intros ((SI & WI) & DI & PI & CI) ((SJ & WJ) & DJ & PJ & CJ).
  split; [split|repeat split].
  - intros e rest w E [HI HJ]. split; eauto.
  - intros w new [HI HJ] HT. split; eauto.
  - apply DI, H.
  - apply DJ, H.
  - apply PI, H.
  - apply PJ, H.
  - apply CI, H.
  - apply CJ, H.
Qed.

Lemma returns_prev_seq_read (I : world -> Prop) (w : world) :
  stable I -> I w ->
  returns nbcon_prev_seq_read w
          (fun s w' => I w' /\ s = con_nbcon_prev_seq w').
Proof.
  intros HS HI. unfold nbcon_prev_seq_read.
  apply returns_bind.
  eapply returns_weaken; [apply (returns_env_step I); assumption|].
  intros [] w1 (HI1 & _). apply returns_gets. auto.
Qed.

Lemma returns_prev_seq_try_cmpxchg (I : world -> Prop) (old new : N)
      (w : world) :
  stable I -> (forall w n, I w -> I (set_nbcon_prev_seq n w)) -> I w ->
  returns (nbcon_prev_seq_try_cmpxchg old new) w (fun _ w' => I w').
Proof.
  intros HS HP HI. unfold nbcon_prev_seq_try_cmpxchg.
  apply returns_bind.
  eapply returns_weaken; [apply (returns_env_step I); assumption|].
  intros [] w1 (HI1 & _). apply returns_bind, returns_gets.
  destruct (con_nbcon_prev_seq w1 =? old)%N.
  - apply returns_bind, returns_modify, returns_ret. apply HP, HI1.
  - apply returns_ret. exact HI1.
Qed.

Lemma same_context_fields (c c' : nbcon_context) :
  same_context c c' ->
  ctxt_prio c' = ctxt_prio c /\ ctxt_seq c' = ctxt_seq c /\
  backlog c' = backlog c.
Proof. intros [-> | ->]; simpl; auto. Qed.

Lemma update_unsafe_returns_ctxt (I : world -> Prop) (smp_processor_id : Z)
      (c : nbcon_context) (u : bool) (w : world) :
  respected I -> I w ->
  returns (__nbcon_context_update_unsafe smp_processor_id c u) w
          (fun r w' => I w' /\ same_context c (snd r) /\
                       (fst r = true -> snd r = c)).
Proof.
  intros HR HI.
  eapply returns_weaken; [apply (update_unsafe_returns I); assumption|].
  intros r w' [HI' [(Hr & Hs & _) | (Hr & Hs)]]; split; auto.
  - split; [left; exact Hs | auto].
  - split; [exact Hs | intros C; congruence].
Qed.

Lemma emit_mark_replay_returns (I : world -> Prop) (smp_processor_id : Z)
      (c : nbcon_context) (pmsg : printk_message) (w : world) :
  respected I -> (forall w n, I w -> I (set_nbcon_prev_seq n w)) -> I w ->
  returns (emit_mark_replay smp_processor_id c pmsg) w
          (fun r w' =>
             I w' /\
             pmsg_seq (snd r) = pmsg_seq pmsg /\
             same_context c (snd (fst r)) /\
             (fst (fst r) = true -> snd (fst r) = c)).
Proof.
  intros HR HE HI. pose proof HR as (HS & _).
  unfold emit_mark_replay.
  apply returns_bind.
  eapply returns_weaken; [apply (returns_prev_seq_read I); assumption|].
  intros ulseq w1 [HI1 _].
  destruct (__ulseq_to_u64seq ulseq =? pmsg_seq pmsg)%N.
  { apply returns_ret. simpl. repeat split; auto. left; reflexivity. }
  apply returns_bind.
  eapply returns_weaken; [apply (returns_nbcon_state_read I); assumption|].
  intros cur w2 (HI2 & _).
  apply returns_bind.
  eapply returns_weaken; [apply (can_proceed_returns I); assumption|].
  intros [ok c'] w3 [HI3 H]. simpl in H.
  destruct H as [(-> & -> & _) | (-> & H)]; simpl.
  - apply returns_bind.
    eapply returns_weaken;
      [apply (returns_prev_seq_try_cmpxchg I);
       [exact HS | exact HE | exact HI3]|].
    intros r w4 HI4. apply returns_ret. simpl.
    repeat split; auto. left; reflexivity.
  - apply returns_ret. simpl. repeat split; auto. intros C; discriminate C.
Qed.

Lemma emit_update_con_returns (I1 I2 : world -> Prop) (P : N -> Prop)
      (smp_processor_id : Z) (wctxt : nbcon_write_context)
      (c : nbcon_context) (pmsg : printk_message)
      (con_dropped_seen dropped : N) (w : world) :
  respected I1 -> (forall w n, I1 w -> I1 (set_dropped n w)) ->
  respected I2 ->
  (forall w1,
      I1 w1 ->
      returns (nbcon_seq_try_update c (u64_add (pmsg_seq pmsg) 1)) w1
              (fun c' w2 => I2 w2 /\ P (ctxt_seq c') /\
                            c' = set_ctxt_seq c (ctxt_seq c'))) ->
  I1 w ->
  returns (emit_update_con smp_processor_id wctxt c pmsg
                           con_dropped_seen dropped) w
          (fun r w' =>
             ctxt_prio (ctxt (snd r)) = ctxt_prio c /\
             ((fst r = false /\ (I1 w' \/ I2 w')) \/
              (fst r = true /\ I2 w' /\ P (ctxt_seq (ctxt (snd r))) /\
               backlog (ctxt (snd r)) = backlog c))).
Proof.
  intros HR1 HD1 HR2 Hupd HI.
  unfold emit_update_con, nbcon_context_enter_unsafe,
    nbcon_context_exit_unsafe.
  apply returns_bind.
  eapply returns_weaken;
    [apply (update_unsafe_returns_ctxt I1); assumption|].
  intros [ok c1] w1 (HI1 & Hsame & Hok). simpl in *.
  destruct ok; simpl.
  2:{ apply returns_ret. simpl.
      split; [apply (same_context_fields c c1 Hsame)|]. left. auto. }
  rewrite (Hok eq_refl).
  apply returns_bind.
  apply (returns_weaken _ _ (fun _ w' => I1 w')).
  { destruct (negb (dropped =? con_dropped_seen)%N).
    - apply returns_modify. apply HD1, HI1.
    - apply returns_ret. exact HI1. }
  intros [] w2 HI2.
  apply returns_bind.
  eapply returns_weaken; [apply Hupd; exact HI2|].
  intros c2 w3 (HI3 & HP & Hc2).
  apply returns_bind.
  eapply returns_weaken;
    [apply (update_unsafe_returns_ctxt I2); assumption|].
  intros [ok c3] w4 (HI4 & Hsame3 & Hok3). simpl in *.
  apply returns_ret. simpl.
  destruct (same_context_fields c2 c3 Hsame3) as (Hp & Hs & Hb).
  rewrite Hc2 in Hp, Hb. simpl in Hp, Hb.
  split; [exact Hp|].
  destruct ok.
  - right. rewrite (Hok3 eq_refl). rewrite (Hok3 eq_refl) in Hb.
    repeat split; auto.
  - left. auto.
Qed.

Lemma call_driver_returns (I : world -> Prop) (use_atomic : bool)
      (cb : write_callback) (wc : nbcon_write_context) (w : world) :
  emitter_respected I -> I w ->
  returns (call_driver use_atomic cb wc) w
          (fun wc' w' => I w' /\ wc' = fst (cb wc (con_nbcon_state w))).
Proof.
  intros (_ & _ & _ & HC) HI. unfold returns, call_driver.
  destruct (cb wc (con_nbcon_state w)) as [wc' s'] eqn:E.
  eexists _, _. split; [reflexivity|]. split; [apply HC, HI | reflexivity].
Qed.

(** The emitter in two phases: [I1] holds up to the update of the cursor,
    which establishes [I2] and [P] of the context's new sequence. *)
Lemma emit_next_record_returns
      (I1 I2 : world -> Prop) (P : printk_message -> N -> Prop)
      (smp_processor_id : Z) (is_extended : bool)
      (rd : N -> bool -> bool -> option printk_message)
      (write_atomic write_thread : option write_callback)
      (wctxt : nbcon_write_context) (use_atomic : bool) (w : world) :
  emitter_respected I1 -> emitter_respected I2 ->
  callback_keeps_context write_atomic ->
  callback_keeps_context write_thread ->
  (forall m c' w1,
      rd (ctxt_seq (ctxt wctxt)) is_extended true = Some m ->
      I1 w1 -> ctxt_seq c' = ctxt_seq (ctxt wctxt) ->
      returns (nbcon_seq_try_update c' (u64_add (pmsg_seq m) 1)) w1
              (fun c'' w2 => I2 w2 /\ P m (ctxt_seq c'') /\
                             c'' = set_ctxt_seq c' (ctxt_seq c''))) ->
  I1 w ->
  returns (nbcon_emit_next_record smp_processor_id is_extended rd
                                  write_atomic write_thread
                                  wctxt use_atomic) w
          (fun r w' =>
             ctxt_prio (ctxt (snd r)) = ctxt_prio (ctxt wctxt) /\
             ((fst r = false /\ (I1 w' \/ I2 w')) \/
              (fst r = true /\ backlog (ctxt (snd r)) = false /\
               rd (ctxt_seq (ctxt wctxt)) is_extended true = None /\
               I1 w' /\
               ctxt_seq (ctxt (snd r)) = ctxt_seq (ctxt wctxt)) \/
              (fst r = true /\ backlog (ctxt (snd r)) = true /\
               exists m,
                 rd (ctxt_seq (ctxt wctxt)) is_extended true = Some m /\
                 I2 w' /\ P m (ctxt_seq (ctxt (snd r)))))).
Proof.
  intros HE1 HE2 Hwa Hwt Hupd HI.
  pose proof HE1 as (HR1 & HD1 & _). pose proof HR1 as (HS1 & _).
  unfold nbcon_emit_next_record, nbcon_context_enter_unsafe,
    nbcon_context_exit_unsafe.
  set (c0 := ctxt wctxt) in *.
  apply returns_bind.
  eapply returns_weaken;
    [apply (update_unsafe_returns_ctxt I1); assumption|].
  intros [ok c1] w1 (HI1 & Hsame & Hok). simpl in *.
  destruct ok; simpl.
  2:{ apply returns_ret. simpl.
      split; [apply (same_context_fields c0 c1 Hsame)|]. left. auto. }
  rewrite (Hok eq_refl). clear c1 Hsame Hok.
  destruct (rd (ctxt_seq c0) is_extended true) as [m|] eqn:Erd.
  2:{ (* no record *)
      apply returns_bind.
      eapply returns_weaken;
        [apply (update_unsafe_returns_ctxt I1); assumption|].
      intros [ok c2] w2 (HI2 & Hsame & Hok). simpl in *.
      apply returns_ret. simpl.
      destruct (same_context_fields _ _ Hsame) as (Hp & Hs & Hb).
      simpl in Hp, Hs, Hb. split; [exact Hp|].
      destruct ok; [right; left | left]; auto. }
  apply returns_bind, returns_gets.
  set (dropped := u64_add (con_dropped w1) (pmsg_dropped m)).
  set (m1 := if negb (dropped =? 0)%N && negb is_extended
             then console_prepend_dropped m dropped else m).
  assert (Hm1 : pmsg_seq m1 = pmsg_seq m).
  { unfold m1. destruct (negb (dropped =? 0)%N && negb is_extended);
      reflexivity. }
  apply returns_bind.
  eapply returns_weaken;
    [apply (emit_mark_replay_returns I1);
     [exact HR1 | apply HE1 | exact HI1]|].
  intros [[ok c2] m2] w2 (HI2 & Hm2 & Hsame & Hok). simpl in *.
  destruct ok; simpl.
  2:{ apply returns_ret. simpl.
      split; [apply (same_context_fields _ _ Hsame)|]. left. auto. }
  rewrite (Hok eq_refl). clear c2 Hsame Hok.
  apply returns_bind.
  eapply returns_weaken;
    [apply (update_unsafe_returns_ctxt I1); assumption|].
  intros [ok c3] w3 (HI3 & Hsame & Hok). simpl in *.
  destruct ok; simpl.
  2:{ apply returns_ret. simpl.
      split; [apply (same_context_fields _ _ Hsame)|]. left. auto. }
  rewrite (Hok eq_refl). clear c3 Hsame Hok.
  assert (Hfinish :
            forall wc c4 d w4,
              I1 w4 -> same_context (set_backlog c0 true) c4 ->
              returns (emit_update_con smp_processor_id wc c4 m2
                                       (con_dropped w1) d) w4
                (fun r w' =>
                   ctxt_prio (ctxt (snd r)) = ctxt_prio c0 /\
                   ((fst r = false /\ (I1 w' \/ I2 w')) \/
                    (fst r = true /\ backlog (ctxt (snd r)) = false /\
                     Some m = None /\ I1 w' /\
                     ctxt_seq (ctxt (snd r)) = ctxt_seq c0) \/
                    (fst r = true /\ backlog (ctxt (snd r)) = true /\
                     exists m0, Some m = Some m0 /\ I2 w' /\
                                P m0 (ctxt_seq (ctxt (snd r))))))).
  { intros wc c4 d w4 HI4 Hsame.
    destruct (same_context_fields _ _ Hsame) as (Hp & Hs & Hb).
    simpl in Hp, Hs, Hb.
    eapply returns_weaken.
    - apply (emit_update_con_returns I1 I2 (P m));
        [exact HR1 | exact HD1 | apply HE2 | | exact HI4].
      intros w5 HI5. rewrite Hm2, Hm1.
      apply Hupd; [reflexivity | exact HI5 | exact Hs].
    - intros r w' [Hp' H]. split; [congruence|].
      destruct H as [H | (Hr & HI' & HP & Hb')]; [left; exact H|].
      right; right. split; [exact Hr|]. split; [congruence|].
      exists m. auto. }
  destruct (outbuf_len m2 =? 0)%N.
  { apply Hfinish; [exact HI3 | left; reflexivity]. }
  apply returns_bind.
  eapply returns_weaken; [apply (returns_nbcon_state_read I1); assumption|].
  intros cur w4 (HI4 & _).
  set (wc := mkWctxt (set_backlog c0 true) (Some (pmsg_outbuf m2))
                     (outbuf_len m2) (unsafe_takeover cur)).
  assert (Hcb : callback_keeps_context
                  (if use_atomic then write_atomic else write_thread)).
  { destruct use_atomic; assumption. }
  destruct (if use_atomic then write_atomic else write_thread)
    as [cb|] eqn:Ecb.
  2:{ apply returns_bind.
      eapply returns_weaken; [apply (release_returns I1); assumption|].
      intros c5 w5 (HI5 & -> & _). apply returns_ret. simpl.
      split; [reflexivity|]. left. auto. }
  apply returns_bind.
  eapply returns_weaken; [apply (call_driver_returns I1); assumption|].
  intros wc' w5 (HI5 & Hwc').
  destruct (Hcb cb wc (con_nbcon_state w4) eq_refl) as [Hprio Hkeep].
  rewrite <- Hwc' in Hprio, Hkeep. simpl in Hprio.
  destruct (outbuf wc') eqn:Eout.
  - apply Hfinish; [exact HI5|]. apply Hkeep. discriminate.
  - apply returns_bind.
    eapply returns_weaken; [apply (release_returns I1); assumption|].
    intros c5 w6 (HI6 & -> & _). apply returns_ret. simpl.
    split; [exact Hprio|]. left. auto.
Qed.

(** ** The update of the cursor *)

Lemma returns_and {A : Type} (m : M A) (w : world)
      (P Q : A -> world -> Prop) :
  returns m w P -> returns m w Q -> returns m w (fun a w' => P a w' /\ Q a w').
Proof.
  intros (a & w1 & Hm & HP) HQ. exists a, w1.
  split; [exact Hm|]. split; [exact HP|].
  exact (returns_inv m w a w1 Q HQ Hm).
Qed.

Lemma nbcon_seq_try_update_eq (c : nbcon_context) (new_seq : N) (w : world) :
  exists w1,
    env_step w = Some (tt, w1) /\
    ((con_nbcon_seq w1 = ctxt_seq c /\
      nbcon_seq_try_update c new_seq w =
      Some (set_ctxt_seq c new_seq, set_nbcon_seq new_seq w1)) \/
     (con_nbcon_seq w1 <> ctxt_seq c /\
      exists w2,
        env_step w1 = Some (tt, w2) /\
        nbcon_seq_try_update c new_seq w =
        Some (set_ctxt_seq c (con_nbcon_seq w2), w2))).
Proof.
  unfold nbcon_seq_try_update, nbcon_seq_try_cmpxchg, nbcon_seq_read,
    __u64seq_to_ulseq, __ulseq_to_u64seq, bind, gets, modify, ret.
  destruct (env_step w) as [[[] w1]|] eqn:E1.
  2:{ destruct (env_step_cases w) as [[_ H] | (e & r & _ & H)];
      congruence. }
  exists w1. split; [reflexivity|].
  destruct (con_nbcon_seq w1 =? ctxt_seq c)%N eqn:E.
  - apply N.eqb_eq in E. left. split; [exact E | reflexivity].
  - apply N.eqb_neq in E. right. split; [exact E|].
    destruct (env_step (w1)) as [[[] w2]|] eqn:E2.
    2:{ destruct (env_step_cases w1) as [[_ H] | (e & r & _ & H)];
        congruence. }
    exists w2. split; reflexivity.
Qed.

Lemma seq_try_update_keeps (I : world -> Prop) (c : nbcon_context)
      (new_seq : N) (w : world) :
  stable I -> seq_tolerant I -> I w -> (ctxt_seq c < new_seq)%N ->
  returns (nbcon_seq_try_update c new_seq) w
          (fun c' w' => I w' /\ c' = set_ctxt_seq c (ctxt_seq c')).
Proof.
  intros HS HT HI Hlt.
  destruct (nbcon_seq_try_update_eq c new_seq w)
    as (w1 & He & [(Hs & Hr) | (Hs & w2 & He2 & Hr)]);
    (eapply returns_eq; [exact Hr|]);
    destruct (env_step_inv I w w1 HS HI He) as [HI1 _].
  - split; [|reflexivity]. apply HT; [exact HI1 | lia].
  - split; [|reflexivity]. apply (env_step_inv I w1 w2 HS HI1 He2).
Qed.

Lemma seq_try_update_seq_is (n : N) (c : nbcon_context) (new_seq : N)
      (w : world) :
  seq_is n w ->
  returns (nbcon_seq_try_update c new_seq) w
          (fun c' w' =>
             seq_is (if (ctxt_seq c =? n)%N then new_seq else n) w' /\
             ctxt_seq c' = (if (ctxt_seq c =? n)%N then new_seq else n) /\
             c' = set_ctxt_seq c (ctxt_seq c')).
Proof.
  intros HI.
  pose proof (emitter_respected_seq_is n) as ((HS & _) & _).
  destruct (nbcon_seq_try_update_eq c new_seq w)
    as (w1 & He & [(Hs & Hr) | (Hs & w2 & He2 & Hr)]);
    (eapply returns_eq; [exact Hr|]);
    destruct (env_step_inv (seq_is n) w w1 HS HI He) as [[Hn HF] _].
  - assert (E : (ctxt_seq c =? n)%N = true) by (apply N.eqb_eq; congruence).
    rewrite E. split; [|split; reflexivity].
    split; [reflexivity | exact HF].
  - assert (E : (ctxt_seq c =? n)%N = false)
      by (apply N.eqb_neq; congruence).
    rewrite E.
    destruct (env_step_inv (seq_is n) w1 w2 HS (conj Hn HF) He2)
      as [[Hn2 HF2] _].
    split; [split; assumption | split; [exact Hn2 | reflexivity]].
Qed.

Lemma seq_tolerant_True : seq_tolerant (fun _ => True).
Proof. intros w new _ _. exact I. Qed.


Lemma seq_tolerant_sched_within (k : nat) : seq_tolerant (sched_within k).
Proof. intros w new H _. exact H. Qed.

Lemma u64_add_1 (s : N) : (s < u64_max)%N -> u64_add s 1 = (s + 1)%N.
Proof.
  intros H. unfold u64_add. apply N.mod_small. lia.
Qed.

(** ** The flush loop *)

Lemma flush_measure_bound (stop_seq : N) (wctxt : nbcon_write_context)
      (w : world) (k : nat) :
  (List.length (sched w) <= k)%nat ->
  (flush_measure stop_seq wctxt w < S k * (N.to_nat stop_seq + 2))%nat.
Proof.
  intros H. unfold flush_measure.
  destruct (ctxt_seq (ctxt wctxt) =? con_nbcon_seq w)%N; nia.
Qed.

Lemma flush_loop_returns (I : world -> Prop)
      (smp_processor_id : Z) (is_extended : bool)
      (rd : N -> bool -> bool -> option printk_message)
      (write_atomic write_thread : option write_callback)
      (stop_seq : N) (p : nbcon_prio) :
  emitter_respected I -> seq_tolerant I -> reader_in_order rd ->
  callback_keeps_context write_atomic ->
  callback_keeps_context write_thread ->
  forall fuel wctxt w,
    I w -> ctxt_prio (ctxt wctxt) = p ->
    (flush_measure stop_seq wctxt w < fuel)%nat ->
    returns (flush_loop smp_processor_id is_extended rd write_atomic
                        write_thread fuel wctxt stop_seq) w
            (fun x w' =>
               I w' /\
               match x with
               | inl (err, wc') => err = - EAGAIN
               | inr (err, wc') =>
                   (err = 0 \/ err = - ENOENT) /\ ctxt_prio (ctxt wc') = p
               end).
Proof.
  intros HE HT Hrd Hwa Hwt.
  pose proof HE as (HR & _). pose proof HR as (HS & _).
  induction fuel as [|fuel IH]; intros wctxt w HI Hp Hf; [lia|].
  simpl. apply returns_bind.
  eapply returns_weaken; [apply (returns_nbcon_seq_read I); assumption|].
  intros s w1 (HI1 & Hs & Hcase).
  destruct (s <? stop_seq)%N eqn:Elt; simpl.
  2:{ apply returns_ret. split; [exact HI1|]. auto. }
  apply N.ltb_lt in Elt.
  set (n := con_nbcon_seq w1) in *.
  (* what is left to do after the emitter has returned *)
  assert (Hrest :
            forall (J : world -> Prop) r w2,
              (forall w', J w' -> I w') ->
              ctxt_prio (ctxt (snd r)) = ctxt_prio (ctxt wctxt) ->
              (fst r = true -> backlog (ctxt (snd r)) = true ->
               (flush_measure stop_seq (snd r) w2 < fuel)%nat) ->
              J w2 ->
              returns
                (let (ok, wctxt0) := r in
                 if negb ok then ret (inl (- EAGAIN, wctxt0))
                 else if negb (backlog (ctxt wctxt0))
                 then
                   s0 <- nbcon_seq_read ;;
                   (if (s0 <? stop_seq)%N
                    then ret (inr (- ENOENT, wctxt0))
                    else ret (inr (0, wctxt0)))
                 else flush_loop smp_processor_id is_extended rd
                                 write_atomic write_thread fuel wctxt0
                                 stop_seq) w2
                (fun x w' =>
                   I w' /\
                   match x with
                   | inl (err, _) => err = - EAGAIN
                   | inr (err, wc') =>
                       (err = 0 \/ err = - ENOENT) /\
                       ctxt_prio (ctxt wc') = p
                   end)).
  { intros J [ok wc'] w2 HJ Hprio Hm HJ2. simpl in Hprio, Hm.
    destruct ok; simpl.
    2:{ apply returns_ret. split; [apply HJ, HJ2 | reflexivity]. }
    destruct (backlog (ctxt wc')) eqn:Eb; simpl.
    - apply IH; [apply HJ, HJ2 | congruence | auto].
    - apply returns_bind.
      eapply returns_weaken;
        [apply (returns_nbcon_seq_read I); [exact HS | apply HJ, HJ2]|].
      intros s0 w3 (HI3 & _).
      destruct (s0 <? stop_seq)%N; apply returns_ret;
        (split; [exact HI3|]); split; auto; congruence. }
  apply returns_bind.
  destruct Hcase as [[Hq ->] | Hlt].
  - (* no interference is left: the cursor makes progress *)
    set (n2 := match rd (ctxt_seq (ctxt wctxt)) is_extended true with
               | Some m => if (ctxt_seq (ctxt wctxt) =? n)%N
                           then u64_add (pmsg_seq m) 1 else n
               | None => n
               end).
    pose (I1 := fun w' => (I w' /\ seq_is n w') /\ sched_within 0 w').
    pose (I2 := fun w' => (I w' /\ seq_is n2 w') /\ sched_within 0 w').
    assert (HE1 : emitter_respected I1).
    { apply emitter_respected_and; [apply emitter_respected_and|];
        [exact HE | apply emitter_respected_seq_is |
         apply emitter_respected_sched_within]. }
    assert (HE2 : emitter_respected I2).
    { apply emitter_respected_and; [apply emitter_respected_and|];
        [exact HE | apply emitter_respected_seq_is |
         apply emitter_respected_sched_within]. }
    eapply returns_weaken.
    + apply (emit_next_record_returns
               I1 I2 (fun _ s' => s' = n2)); try assumption.
      * intros m c' w2 Em [[HI2 Hn2] Hk2] Hc'.
        destruct (Hrd _ _ _ _ Em) as [Hge Hmax].
        assert (Hnew : (ctxt_seq c' < u64_add (pmsg_seq m) 1)%N).
        { rewrite u64_add_1 by exact Hmax. lia. }
        pose proof (seq_try_update_keeps I c' _ w2 HS HT HI2 Hnew) as H1.
        pose proof (seq_try_update_seq_is n c' (u64_add (pmsg_seq m) 1)
                                          w2 Hn2) as H2.
        pose proof (seq_try_update_keeps
                      (sched_within 0) c' _ w2
                      (proj1 (proj1 (emitter_respected_sched_within 0)))
                      (seq_tolerant_sched_within 0) Hk2 Hnew) as H3.
        eapply returns_weaken;
          [apply (returns_and _ _ _ _ H1 (returns_and _ _ _ _ H2 H3))|].
        intros c'' w3 ((HI3 & Heq) & (Hs3 & Hc3 & _) & (Hk3 & _)).
        unfold I2, n2. rewrite Em. rewrite Hc' in Hs3, Hc3. auto.
      * split; [split|]; [exact HI1 | | unfold sched_within; rewrite Hq;
                                         simpl; lia].
        split; [reflexivity|]. rewrite Hq. constructor.
    + intros r w2 (Hprio & Hres).
      apply (Hrest (fun w' => I w' /\ sched_within 0 w')).
      * intros w' H. apply H.
      * exact Hprio.
      * intros Hr Hb.
        destruct Hres as [(C & _) | [(_ & C & _) |
                                     (_ & _ & m & Em & HI2 & HP)]];
          [congruence | congruence |].
        destruct HI2 as [[_ [Hn2 _]] Hk2].
        destruct (Hrd _ _ _ _ Em) as [Hge Hmax].
        unfold flush_measure in *. unfold sched_within in Hk2.
        rewrite Hq in Hf. simpl in Hf.
        assert (Hl : List.length (sched w2) = 0%nat) by lia.
        rewrite Hl, Hn2, HP, N.eqb_refl. fold n in Hf.
        unfold n2. rewrite Em.
        destruct (ctxt_seq (ctxt wctxt) =? n)%N eqn:En.
        -- apply N.eqb_eq in En. rewrite u64_add_1 by exact Hmax.
           rewrite Hs in Elt. fold n in Elt. lia.
        -- lia.
      * destruct Hres as [(_ & [H | H]) | [(_ & _ & _ & H & _) |
                                           (_ & _ & m & _ & H & _)]];
          split; apply H.
  - (* an event has been consumed *)
    set (k := List.length (sched w1)).
    pose (I1 := fun w' => I w' /\ sched_within k w').
    assert (HE1 : emitter_respected I1).
    { apply emitter_respected_and;
        [exact HE | apply emitter_respected_sched_within]. }
    eapply returns_weaken.
    + apply (emit_next_record_returns
               I1 I1 (fun _ _ => True)); try assumption.
      * intros m c' w2 Em [HI2 Hk2] Hc'.
        destruct (Hrd _ _ _ _ Em) as [Hge Hmax].
        assert (Hnew : (ctxt_seq c' < u64_add (pmsg_seq m) 1)%N).
        { rewrite u64_add_1 by exact Hmax. lia. }
        pose proof (seq_try_update_keeps I c' _ w2 HS HT HI2 Hnew) as H1.
        pose proof (seq_try_update_keeps
                      (sched_within k) c' _ w2
                      (proj1 (proj1 (emitter_respected_sched_within k)))
                      (seq_tolerant_sched_within k) Hk2 Hnew) as H3.
        eapply returns_weaken; [apply (returns_and _ _ _ _ H1 H3)|].
        intros c'' w3 ((HI3 & Heq) & (Hk3 & _)).
        unfold I1. auto.
      * split; [exact HI1 | unfold sched_within, k; lia].
    + intros r w2 (Hprio & Hres).
      assert (HI2 : I1 w2).
      { destruct Hres as [(_ & [H | H]) | [(_ & _ & _ & H & _) |
                                           (_ & _ & m & _ & H & _)]];
          exact H. }
      apply (Hrest I1); [intros w' H; apply H | exact Hprio | | exact HI2].
      intros _ _. destruct HI2 as [_ Hk2].
      pose proof (flush_measure_bound stop_seq (snd r) w2 k Hk2) as Hb.
      unfold flush_measure in Hf. unfold k in *.
      assert (S (List.length (sched w1)) * (N.to_nat stop_seq + 2) <=
              List.length (sched w) * (N.to_nat stop_seq + 2))%nat by nia.
      lia.
Qed.

Lemma default_prio_not_none (smp_processor_id cpu_emergency_nesting : Z)
      (w : world) :
  exists p,
    nbcon_get_default_prio smp_processor_id cpu_emergency_nesting w =
    Some (p, w) /\ p <> NBCON_PRIO_NONE.
Proof.
  unfold nbcon_get_default_prio, bind, gets, ret.
  destruct (panic_cpu w =? smp_processor_id);
    [|destruct (negb (cpu_emergency_nesting =? 0))];
    eexists; (split; [reflexivity | discriminate]).
Qed.

Lemma flush_returns (I : world -> Prop)
      (smp_processor_id : Z) (is_extended : bool)
      (rd : N -> bool -> bool -> option printk_message)
      (write_atomic write_thread : option write_callback)
      (cpu_emergency_nesting : Z) (stop_seq : N) (allow : bool)
      (w : world) :
  emitter_respected I -> seq_tolerant I -> reader_in_order rd ->
  callback_keeps_context write_atomic ->
  callback_keeps_context write_thread ->
  I w ->
  exists p,
    nbcon_get_default_prio smp_processor_id cpu_emergency_nesting w =
    Some (p, w) /\
    returns (__nbcon_atomic_flush_pending_con
               smp_processor_id is_extended rd write_atomic write_thread
               cpu_emergency_nesting stop_seq allow) w
            (fun err w' =>
               I w' /\
               (err = 0 \/ err = - EPERM \/ err = - EAGAIN \/
                err = - ENOENT) /\
               (err = 0 \/ err = - ENOENT ->
                nbcon_owner_matches (con_nbcon_state w') smp_processor_id p
                = false)).
Proof.
  intros HE HT Hrd Hwa Hwt HI. pose proof HE as (HR & _).
  destruct (default_prio_not_none smp_processor_id cpu_emergency_nesting w)
    as (p & Hp & Hne).
  exists p. split; [exact Hp|].
  unfold __nbcon_atomic_flush_pending_con.
  apply returns_bind. eapply returns_eq; [exact Hp|].
  apply returns_bind.
  eapply returns_weaken; [apply (try_acquire_returns I); assumption|].
  intros [ok c] w1 (HI1 & _ & Hc). simpl in Hc.
  destruct ok; simpl.
  2:{ apply returns_ret. split; [exact HI1|].
      split; [auto|]. intros [C | C]; discriminate C. }
  destruct (Hc eq_refl) as (pb & ->).
  apply returns_bind.
  eapply returns_weaken.
  { apply (flush_loop_returns I smp_processor_id is_extended rd
             write_atomic write_thread stop_seq p HE HT Hrd Hwa Hwt
             (flush_fuel stop_seq w1) _ w1 HI1); [reflexivity|].
    unfold flush_fuel. apply flush_measure_bound. lia. }
  intros [[err wc] | [err wc]] w2 [HI2 H].
  - apply returns_ret. split; [exact HI2|]. split; [auto|].
    intros [C | C]; rewrite H in C; discriminate C.
  - destruct H as [Herr Hprio].
    apply returns_bind.
    eapply returns_weaken; [apply (release_returns I); assumption|].
    intros c' w3 (HI3 & _ & Ho). apply returns_ret.
    split; [exact HI3|]. split; [tauto|].
    intros _. rewrite Hprio in Ho. apply Ho, Hne.
Qed.

(** ** The scenarios satisfy the assumptions *)

Lemma reader_all_in_order : reader_in_order reader_all.
Proof.
  intros s e ms m H. unfold reader_all in H.
  destruct (s <? 8)%N eqn:E; [|discriminate H].
  injection H as <-. simpl. apply N.ltb_lt in E. unfold u64_max. lia.
Qed.

Lemma reader_after_reclaim_in_order : reader_in_order reader_after_reclaim.
Proof.
  intros s e ms m H. unfold reader_after_reclaim in H.
  destruct (s <? 8)%N eqn:E; [|discriminate H].
  injection H as <-. simpl. apply N.ltb_lt in E. unfold u64_max. lia.
Qed.

Lemma plain_driver_keeps_context :
  callback_keeps_context (Some plain_driver).
Proof.
  intros f wc s H. injection H as <-. simpl.
  split; [reflexivity | intros _; left; reflexivity].
Qed.

Lemma no_callback_keeps_context : callback_keeps_context None.
Proof. intros f wc s H. discriminate H. Qed.

(** ** The sequence cursor *)



(** ** The emitter advances the cursor *)

(** C9 as stated fails when the record at the context's sequence has been
    reclaimed: the reader hands back record 6 for the sequence 5, and the
    emitter moves the cursor to 7, not to 5 + 1. *)
Lemma cursor_skips_reclaimed_records :
  exists wc w',
    nbcon_emit_next_record 0 false reader_after_reclaim
                           (Some plain_driver) None printer_wctxt true
                           (world_of owned_by_cpu0 []) =
    Some ((true, wc), w') /\
    ctxt_seq (ctxt printer_wctxt) = 5%N /\
    con_nbcon_seq (world_of owned_by_cpu0 []) = 5%N /\
    con_nbcon_seq w' = 7%N /\
    con_nbcon_seq w' <> (ctxt_seq (ctxt printer_wctxt) + 1)%N.
Proof.
  eexists _, _. split; [vm_compute; reflexivity|].
  repeat split. discriminate.
Qed.

(** C9, amended.  With a cursor that no interference touches, an emission
    that returns true with a record emitted has moved the cursor, and the
    context's sequence with it, to the sequence of the record that was read
    plus one, when the cursor was where the context expected it; that
    record is the one at the context's sequence or a later one.  When the
    cursor was elsewhere the exchange fails, the stored value stays and
    the context's sequence is set to it. *)
Theorem emit_advances_cursor
        (smp_processor_id : Z) (is_extended : bool)
        (rd : N -> bool -> bool -> option printk_message)
        (write_atomic write_thread : option write_callback)
        (wctxt : nbcon_write_context) (use_atomic : bool) (n : N)
        (w : world) :
  reader_in_order rd ->
  callback_keeps_context write_atomic ->
  callback_keeps_context write_thread ->
  seq_is n w ->
  returns (nbcon_emit_next_record smp_processor_id is_extended rd
                                  write_atomic write_thread
                                  wctxt use_atomic) w
          (fun r w' =>
             fst r = true -> backlog (ctxt (snd r)) = true ->
             exists m,
               rd (ctxt_seq (ctxt wctxt)) is_extended true = Some m /\
               (ctxt_seq (ctxt wctxt) <= pmsg_seq m)%N /\
               (ctxt_seq (ctxt wctxt) = n ->
                con_nbcon_seq w' = (pmsg_seq m + 1)%N /\
                ctxt_seq (ctxt (snd r)) = (pmsg_seq m + 1)%N) /\
               (ctxt_seq (ctxt wctxt) <> n ->
                con_nbcon_seq w' = n /\ ctxt_seq (ctxt (snd r)) = n)).
Proof.
  intros Hrd Hwa Hwt HI.
  set (n2 := match rd (ctxt_seq (ctxt wctxt)) is_extended true with
             | Some m => if (ctxt_seq (ctxt wctxt) =? n)%N
                         then u64_add (pmsg_seq m) 1 else n
             | None => n
             end).
  eapply returns_weaken.
  - apply (emit_next_record_returns
             (seq_is n) (seq_is n2) (fun _ s' => s' = n2));
      try assumption; try apply emitter_respected_seq_is.
    intros m c' w1 Em HI1 Hc'.
    eapply returns_weaken;
      [apply (seq_try_update_seq_is n c' (u64_add (pmsg_seq m) 1) w1 HI1)|].
    intros c'' w2 (H1 & H2 & H3). unfold n2. rewrite Em.
    rewrite Hc' in H1, H2. auto.
  - intros r w' (_ & Hres) Hr Hb.
    destruct Hres as [(C & _) | [(_ & C & _) |
                                 (_ & _ & m & Em & [Hn2 _] & HP)]];
      [congruence | congruence |].
    exists m. destruct (Hrd _ _ _ _ Em) as [Hge Hmax].
    split; [exact Em|]. split; [exact Hge|].
    unfold n2 in *. rewrite Em in *.
    split; intros Hn.
    + apply N.eqb_eq in Hn. rewrite Hn in *.
      rewrite u64_add_1 in * by exact Hmax. auto.
    + apply N.eqb_neq in Hn. rewrite Hn in *. auto.
Qed.

Lemma emit_advances_cursor_witness :
  seq_is 5 (world_of owned_by_cpu0 []) /\
  returns (nbcon_emit_next_record 0 false reader_after_reclaim
                                  (Some plain_driver) None
                                  printer_wctxt true)
          (world_of owned_by_cpu0 [])
          (fun r w' =>
             fst r = true -> backlog (ctxt (snd r)) = true ->
             exists m,
               reader_after_reclaim (ctxt_seq (ctxt printer_wctxt))
                                    false true = Some m /\
               (ctxt_seq (ctxt printer_wctxt) <= pmsg_seq m)%N /\
               (ctxt_seq (ctxt printer_wctxt) = 5%N ->
                con_nbcon_seq w' = (pmsg_seq m + 1)%N /\
                ctxt_seq (ctxt (snd r)) = (pmsg_seq m + 1)%N) /\
               (ctxt_seq (ctxt printer_wctxt) <> 5%N ->
                con_nbcon_seq w' = 5%N /\
                ctxt_seq (ctxt (snd r)) = 5%N)).
Proof.
  assert (H : seq_is 5 (world_of owned_by_cpu0 [])).
  { split; [reflexivity | constructor]. }
  split; [exact H|].
  exact (emit_advances_cursor
           0 false reader_after_reclaim (Some plain_driver) None
           printer_wctxt true 5 (world_of owned_by_cpu0 [])
           reader_after_reclaim_in_order plain_driver_keeps_context
           no_callback_keeps_context H).
Defined.

(** ** The replay notice *)

Lemma respected_handed_to_driver (l : list driver_call) :
  respected (handed_to_driver l).
Proof.
  unfold handed_to_driver. split.
  - intros e rest w E H. exact H.
  - intros w new H _. exact H.
Qed.

Lemma respected_prev_seq_is (v : N) : respected (prev_seq_is v).
Proof.
  split.
  - intros e rest w E [Hs HF]. rewrite E in HF.
    apply Forall_cons_iff in HF. destruct HF as [He HF].
    split; [|exact HF]. simpl. unfold event_leaves_prev_seq in He.
    rewrite He. exact Hs.
  - intros w new [Hs HF] _. split; assumption.
Qed.

Lemma respected_and (I J : world -> Prop) :
  respected I -> respected J -> respected (fun w => I w /\ J w).
Proof.
  intros (SI & WI) (SJ & WJ). split.
  - intros e rest w E [HI HJ]. split; eauto.
  - intros w new [HI HJ] HT. split; eauto.
Qed.

Lemma seq_try_update_blind (I : world -> Prop) (c : nbcon_context)
      (new_seq : N) (w : world) :
  stable I -> (forall w n, I w -> I (set_nbcon_seq n w)) -> I w ->
  returns (nbcon_seq_try_update c new_seq) w
          (fun c' w' => I w' /\ c' = set_ctxt_seq c (ctxt_seq c')).
Proof.
  intros HS HT HI.
  destruct (nbcon_seq_try_update_eq c new_seq w)
    as (w1 & He & [(Hs & Hr) | (Hs & w2 & He2 & Hr)]);
    (eapply returns_eq; [exact Hr|]);
    destruct (env_step_inv I w w1 HS HI He) as [HI1 _].
  - split; [|reflexivity]. apply HT, HI1.
  - split; [|reflexivity]. apply (env_step_inv I w1 w2 HS HI1 He2).
Qed.

Lemma call_driver_eq (use_atomic : bool) (cb : write_callback)
      (wc : nbcon_write_context) (w : world) :
  call_driver use_atomic cb wc w =
  Some (fst (cb wc (con_nbcon_state w)),
        set_nbcon_state
          (snd (cb wc (con_nbcon_state w)))
          (log_driver_call
             (mkCall use_atomic
                     match outbuf wc with
                     | Some t => t
                     | None => EmptyString
                     end
                     match outbuf (fst (cb wc (con_nbcon_state w))) with
                     | Some _ => true
                     | None => false
                     end)
             w)).
Proof.
  unfold call_driver. destruct (cb wc (con_nbcon_state w)). reflexivity.
Qed.

Lemma emit_update_con_keeps_log (l : list driver_call)
      (smp_processor_id : Z) (wctxt : nbcon_write_context)
      (c : nbcon_context) (pmsg : printk_message)
      (con_dropped_seen dropped : N) (w : world) :
  handed_to_driver l w ->
  returns (emit_update_con smp_processor_id wctxt c pmsg
                           con_dropped_seen dropped) w
          (fun _ w' => handed_to_driver l w').
Proof.
  intros HI. pose proof (respected_handed_to_driver l) as HR.
  eapply returns_weaken.
  - apply (emit_update_con_returns
             (handed_to_driver l) (handed_to_driver l) (fun _ => True));
      try assumption.
    + intros w0 n H. exact H.
    + intros w1 HI1.
      eapply returns_weaken.
      * apply (seq_try_update_blind (handed_to_driver l));
          [apply HR | intros w0 n0 H; exact H | exact HI1].
      * intros c' w2 [H1 H2]. auto.
  - intros r w' (_ & [(_ & [H | H]) | (_ & H & _)]); exact H.
Qed.

Lemma emit_mark_replay_text (l : list driver_call) (v : N)
      (smp_processor_id : Z) (c : nbcon_context) (pmsg : printk_message)
      (w : world) :
  handed_to_driver l w -> prev_seq_is v w ->
  returns (emit_mark_replay smp_processor_id c pmsg) w
          (fun r w' =>
             handed_to_driver l w' /\
             (fst (fst r) = true ->
              snd r = if (v =? pmsg_seq pmsg)%N
                      then console_prepend_replay pmsg else pmsg)).
Proof.
  intros HD HP.
  pose proof (respected_and _ _ (respected_handed_to_driver l)
                            (respected_prev_seq_is v)) as HR0.
  pose proof (respected_handed_to_driver l) as HR.
  unfold emit_mark_replay.
  apply returns_bind.
  eapply returns_weaken.
  { apply (returns_prev_seq_read
             (fun w' => handed_to_driver l w' /\ prev_seq_is v w'));
      [apply HR0 | split; assumption]. }
  intros ulseq w1 [[HD1 [Hv1 _]] Hu].
  unfold __ulseq_to_u64seq. rewrite Hu, Hv1.
  destruct (v =? pmsg_seq pmsg)%N.
  { apply returns_ret. simpl. auto. }
  apply returns_bind.
  eapply returns_weaken;
    [apply (returns_nbcon_state_read (handed_to_driver l));
     [apply HR | exact HD1]|].
  intros cur w2 (HD2 & _).
  apply returns_bind.
  eapply returns_weaken;
    [apply (can_proceed_returns (handed_to_driver l)); assumption|].
  intros [ok c'] w3 [HD3 _].
  destruct ok; simpl.
  - apply returns_bind.
    eapply returns_weaken.
    { apply (returns_prev_seq_try_cmpxchg (handed_to_driver l));
        [apply HR | intros w0 n0 H; exact H | exact HD3]. }
    intros r w4 HD4. apply returns_ret. simpl. auto.
  - apply returns_ret. simpl. split; [exact HD3 | intros C; discriminate C].
Qed.

Lemma emit_driver_text
      (smp_processor_id : Z) (is_extended : bool)
      (rd : N -> bool -> bool -> option printk_message)
      (write_atomic write_thread : option write_callback)
      (wctxt : nbcon_write_context) (use_atomic : bool) (v : N)
      (w : world) :
  prev_seq_is v w ->
  returns (nbcon_emit_next_record smp_processor_id is_extended rd
                                  write_atomic write_thread
                                  wctxt use_atomic) w
          (fun _ w' =>
             driver_calls w' = driver_calls w \/
             exists m m1 completed,
               rd (ctxt_seq (ctxt wctxt)) is_extended true = Some m /\
               (m1 = m \/ exists d, m1 = console_prepend_dropped m d) /\
               driver_calls w' =
               driver_calls w ++
               [mkCall use_atomic
                       (pmsg_outbuf (if (v =? pmsg_seq m)%N
                                     then console_prepend_replay m1
                                     else m1))
                       completed]).
Proof.
  intros HP. set (l := driver_calls w).
  assert (HD : handed_to_driver l w) by reflexivity.
  pose proof (respected_and _ _ (respected_handed_to_driver l)
                            (respected_prev_seq_is v)) as HR0.
  pose proof (respected_handed_to_driver l) as HR.
  unfold nbcon_emit_next_record, nbcon_context_enter_unsafe,
    nbcon_context_exit_unsafe.
  apply returns_bind.
  eapply returns_weaken.
  { apply (update_unsafe_returns_ctxt
             (fun w' => handed_to_driver l w' /\ prev_seq_is v w'));
      [exact HR0 | split; assumption]. }
  intros [ok c1] w1 ([HD1 HP1] & _ & Hok). simpl in Hok.
  destruct ok; simpl.
  2:{ apply returns_ret. left. exact HD1. }
  rewrite (Hok eq_refl). clear c1 Hok.
  destruct (rd (ctxt_seq (ctxt wctxt)) is_extended true) as [m|] eqn:Erd.
  2:{ apply returns_bind.
      eapply returns_weaken;
        [apply (update_unsafe_returns_ctxt (handed_to_driver l));
         assumption|].
      intros [ok c2] w2 (HD2 & _). apply returns_ret. left. exact HD2. }
  apply returns_bind, returns_gets.
  set (dropped := u64_add (con_dropped w1) (pmsg_dropped m)).
  set (m1 := if negb (dropped =? 0)%N && negb is_extended
             then console_prepend_dropped m dropped else m).
  assert (Hm1 : pmsg_seq m1 = pmsg_seq m).
  { unfold m1. destruct (negb (dropped =? 0)%N && negb is_extended);
      reflexivity. }
  assert (Hm1' : m1 = m \/ exists d, m1 = console_prepend_dropped m d).
  { unfold m1. destruct (negb (dropped =? 0)%N && negb is_extended);
      [right; eexists; reflexivity | left; reflexivity]. }
  apply returns_bind.
  eapply returns_weaken;
    [apply (emit_mark_replay_text l v); assumption|].
  intros [[ok c2] m2] w2 (HD2 & Hm2). simpl in Hm2.
  destruct ok; simpl.
  2:{ apply returns_ret. left. exact HD2. }
  rewrite (Hm2 eq_refl), Hm1. clear Hm2.
  set (m3 := if (v =? pmsg_seq m)%N then console_prepend_replay m1 else m1).
  apply returns_bind.
  eapply returns_weaken;
    [apply (update_unsafe_returns_ctxt (handed_to_driver l)); assumption|].
  intros [ok c3] w3 (HD3 & _).
  destruct ok; simpl.
  2:{ apply returns_ret. left. exact HD3. }
  destruct (outbuf_len m3 =? 0)%N.
  { eapply returns_weaken;
      [apply (emit_update_con_keeps_log l); exact HD3|].
    intros r w' H. left. exact H. }
  apply returns_bind.
  eapply returns_weaken;
    [apply (returns_nbcon_state_read (handed_to_driver l));
     [apply HR | exact HD3]|].
  intros cur w4 (HD4 & _).
  destruct (if use_atomic then write_atomic else write_thread) as [cb|].
  2:{ apply returns_bind.
      eapply returns_weaken;
        [apply (release_returns (handed_to_driver l)); assumption|].
      intros c5 w5 (HD5 & _). apply returns_ret. left. exact HD5. }
  apply returns_bind.
  eapply returns_eq; [apply call_driver_eq|]. simpl outbuf.
  set (wc' := fst (cb _ (con_nbcon_state w4))).
  set (l' := l ++ [mkCall use_atomic (pmsg_outbuf m3)
                          match outbuf wc' with
                          | Some _ => true
                          | None => false
                          end]).
  match goal with |- returns _ ?w5 _ => assert (HD5 : handed_to_driver l' w5)
  end.
  { unfold handed_to_driver, l'. simpl. rewrite HD4. reflexivity. }
  pose proof (respected_handed_to_driver l') as HR'.
  assert (Hdone : forall w', handed_to_driver l' w' ->
            driver_calls w' = l \/
            exists m0 m4 completed,
              Some m = Some m0 /\
              (m4 = m0 \/ exists d, m4 = console_prepend_dropped m0 d) /\
              driver_calls w' =
              l ++ [mkCall use_atomic
                           (pmsg_outbuf (if (v =? pmsg_seq m0)%N
                                         then console_prepend_replay m4
                                         else m4))
                           completed]).
  { intros w' H. right. exists m, m1. eexists. split; [reflexivity|].
    split; [exact Hm1'|]. exact H. }
  destruct (outbuf wc').
  - eapply returns_weaken;
      [apply (emit_update_con_keeps_log l'); exact HD5|].
    intros r w' H. apply Hdone, H.
  - apply returns_bind.
    eapply returns_weaken;
      [apply (release_returns (handed_to_driver l')); assumption|].
    intros c5 w6 (HD6 & _). apply returns_ret. apply Hdone, HD6.
Qed.

(** C7 as stated fails in its last part: the same context gets the replay
    notice on its own retry.  The printer on CPU 0 stores the sequence 5 as
    previous-owner sequence, then hands the console over at the end of its
    unsafe region without having written anything; the waiter releases
    without printing; the printer acquires again, emits record 5 and the
    driver is handed the replay notice in front of the text. *)
Lemma same_owner_retry_gets_replay_notice :
  exists wc1 w1 wc2 w2,
    nbcon_emit_next_record 0 false reader_all (Some plain_driver) None
                           printer_wctxt true
                           (world_of owned_by_cpu0 retry_schedule) =
    Some ((false, wc1), w1) /\
    driver_calls w1 = [] /\
    con_nbcon_seq w1 = 5%N /\
    reacquire_and_emit wc1 w1 = Some ((true, wc2), w2) /\
    ctxt_prio (ctxt wc2) = ctxt_prio (ctxt printer_wctxt) /\
    driver_calls w2 = [mkCall true (replay_notice ++ "hello") true].
Proof.
  eexists _, _, _, _.
  split; [vm_compute; reflexivity|].
  split; [reflexivity|]. split; [reflexivity|].
  split; [vm_compute; reflexivity|].
  split; reflexivity.
Qed.

(** C7, amended.  In the emitter, when the previous-owner sequence that is
    read equals the sequence of the record about to be emitted, the replay
    notice is put in front of the text and nothing is stored.  Otherwise
    the state word is read again: if the caller no longer owns the
    console the emitter returns false; if it still owns it, the sequence
    of the record is stored by an exchange against the value read before
    and the text is left as it is.  Whether the notice appears depends
    only on the stored value, not on which context stored it: what the
    driver is handed is the text, with the notice in front exactly when
    the previous-owner sequence equals the record's sequence. *)
Theorem replay_notice_spec
        (smp_processor_id : Z) (is_extended : bool)
        (rd : N -> bool -> bool -> option printk_message)
        (write_atomic write_thread : option write_callback)
        (wctxt : nbcon_write_context) (use_atomic : bool)
        (c : nbcon_context) (pmsg : printk_message) (w : world) :
  (exists w1,
      env_step w = Some (tt, w1) /\
      (con_nbcon_prev_seq w1 = pmsg_seq pmsg ->
       emit_mark_replay smp_processor_id c pmsg w =
       Some ((true, c, console_prepend_replay pmsg), w1)) /\
      (con_nbcon_prev_seq w1 <> pmsg_seq pmsg ->
       exists w2,
         env_step w1 = Some (tt, w2) /\
         (~ (prio (con_nbcon_state w2) = ctxt_prio c /\
             cpu (con_nbcon_state w2) = smp_processor_id) ->
          emit_mark_replay smp_processor_id c pmsg w =
          Some ((false, c, pmsg), w2)) /\
         (prio (con_nbcon_state w2) = ctxt_prio c ->
          cpu (con_nbcon_state w2) = smp_processor_id ->
          req_prio (con_nbcon_state w2) = NBCON_PRIO_NONE \/
          unsafe (con_nbcon_state w2) = true ->
          exists w3,
            env_step w2 = Some (tt, w3) /\
            emit_mark_replay smp_processor_id c pmsg w =
            Some ((true, c, pmsg),
                  if (con_nbcon_prev_seq w3 =? con_nbcon_prev_seq w1)%N
                  then set_nbcon_prev_seq (pmsg_seq pmsg) w3
                  else w3)))) /\
  (forall c1 w1 m c2 m2 w2,
      nbcon_context_enter_unsafe smp_processor_id (ctxt wctxt) w =
      Some ((true, c1), w1) ->
      rd (ctxt_seq c1) is_extended true = Some m ->
      emit_mark_replay
        smp_processor_id (set_backlog c1 true)
        (if negb (u64_add (con_dropped w1) (pmsg_dropped m) =? 0)%N &&
            negb is_extended
         then console_prepend_dropped
                m (u64_add (con_dropped w1) (pmsg_dropped m))
         else m) w1 =
      Some ((false, c2, m2), w2) ->
      nbcon_emit_next_record smp_processor_id is_extended rd
                             write_atomic write_thread wctxt use_atomic w =
      Some ((false, set_ctxt wctxt c2), w2)) /\
  (forall v,
      prev_seq_is v w ->
      returns (nbcon_emit_next_record smp_processor_id is_extended rd
                                      write_atomic write_thread
                                      wctxt use_atomic) w
              (fun _ w' =>
                 driver_calls w' = driver_calls w \/
                 exists m m1 completed,
                   rd (ctxt_seq (ctxt wctxt)) is_extended true = Some m /\
                   (m1 = m \/ exists d, m1 = console_prepend_dropped m d) /\
                   driver_calls w' =
                   driver_calls w ++
                   [mkCall use_atomic
                           (pmsg_outbuf (if (v =? pmsg_seq m)%N
                                         then console_prepend_replay m1
                                         else m1))
                           completed])).
Proof.
  split; [|split].
  - destruct (env_step w) as [[[] w1]|] eqn:E1.
    2:{ destruct (env_step_cases w) as [[_ H] | (e & r & _ & H)];
        congruence. }
    exists w1. split; [reflexivity|].
    assert (Hblock :
              emit_mark_replay smp_processor_id c pmsg w =
              (if (con_nbcon_prev_seq w1 =? pmsg_seq pmsg)%N
               then ret (true, c, console_prepend_replay pmsg)
               else
                 cur <- nbcon_state_read ;;
                 '(ok, c0) <- nbcon_context_can_proceed
                                smp_processor_id c cur ;;
                 if negb ok then ret (false, c0, pmsg)
                 else
                   nbcon_prev_seq_try_cmpxchg
                     (con_nbcon_prev_seq w1) (pmsg_seq pmsg) ;;;
                   ret (true, c0, pmsg)) w1).
    { unfold emit_mark_replay, nbcon_prev_seq_read, __ulseq_to_u64seq,
        __u64seq_to_ulseq.
      unfold bind at 1 2. rewrite E1. reflexivity. }
    rewrite Hblock. clear Hblock. split.
    + intros Hv. apply N.eqb_eq in Hv. rewrite Hv. reflexivity.
    + intros Hv. apply N.eqb_neq in Hv. rewrite Hv.
      destruct (nbcon_state_read_eq w1) as (w2 & E2 & Hr).
      exists w2. split; [exact E2|]. split.
      * intros Hno.
        unfold bind.
        rewrite Hr, (can_proceed_not_owner _ _ _ _ Hno). reflexivity.
      * intros Hp Hc Hreq.
        assert (Hcp : nbcon_context_can_proceed
                        smp_processor_id c (con_nbcon_state w2) w2 =
                      Some ((true, c), w2)).
        { apply can_proceed_owner; assumption. }
        destruct (env_step w2) as [[[] w3]|] eqn:E3.
        2:{ destruct (env_step_cases w2) as [[_ H] | (e & r & _ & H)];
            congruence. }
        exists w3. split; [reflexivity|].
        unfold bind. rewrite Hr, Hcp. simpl.
        unfold nbcon_prev_seq_try_cmpxchg, bind, gets, modify, ret.
        rewrite E3.
        destruct (con_nbcon_prev_seq w3 =? con_nbcon_prev_seq w1)%N;
          reflexivity.
  - intros c1 w1 m c2 m2 w2 He Hrd Hm.
    unfold nbcon_emit_next_record, bind. rewrite He. simpl.
    rewrite Hrd. unfold gets. unfold bind in Hm |- *. simpl.
    rewrite Hm. reflexivity.
  - intros v. apply emit_driver_text.
Qed.

Lemma replay_notice_spec_witness :
  prev_seq_is 5 replay_world /\
  returns (nbcon_emit_next_record 0 false reader_all (Some plain_driver)
                                  None printer_wctxt true) replay_world
          (fun _ w' =>
             driver_calls w' = driver_calls replay_world \/
             exists m m1 completed,
               reader_all (ctxt_seq (ctxt printer_wctxt)) false true =
               Some m /\
               (m1 = m \/ exists d, m1 = console_prepend_dropped m d) /\
               driver_calls w' =
               driver_calls replay_world ++
               [mkCall true
                       (pmsg_outbuf (if (5 =? pmsg_seq m)%N
                                     then console_prepend_replay m1
                                     else m1))
                       completed]).
Proof.
  assert (H : prev_seq_is 5 replay_world).
  { split; [reflexivity | constructor]. }
  split; [exact H|].
  exact (proj2 (proj2 (replay_notice_spec
                         0 false reader_all (Some plain_driver) None
                         printer_wctxt true printer
                         (mkPmsg "hello"%string 5 0) replay_world)) 5%N H).
Defined.

(** ** The flush of one console *)

(** C8 as stated fails in its first part: when the acquisition fails
    because another owner holds the console, the flush returns -EPERM, not
    -EAGAIN.  Here the NORMAL owner is inside an unsafe region on CPU 1 and
    an emergency on that CPU flushes: the direct acquire is refused with
    -EBUSY because of the owner, not of the priority, no handover is
    possible on the same CPU and no hostile takeover is allowed. *)
Lemma flush_with_busy_owner_gives_eperm :
  nbcon_context_try_acquire_direct
    1 (mkCtxt NBCON_PRIO_EMERGENCY false 2000 0 false PBUFS_NULL)
    owned_unsafe (world_of owned_unsafe []) =
  Some ((- EBUSY, owned_unsafe), world_of owned_unsafe []) /\
  __nbcon_atomic_flush_pending_con
    1 false reader_all (Some plain_driver) None 1 8 false
    (world_of owned_unsafe []) =
  Some (- EPERM, world_of owned_unsafe []) /\
  - EPERM <> - EAGAIN.
Proof.
  split; [vm_compute; reflexivity|].
  split; [vm_compute; reflexivity | discriminate].
Qed.

(** C8, amended.  The flush returns -EPERM whenever the acquisition fails,
    for whatever reason; -EAGAIN when an emission returns false, that is
    when ownership was lost while printing; and -ENOENT when an emission
    found no record and the cursor read afterwards is still below
    stop_seq.  It always finishes, with 0 or one of these three values,
    and when it finishes with 0 or -ENOENT it has released the console:
    the caller is not the owner. *)
Theorem flush_pending_con_spec
        (smp_processor_id : Z) (is_extended : bool)
        (rd : N -> bool -> bool -> option printk_message)
        (write_atomic write_thread : option write_callback)
        (cpu_emergency_nesting : Z) (stop_seq : N) (allow : bool)
        (w : world) :
  reader_in_order rd ->
  callback_keeps_context write_atomic ->
  callback_keeps_context write_thread ->
  exists p,
    nbcon_get_default_prio smp_processor_id cpu_emergency_nesting w =
    Some (p, w) /\
    (forall c' w1,
        nbcon_context_try_acquire
          smp_processor_id
          (mkCtxt p allow 2000 0 false PBUFS_NULL) w =
        Some ((false, c'), w1) ->
        __nbcon_atomic_flush_pending_con
          smp_processor_id is_extended rd write_atomic write_thread
          cpu_emergency_nesting stop_seq allow w =
        Some (- EPERM, w1)) /\
    (forall fuel wc w0 s w1 wc' w2,
        nbcon_seq_read w0 = Some (s, w1) -> (s < stop_seq)%N ->
        nbcon_emit_next_record smp_processor_id is_extended rd
                               write_atomic write_thread wc true w1 =
        Some ((false, wc'), w2) ->
        flush_loop smp_processor_id is_extended rd write_atomic
                   write_thread (S fuel) wc stop_seq w0 =
        Some (inl (- EAGAIN, wc'), w2)) /\
    (forall fuel wc w0 s w1 wc' w2 s2 w3,
        nbcon_seq_read w0 = Some (s, w1) -> (s < stop_seq)%N ->
        nbcon_emit_next_record smp_processor_id is_extended rd
                               write_atomic write_thread wc true w1 =
        Some ((true, wc'), w2) ->
        backlog (ctxt wc') = false ->
        nbcon_seq_read w2 = Some (s2, w3) -> (s2 < stop_seq)%N ->
        rd (ctxt_seq (ctxt wc)) is_extended true = None /\
        flush_loop smp_processor_id is_extended rd write_atomic
                   write_thread (S fuel) wc stop_seq w0 =
        Some (inr (- ENOENT, wc'), w3)) /\
    (forall c1 w1 err wc' w2,
        nbcon_context_try_acquire
          smp_processor_id
          (mkCtxt p allow 2000 0 false PBUFS_NULL) w =
        Some ((true, c1), w1) ->
        (flush_loop smp_processor_id is_extended rd write_atomic
                    write_thread (flush_fuel stop_seq w1)
                    (mkWctxt c1 None 0 false) stop_seq w1 =
         Some (inl (err, wc'), w2) ->
         __nbcon_atomic_flush_pending_con
           smp_processor_id is_extended rd write_atomic write_thread
           cpu_emergency_nesting stop_seq allow w =
         Some (err, w2)) /\
        (flush_loop smp_processor_id is_extended rd write_atomic
                    write_thread (flush_fuel stop_seq w1)
                    (mkWctxt c1 None 0 false) stop_seq w1 =
         Some (inr (err, wc'), w2) ->
         __nbcon_atomic_flush_pending_con
           smp_processor_id is_extended rd write_atomic write_thread
           cpu_emergency_nesting stop_seq allow w =
         (nbcon_context_release smp_processor_id (ctxt wc') ;;;
          ret err) w2)) /\
    returns (__nbcon_atomic_flush_pending_con
               smp_processor_id is_extended rd write_atomic write_thread
               cpu_emergency_nesting stop_seq allow) w
            (fun err w' =>
               (err = 0 \/ err = - EPERM \/ err = - EAGAIN \/
                err = - ENOENT) /\
               (err = 0 \/ err = - ENOENT ->
                ~ (prio (con_nbcon_state w') = p /\
                   cpu (con_nbcon_state w') = smp_processor_id))).
Proof.
  intros Hrd Hwa Hwt.
  destruct (flush_returns
              (fun _ => True) smp_processor_id is_extended rd
              write_atomic write_thread cpu_emergency_nesting
              stop_seq allow w emitter_respected_True seq_tolerant_True
              Hrd Hwa Hwt I) as (p & Hp & Hret).
  exists p. split; [exact Hp|].
  split; [|split; [|split; [|split]]].
  - intros c' w1 Ha.
    unfold __nbcon_atomic_flush_pending_con, bind.
    rewrite Hp, Ha. reflexivity.
  - intros fuel wc w0 s w1 wc' w2 Hs Hlt He.
    apply N.ltb_lt in Hlt. simpl. unfold bind.
    rewrite Hs, Hlt. simpl. rewrite He. reflexivity.
  - intros fuel wc w0 s w1 wc' w2 s2 w3 Hs Hlt He Hb Hs2 Hlt2.
    split.
    + pose proof (emit_next_record_returns
                    (fun _ => True) (fun _ => True) (fun _ _ => True)
                    smp_processor_id is_extended rd write_atomic
                    write_thread wc true w1
                    emitter_respected_True emitter_respected_True
                    Hwa Hwt) as H.
      assert (Hupd : forall m c'0 w4,
                 rd (ctxt_seq (ctxt wc)) is_extended true = Some m ->
                 True -> ctxt_seq c'0 = ctxt_seq (ctxt wc) ->
                 returns (nbcon_seq_try_update
                            c'0 (u64_add (pmsg_seq m) 1)) w4
                         (fun c'' _ =>
                            True /\ True /\
                            c'' = set_ctxt_seq c'0 (ctxt_seq c''))).
      { intros m c'0 w4 _ _ _.
        eapply returns_weaken.
        - apply (seq_try_update_blind (fun _ => True));
            [apply stable_True | auto | exact I].
        - intros c'' w5 [_ H']. auto. }
      specialize (H Hupd I).
      pose proof (returns_inv _ _ _ _ _ H He) as (_ & Hres).
      simpl in Hres.
      destruct Hres as [(C & _) | [(_ & _ & Hn & _) |
                                   (_ & C & _)]];
        [discriminate C | exact Hn | congruence].
    + apply N.ltb_lt in Hlt, Hlt2. simpl. unfold bind.
      rewrite Hs, Hlt. simpl. rewrite He. simpl.
      rewrite Hb. simpl. rewrite Hs2, Hlt2. reflexivity.
  - intros c1 w1 err wc' w2 Ha. split; intros Hl;
      unfold __nbcon_atomic_flush_pending_con, bind;
      rewrite Hp, Ha; simpl; rewrite Hl; reflexivity.
  - eapply returns_weaken; [exact Hret|].
    intros err w' (_ & He & Ho). split; [exact He|].
    intros H C. specialize (Ho H).
    apply owner_matches_true in C. congruence.
Qed.

Lemma flush_pending_con_spec_witness :
  exists p,
    nbcon_get_default_prio 0 0 (world_of nbcon_state_zero []) =
    Some (p, world_of nbcon_state_zero []) /\
    returns (__nbcon_atomic_flush_pending_con
               0 false reader_all (Some plain_driver) None 0 9 false)
            (world_of nbcon_state_zero [])
            (fun err w' =>
               (err = 0 \/ err = - EPERM \/ err = - EAGAIN \/
                err = - ENOENT) /\
               (err = 0 \/ err = - ENOENT ->
                ~ (prio (con_nbcon_state w') = p /\
                   cpu (con_nbcon_state w') = 0))).
Proof.
  destruct (flush_pending_con_spec
              0 false reader_all (Some plain_driver) None 0 9 false
              (world_of nbcon_state_zero [])
              reader_all_in_order plain_driver_keeps_context
              no_callback_keeps_context) as (p & Hp & _ & _ & _ & _ & H).
  exists p. split; [exact Hp | exact H].
Defined.

(** ** The cursor moves only after a completed write *)





(** ** The stores of an acquire, phase by phase *)

Section AcquirePhases.

Variable smp_processor_id : Z.
Variable c : nbcon_context.
Variables I W J : world -> Prop.
Variable SI : nbcon_state -> Prop.
Hypothesis HP : acquire_phases smp_processor_id c I W J SI.

Lemma phases_direct (cur : nbcon_state) (w : world) :
  I w -> SI cur ->
  returns (nbcon_context_try_acquire_direct smp_processor_id c cur) w
          (fun r w' =>
             (fst r = 0 /\ J w') \/
             (fst r = - EPERM /\ I w') \/
             (fst r = - EBUSY /\ I w' /\ SI (snd r) /\
              direct_busy c (snd r))).
Proof.
  destruct HP as (HsI & _ & _ & Hseen & Hdirect & _).
  intros HI HS. unfold nbcon_context_try_acquire_direct.
  apply returns_bind.
  apply (cmpxchg_loop_rule (fun cur' w' => I w' /\ SI cur')).
  - intros cur0 w0 w1 [HI0 _] He _.
    destruct (env_step_inv I w0 w1 HsI HI0 He) as [HI1 _]. auto.
  - clear HI HS. intros cur0 w0 [HI HS].
    apply returns_bind. apply returns_gets.
    destruct (panic_elsewhere smp_processor_id w0).
    { apply returns_ret, returns_ret. right; left. auto. }
    destruct (prio_leb (ctxt_prio c) (prio cur0)) eqn:E1.
    { apply returns_ret, returns_ret. right; left. auto. }
    destruct (prio_leb (ctxt_prio c) (req_prio cur0)) eqn:E2.
    { apply returns_ret, returns_ret. right; left. auto. }
    apply prio_leb_false in E1. apply prio_leb_false in E2. simpl.
    destruct (unsafe cur0) eqn:Eu.
    { apply returns_ret, returns_ret. right; right. simpl.
      unfold direct_busy. repeat split; auto. }
    apply returns_ret. split; [reflexivity|].
    intros w1 He Hc. apply returns_ret. left. split; [reflexivity|].
    destruct (env_step_inv I w0 w1 HsI HI He) as [HI1 _].
    rewrite <- Hc. apply Hdirect; rewrite ?Hc; assumption.
  - auto.
Qed.

Lemma phases_requested (cur : nbcon_state) (w : world) :
  W w ->
  returns (nbcon_context_try_acquire_requested smp_processor_id c cur) w
          (fun r w' =>
             (fst r = 0 /\ J w') \/
             ((fst r = - EPERM \/ fst r = - EBUSY) /\ W w')).
Proof.
  destruct HP as (_ & HsW & _ & _ & _ & _ & Hreq & _).
  intros HW. unfold nbcon_context_try_acquire_requested.
  apply returns_bind, returns_gets.
  destruct (panic_elsewhere smp_processor_id w).
  { apply returns_ret. right. auto. }
  unfold nbcon_waiter_matches.
  destruct (prio_eqb (req_prio cur) (ctxt_prio c)) eqn:Ew; simpl.
  2:{ apply returns_ret. right. auto. }
  destruct (prio_eqb (prio cur) NBCON_PRIO_NONE) eqn:Ep; simpl.
  2:{ apply returns_ret. right. auto. }
  apply prio_eqb_eq in Ew, Ep.
  apply returns_bind.
  destruct (nbcon_state_try_cmpxchg_eq
              cur (acquire_new smp_processor_id c cur) w) as (w1 & He & Hc).
  destruct (env_step_inv W w w1 HsW HW He) as [HW1 _].
  destruct (nbcon_state_eqb (con_nbcon_state w1) cur) eqn:E;
    (eapply returns_eq; [exact Hc|]); simpl.
  - apply nbcon_state_eqb_eq in E. apply returns_ret. left.
    split; [reflexivity|]. rewrite <- E. apply Hreq; rewrite ?E; assumption.
  - apply returns_ret. right. auto.
Qed.

Lemma phases_spin (n : nat) :
  forall cur request_err w,
    W w -> request_err = - EPERM \/ request_err = - EBUSY ->
    returns (handover_spin smp_processor_id n c cur request_err) w
            (fun r w' =>
               (fst r = 0 /\ J w') \/
               ((fst r = - EPERM \/ fst r = - EBUSY) /\ W w')).
Proof.
  pose proof HP as (_ & HsW & _).
  induction n as [|n IH]; intros cur request_err w HW He; simpl.
  - apply returns_ret. right. auto.
  - apply returns_bind.
    eapply returns_weaken; [apply phases_requested; exact HW|].
    intros [err cur'] w' [[Hr HJ] | [Hr HW']]; cbn [fst snd] in Hr.
    + subst err. simpl. apply returns_ret. left. auto.
    + destruct (err =? 0) eqn:E0.
      { apply Z.eqb_eq in E0. destruct Hr; subst err; discriminate. }
      clear E0. destruct (err =? _) eqn:E1.
      { apply returns_ret. right. auto. }
      apply returns_bind. unfold udelay. apply returns_ret.
      apply returns_bind.
      eapply returns_weaken;
        [apply (returns_nbcon_state_read W); [exact HsW | exact HW']|].
      intros s w2 (HW2 & _ & _). apply IH; assumption.
Qed.

Lemma phases_unset (request_err : Z) :
  request_err = - EPERM \/ request_err = - EBUSY ->
  forall fuel cur w,
    W w -> (stale_attempts cur w < fuel)%nat ->
    returns (handover_unset smp_processor_id fuel c cur request_err) w
            (fun r w' =>
               (fst r = 0 /\ J w') \/
               (fst r = request_err /\ I w') \/
               (fst r = - EPERM /\ W w')).
Proof.
  pose proof HP as (_ & HsW & _ & _ & _ & _ & _ & Hunset & _).
  intros He. induction fuel as [|fuel IH]; intros cur w HW Hf; [lia|].
  simpl. unfold nbcon_waiter_matches.
  destruct (prio_eqb (req_prio cur) (ctxt_prio c)) eqn:Ew; simpl.
  2:{ apply returns_ret. right; right. auto. }
  apply prio_eqb_eq in Ew.
  apply returns_bind.
  destruct (nbcon_state_try_cmpxchg_eq
              cur (set_req_prio cur NBCON_PRIO_NONE) w) as (w1 & Hs & Hc).
  destruct (env_step_inv W w w1 HsW HW Hs) as [HW1 _].
  destruct (nbcon_state_eqb (con_nbcon_state w1) cur) eqn:E;
    (eapply returns_eq; [exact Hc|]); simpl.
  - apply nbcon_state_eqb_eq in E. apply returns_ret. right; left.
    split; [reflexivity|]. simpl. rewrite <- E.
    apply Hunset; rewrite ?E; assumption.
  - apply nbcon_state_eqb_neq in E.
    pose proof (stale_attempts_failed cur w w1 Hs E) as Hlt.
    apply returns_bind.
    eapply returns_weaken.
    { apply returns_and.
      - apply phases_requested; exact HW1.
      - apply (try_acquire_requested_returns (fun _ => True));
          [apply respected_True | exact Logic.I]. }
    intros [err cur2] w2 [H (_ & _ & Hle)]. cbn [fst snd] in H, Hle.
    destruct H as [[-> HJ] | [Hr HW2]].
    + simpl. apply returns_ret. left. auto.
    + destruct (err =? 0) eqn:E0.
      { apply Z.eqb_eq in E0. destruct Hr; subst err; discriminate. }
      apply Z.eqb_neq in E0. apply IH; [exact HW2|].
      specialize (Hle E0). lia.
Qed.

Lemma phases_handover (cur : nbcon_state) (w : world) :
  I w -> SI cur -> direct_busy c cur ->
  returns (nbcon_context_try_acquire_handover smp_processor_id c cur) w
          (fun r w' =>
             (fst r = 0 /\ J w') \/
             (fst r = - EAGAIN /\ I w' /\ SI (snd r)) \/
             (fst r = - EBUSY /\ I w') \/
             (fst r = - EPERM /\ (I w' \/ W w'))).
Proof.
  pose proof HP as (HsI & HsW & _ & Hseen & _ & Hpost & _).
  intros HI HS Hb. unfold nbcon_context_try_acquire_handover.
  destruct (cpu cur =? smp_processor_id) eqn:Ec.
  { apply returns_ret. right; right; left. auto. }
  apply Z.eqb_neq in Ec.
  destruct (unsafe_takeover cur) eqn:Eu.
  { apply returns_ret. right; right; left. auto. }
  destruct (spinwait_max_us c =? 0) eqn:Es.
  { apply returns_ret. right; right; left. auto. }
  apply Z.eqb_neq in Es.
  apply returns_bind.
  destruct (nbcon_state_try_cmpxchg_eq
              cur (set_req_prio cur (ctxt_prio c)) w) as (w1 & He & Hc).
  destruct (env_step_inv I w w1 HsI HI He) as [HI1 _].
  destruct (nbcon_state_eqb (con_nbcon_state w1) cur) eqn:E;
    (eapply returns_eq; [exact Hc|]); simpl.
  2:{ apply returns_ret. right; left. simpl. auto. }
  apply nbcon_state_eqb_eq in E.
  assert (HW1 : W (set_nbcon_state (set_req_prio cur (ctxt_prio c)) w1)).
  { rewrite <- E. apply Hpost; rewrite ?E; assumption. }
  apply returns_bind.
  eapply returns_weaken.
  { apply phases_spin; [exact HW1 | right; reflexivity]. }
  intros [err cur2] w2 [[Hr HJ] | [Hr HW2]]; cbn [fst snd] in Hr.
  { subst err. simpl. apply returns_ret. left. auto. }
  destruct (err =? 0) eqn:E0.
  { apply Z.eqb_eq in E0. destruct Hr; subst err; discriminate. }
  eapply returns_weaken.
  { apply (phases_unset err Hr (cas_fuel w2) cur2 w2 HW2).
    apply stale_attempts_lt_cas_fuel. }
  intros r w3 [[H0 HJ] | [[Hq HI3] | [Hq HW3]]].
  - left. auto.
  - rewrite Hq. destruct Hr as [-> | ->].
    + right; right; right. auto.
    + right; right; left. auto.
  - right; right; right. auto.
Qed.

Lemma phases_hostile (cur0 cur : nbcon_state) (w : world) :
  I w -> SI cur0 -> direct_busy c cur0 ->
  returns (nbcon_context_try_acquire_hostile smp_processor_id c cur) w
          (fun r w' => (fst r = 0 /\ J w') \/ (fst r = - EPERM /\ I w')).
Proof.
  pose proof HP as (HsI & _ & _ & _ & _ & _ & _ & _ & Hhostile).
  intros HI HS Hb. unfold nbcon_context_try_acquire_hostile.
  destruct (allow_unsafe_takeover c) eqn:Ea; simpl.
  2:{ apply returns_ret. right. auto. }
  destruct (prio_eqb (ctxt_prio c) NBCON_PRIO_PANIC) eqn:Ep; simpl.
  2:{ apply returns_ret. right. auto. }
  apply prio_eqb_eq in Ep.
  apply returns_bind.
  apply (cmpxchg_loop_rule (fun _ w' => I w')).
  - intros cur1 w0 w1 HI0 He _. apply (env_step_inv I w0 w1 HsI HI0 He).
  - intros cur1 w0 HI0. apply returns_ret. split; [reflexivity|].
    intros w1 He Hc. apply returns_ret. left. split; [reflexivity|].
    destruct (env_step_inv I w0 w1 HsI HI0 He) as [HI1 _].
    rewrite <- Hc. apply (Hhostile w1 cur0); auto.
  - exact HI.
Qed.

Lemma phases_loop :
  forall fuel cur w,
    I w -> SI cur -> (stale_attempts cur w < fuel)%nat ->
    returns (try_acquire_loop smp_processor_id fuel c cur) w
            (fun err w' =>
               (err = 0 /\ J w') \/ (err <> 0 /\ (I w' \/ W w'))).
Proof.
  induction fuel as [|fuel IH]; intros cur w HI HS Hf; [lia|].
  simpl. apply returns_bind.
  eapply returns_weaken.
  { apply returns_and.
    - apply phases_direct; [exact HI | exact HS].
    - apply (try_acquire_direct_returns (fun _ => True));
        [apply respected_True | exact Logic.I]. }
  intros [err cur1] w1 [H (_ & _ & Hle)]. cbn [fst snd] in H, Hle.
  destruct H as [[-> HJ] | [[-> HI1] | (-> & HI1 & HS1 & Hb)]]; simpl.
  { apply returns_ret. left. auto. }
  { apply returns_ret. right. split; [discriminate | auto]. }
  assert (Hle1 : (stale_attempts cur1 w1 <= stale_attempts cur w)%nat).
  { apply Hle. discriminate. }
  apply returns_bind.
  eapply returns_weaken.
  { apply returns_and.
    - apply phases_handover; [exact HI1 | exact HS1 | exact Hb].
    - apply (try_acquire_handover_returns (fun _ => True));
        [apply respected_True | exact Logic.I]. }
  intros [err2 cur2] w2 [H [_ Hlt]]. cbn [fst snd] in H, Hlt.
  destruct H as [[-> HJ] | [(-> & HI2 & HS2) | [[-> HI2] | [-> H2]]]];
    simpl.
  - apply returns_ret. left. auto.
  - apply IH; [exact HI2 | exact HS2|].
    specialize (Hlt eq_refl). lia.
  - apply returns_bind.
    eapply returns_weaken;
      [apply (phases_hostile cur1); [exact HI2 | exact HS1 | exact Hb]|].
    intros [err3 cur3] w3 [[Hr HJ] | [Hr HI3]]; simpl in Hr; subst err3;
      apply returns_ret.
    + left. auto.
    + right. split; [discriminate | auto].
  - apply returns_ret. right. split; [discriminate | exact H2].
Qed.

Lemma phases_try_acquire (w : world) :
  I w ->
  returns (nbcon_context_try_acquire smp_processor_id c) w
          (fun r w' =>
             (fst r = false /\ snd r = c /\ (I w' \/ W w')) \/
             (fst r = true /\ J w' /\
              exists p,
                snd r = set_ctxt_seq (set_pbufs c p) (con_nbcon_seq w'))).
Proof.
  pose proof HP as (HsI & _ & HsJ & Hseen & _).
  intros HI. unfold nbcon_context_try_acquire.
  apply returns_bind.
  eapply returns_weaken;
    [apply (returns_nbcon_state_read I); [exact HsI | exact HI]|].
  intros cur w1 (HI1 & Hc & _).
  apply returns_bind.
  eapply returns_weaken.
  { apply (phases_loop (cas_fuel w1) cur w1 HI1).
    - rewrite Hc. apply Hseen, HI1.
    - apply stale_attempts_lt_cas_fuel. }
  intros err w2 [[-> HJ] | [Hne H]]; simpl.
  2:{ apply Z.eqb_neq in Hne. rewrite Hne. simpl.
      apply returns_ret. left. auto. }
  apply returns_bind, returns_gets.
  apply returns_bind.
  eapply returns_weaken;
    [apply (returns_nbcon_seq_read J); [exact HsJ | exact HJ]|].
  intros s w3 (HJ3 & Hs & _). apply returns_ret.
  right. simpl. split; [reflexivity|]. split; [exact HJ3|].
  rewrite Hs.
  destruct (panic_cpu w2 =? smp_processor_id); eexists; reflexivity.
Qed.

End AcquirePhases.

(** ** The stores of the owner *)

Section OwnerStores.

Variable smp_processor_id : Z.
Variable c : nbcon_context.
Variable I : world -> Prop.
Hypothesis HO : owner_stores smp_processor_id c I.

Lemma owner_release (w : world) :
  I w ->
  returns (nbcon_context_release smp_processor_id c) w
          (fun r w' => I w' /\ r = set_pbufs c PBUFS_NULL).
Proof.
  destruct HO as (HS & Hrel & _).
  intros HI. unfold nbcon_context_release.
  apply returns_bind.
  eapply returns_weaken;
    [apply (returns_nbcon_state_read I); [apply HS | exact HI]|].
  intros cur w1 (HI1 & Hc & _).
  apply returns_bind.
  apply (cmpxchg_loop_rule (fun _ w' => I w')).
  - intros cur0 w0 w2 HI0 He _. apply (env_step_inv I w0 w2 HS HI0 He).
  - intros cur0 w0 HI0.
    destruct (nbcon_owner_matches cur0 smp_processor_id (ctxt_prio c))
             eqn:E; simpl.
    + apply returns_ret. split; [reflexivity|].
      intros w2 He Hc2. apply returns_ret.
      destruct (env_step_inv I w0 w2 HS HI0 He) as [HI2 _].
      split; [|reflexivity].
      rewrite <- Hc2. apply Hrel; rewrite ?Hc2; assumption.
    + apply returns_ret, returns_ret. auto.
  - exact HI1.
Qed.

Lemma owner_can_proceed (cur : nbcon_state) (w : world) :
  I w ->
  returns (nbcon_context_can_proceed smp_processor_id c cur) w
          (fun r w' =>
             I w' /\
             (fst r = true ->
              w' = w /\
              nbcon_owner_matches cur smp_processor_id (ctxt_prio c)
              = true /\
              (req_prio cur = NBCON_PRIO_NONE \/ unsafe cur = true))).
Proof.
  intros HI. unfold nbcon_context_can_proceed.
  destruct (nbcon_owner_matches cur smp_processor_id (ctxt_prio c)); simpl.
  2:{ apply returns_ret. split; [exact HI|]. simpl. discriminate. }
  destruct (prio_eqb (req_prio cur) NBCON_PRIO_NONE) eqn:Er.
  { apply prio_eqb_eq in Er. apply returns_ret. auto. }
  destruct (unsafe cur).
  { apply returns_ret. auto. }
  apply returns_bind.
  eapply returns_weaken; [apply owner_release; exact HI|].
  intros c' w' (HI' & _). apply returns_ret.
  split; [exact HI'|]. simpl. discriminate.
Qed.

Lemma owner_update_unsafe (u : bool) (w : world) :
  I w ->
  returns (__nbcon_context_update_unsafe smp_processor_id c u) w
          (fun r w' =>
             I w' /\
             (fst r = true ->
              nbcon_owner_matches (con_nbcon_state w') smp_processor_id
                                  (ctxt_prio c) = true /\
              (req_prio (con_nbcon_state w') = NBCON_PRIO_NONE \/
               unsafe (con_nbcon_state w') = true) /\
              (u = true -> unsafe (con_nbcon_state w') = true) /\
              (u = false ->
               unsafe_takeover (con_nbcon_state w') = false ->
               unsafe (con_nbcon_state w') = false))).
Proof.
  pose proof HO as (HS & _ & Hset).
  intros HI. unfold __nbcon_context_update_unsafe.
  apply returns_bind.
  eapply returns_weaken;
    [apply (returns_nbcon_state_read I); [apply HS | exact HI]|].
  intros cur w1 (HI1 & Hc & _).
  apply returns_bind.
  apply (cmpxchg_loop_rule
           (fun cur' w' => I w' /\ cur' = con_nbcon_state w')).
  - intros cur0 w0 w2 [HI0 _] He _. split; [|reflexivity].
    apply (env_step_inv I w0 w2 HS HI0 He).
  - intros cur0 w0 [HI0 Hc0].
    destruct (negb u && unsafe_takeover cur0) eqn:Eg.
    { apply returns_ret.
      eapply returns_weaken; [apply owner_can_proceed; exact HI0|].
      intros r w' [HI' H]. split; [exact HI'|].
      intros Hr. destruct (H Hr) as (-> & Ho & Hq).
      rewrite <- Hc0. split; [exact Ho|]. split; [exact Hq|].
      apply andb_prop in Eg. destruct Eg as [Eu Et].
      split.
      - intros ->. discriminate Eu.
      - intros _ C. congruence. }
    apply returns_bind.
    eapply returns_weaken; [apply owner_can_proceed; exact HI0|].
    intros [ok c'] w' [HI' H]. cbn [fst snd] in H.
    destruct ok; simpl.
    + destruct (H eq_refl) as (-> & Ho & Hq).
      apply returns_ret. split; [reflexivity|].
      intros w2 He Hc2.
      destruct (env_step_inv I w0 w2 HS HI0 He) as [HI2 _].
      assert (HI3 : I (set_nbcon_state (set_unsafe cur0 u) w2)).
      { rewrite <- Hc2. apply Hset; rewrite ?Hc2; try assumption.
        intros ->. simpl in Eg. exact Eg. }
      eapply returns_weaken; [apply owner_can_proceed; exact HI3|].
      intros r w3 [HI4 H4]. split; [exact HI4|].
      intros Hr. destruct (H4 Hr) as (-> & Ho4 & Hq4).
      simpl. split; [exact Ho4|]. split; [exact Hq4|].
      split; intros ->; [reflexivity | intros _; reflexivity].
    + apply returns_ret, returns_ret. split; [exact HI'|].
      simpl. discriminate.
  - split; assumption.
Qed.

End OwnerStores.

(** ** The environment alone *)

Lemma env_step_next (w : world) : env_step w = Some (tt, env_next w).
Proof. unfold env_step, env_next. destruct (sched w); reflexivity. Qed.

Lemma stable_env_only (w : world) : stable (env_only w).
Proof.
  intros e rest w' E [k ->]. exists (S k). simpl.
  unfold env_next. rewrite E. reflexivity.
Qed.

Lemma env_only_refl (w : world) : env_only w w.
Proof. exists O. reflexivity. Qed.

Lemma stable_state_always (P : nbcon_state -> Prop) :
  stable (state_always P).
Proof.
  intros e rest w E [Hs HF]. rewrite E in HF.
  apply Forall_cons_iff in HF. destruct HF as [He HF].
  split; [|exact HF]. simpl. unfold event_state_has in He.
  destruct (ev_state e); simpl; assumption.
Qed.

Lemma stable_and (I J : world -> Prop) :
  stable I -> stable J -> stable (fun w => I w /\ J w).
Proof.
  intros HI HJ e rest w E [H1 H2]. split; [eapply HI | eapply HJ]; eauto.
Qed.

Lemma stable_False : stable (fun _ => False).
Proof. intros e rest w _ []. Qed.

Lemma state_always_store (P : nbcon_state -> Prop) (s : nbcon_state)
      (w : world) :
  state_always P w -> P s -> state_always P (set_nbcon_state s w).
Proof. intros [_ HF] Hs. split; assumption. Qed.

(** ** Who can acquire, under any interference *)

Lemma acquire_phases_intro (smp_processor_id : Z) (c : nbcon_context)
      (I W J : world -> Prop) (SI : nbcon_state -> Prop) :
  stable I -> stable W -> stable J ->
  (forall w, I w -> SI (con_nbcon_state w)) ->
  (forall w,
      I w ->
      prio_val (prio (con_nbcon_state w)) < prio_val (ctxt_prio c) ->
      prio_val (req_prio (con_nbcon_state w)) < prio_val (ctxt_prio c) ->
      unsafe (con_nbcon_state w) = false ->
      J (set_nbcon_state
           (acquire_new smp_processor_id c (con_nbcon_state w)) w)) ->
  (forall w,
      I w -> direct_busy c (con_nbcon_state w) ->
      cpu (con_nbcon_state w) <> smp_processor_id ->
      unsafe_takeover (con_nbcon_state w) = false ->
      spinwait_max_us c <> 0 ->
      W (set_nbcon_state
           (set_req_prio (con_nbcon_state w) (ctxt_prio c)) w)) ->
  (forall w,
      W w ->
      prio (con_nbcon_state w) = NBCON_PRIO_NONE ->
      req_prio (con_nbcon_state w) = ctxt_prio c ->
      J (set_nbcon_state
           (acquire_new smp_processor_id c (con_nbcon_state w)) w)) ->
  (forall w,
      W w ->
      req_prio (con_nbcon_state w) = ctxt_prio c ->
      I (set_nbcon_state
           (set_req_prio (con_nbcon_state w) NBCON_PRIO_NONE) w)) ->
  (forall w cur,
      I w -> SI cur -> direct_busy c cur ->
      allow_unsafe_takeover c = true -> ctxt_prio c = NBCON_PRIO_PANIC ->
      J (set_nbcon_state
           (hostile_new smp_processor_id c (con_nbcon_state w)) w)) ->
  acquire_phases smp_processor_id c I W J SI.
Proof. unfold acquire_phases. intuition. Qed.

(** X1.  A context whose priority does not exceed the owner's never gets
    the console from nbcon_context_try_acquire, whatever its spin budget
    and whether or not it may take over: as long as every state word, the
    current one and the ones other contexts store meanwhile, names an owner
    of at least its priority, the call returns false, leaves the context
    as it was and stores nothing to the shared memory. *)
Theorem outranked_context_never_acquires
        (smp_processor_id : Z) (c : nbcon_context) (w : world) :
  state_always (outranks (ctxt_prio c)) w ->
  returns (nbcon_context_try_acquire smp_processor_id c) w
          (fun r w' =>
             r = (false, c) /\ env_only w w' /\
             state_always (outranks (ctxt_prio c)) w').
Proof.
  intros H.
  eapply returns_weaken.
  - apply (phases_try_acquire
             smp_processor_id c
             (fun w' => state_always (outranks (ctxt_prio c)) w' /\
                        env_only w w')
             (fun _ => False) (fun _ => False) (outranks (ctxt_prio c))).
    + apply acquire_phases_intro.
      * apply stable_and; [apply stable_state_always | apply stable_env_only].
      * apply stable_False.
      * apply stable_False.
      * intros w0 [[Hs _] _]. exact Hs.
      * intros w0 [[Hs _] _] Hp _ _. unfold outranks in Hs. lia.
      * intros w0 [[Hs _] _] (Hp & _) _ _ _. unfold outranks in Hs. lia.
      * intros w0 [].
      * intros w0 [].
      * intros w0 cur _ Hs (Hp & _) _ _. unfold outranks in Hs. lia.
    + split; [exact H | apply env_only_refl].
  - intros [ok c'] w' [(Hf & Hc & [[HI He] | []]) | (_ & [] & _)].
    simpl in Hf, Hc. subst. auto.
Qed.

Lemma outranked_context_never_acquires_witness :
  state_always
    (outranks (ctxt_prio (ctxt_of NBCON_PRIO_EMERGENCY true 500)))
    (world_of emergency_unsafe [state_event takeover_state]) /\
  returns (nbcon_context_try_acquire
             0 (ctxt_of NBCON_PRIO_EMERGENCY true 500))
          (world_of emergency_unsafe [state_event takeover_state])
          (fun r w' =>
             r = (false, ctxt_of NBCON_PRIO_EMERGENCY true 500) /\
             env_only (world_of emergency_unsafe
                                [state_event takeover_state]) w' /\
             state_always
               (outranks (ctxt_prio (ctxt_of NBCON_PRIO_EMERGENCY true 500)))
               w').
Proof.
  assert (H : state_always
                (outranks (ctxt_prio (ctxt_of NBCON_PRIO_EMERGENCY true 500)))
                (world_of emergency_unsafe [state_event takeover_state])).
  { split; [|apply Forall_cons; [|apply Forall_nil]];
      unfold event_state_has, outranks; simpl; lia. }
  split; [exact H|].
  apply (outranked_context_never_acquires
           0 (ctxt_of NBCON_PRIO_EMERGENCY true 500)
           (world_of emergency_unsafe [state_event takeover_state]) H).
Defined.

(** X2.  An unsafe section is not interrupted by a friendly acquire: as
    long as the owner, of priority [p] on CPU [owner_cpu], stays inside its
    unsafe section, nbcon_context_try_acquire of a context that may not
    take over (allow_unsafe_takeover clear, or a priority below PANIC)
    returns false, whatever its priority and spin budget, and the owner is
    still the owner, inside its unsafe section, afterwards. *)
Theorem unsafe_section_is_not_interrupted
        (smp_processor_id : Z) (c : nbcon_context) (p : nbcon_prio)
        (owner_cpu : Z) (w : world) :
  p <> NBCON_PRIO_NONE ->
  allow_unsafe_takeover c = false \/ ctxt_prio c <> NBCON_PRIO_PANIC ->
  state_always (held_unsafe p owner_cpu) w ->
  returns (nbcon_context_try_acquire smp_processor_id c) w
          (fun r w' =>
             r = (false, c) /\ state_always (held_unsafe p owner_cpu) w').
Proof.
  intros Hp Hc H.
  eapply returns_weaken.
  - apply (phases_try_acquire
             smp_processor_id c
             (state_always (held_unsafe p owner_cpu))
             (state_always (held_unsafe p owner_cpu))
             (fun _ => False) (fun _ => True)).
    + apply acquire_phases_intro.
      * apply stable_state_always.
      * apply stable_state_always.
      * apply stable_False.
      * intros; exact Logic.I.
      * intros w0 [(_ & _ & Hu) _] _ _ Hs. congruence.
      * intros w0 HI _ _ _ _. apply state_always_store; [exact HI|].
        destruct HI as [(H1 & H2 & H3) _]. repeat split; assumption.
      * intros w0 [(H1 & _) _] Hn _. congruence.
      * intros w0 HI _. apply state_always_store; [exact HI|].
        destruct HI as [(H1 & H2 & H3) _]. repeat split; assumption.
      * intros w0 cur _ _ _ Ha Hpp. destruct Hc; congruence.
    + exact H.
  - intros [ok c'] w' [(Hf & Hc' & [HI | HI]) | (_ & [] & _)];
      simpl in Hf, Hc'; subst; auto.
Qed.

Lemma unsafe_section_is_not_interrupted_witness :
  state_always (held_unsafe NBCON_PRIO_EMERGENCY 1)
               (world_of emergency_unsafe
                         [state_event emergency_unsafe_requested]) /\
  returns (nbcon_context_try_acquire
             0 (ctxt_of NBCON_PRIO_PANIC false 500))
          (world_of emergency_unsafe
                    [state_event emergency_unsafe_requested])
          (fun r w' =>
             r = (false, ctxt_of NBCON_PRIO_PANIC false 500) /\
             state_always (held_unsafe NBCON_PRIO_EMERGENCY 1) w').
Proof.
  assert (H : state_always (held_unsafe NBCON_PRIO_EMERGENCY 1)
                           (world_of emergency_unsafe
                              [state_event emergency_unsafe_requested])).
  { split; [|apply Forall_cons; [|apply Forall_nil]]; repeat split. }
  split; [exact H|].
  apply (unsafe_section_is_not_interrupted
           0 (ctxt_of NBCON_PRIO_PANIC false 500) NBCON_PRIO_EMERGENCY 1
           (world_of emergency_unsafe
                     [state_event emergency_unsafe_requested]));
    [discriminate | left; reflexivity | exact H].
Defined.

(** X3.  After an unsafe hostile takeover the console can only be taken
    over again: as long as every state word has unsafe_takeover and unsafe
    set, nbcon_context_try_acquire of a context that may not take over
    returns false, even when the console has no owner, and stores nothing:
    it posts no handover request either. *)
Theorem taken_over_console_is_not_acquired
        (smp_processor_id : Z) (c : nbcon_context) (w : world) :
  allow_unsafe_takeover c = false \/ ctxt_prio c <> NBCON_PRIO_PANIC ->
  state_always taken_over w ->
  returns (nbcon_context_try_acquire smp_processor_id c) w
          (fun r w' =>
             r = (false, c) /\ env_only w w' /\ state_always taken_over w').
Proof.
  intros Hc H.
  eapply returns_weaken.
  - apply (phases_try_acquire
             smp_processor_id c
             (fun w' => state_always taken_over w' /\ env_only w w')
             (fun _ => False) (fun _ => False) (fun _ => True)).
    + apply acquire_phases_intro.
      * apply stable_and; [apply stable_state_always | apply stable_env_only].
      * apply stable_False.
      * apply stable_False.
      * intros; exact Logic.I.
      * intros w0 [[(_ & Hu) _] _] _ _ Hs. congruence.
      * intros w0 [[(Ht & _) _] _] _ _ Hs _. congruence.
      * intros w0 [].
      * intros w0 [].
      * intros w0 cur _ _ _ Ha Hpp. destruct Hc; congruence.
    + split; [exact H | apply env_only_refl].
  - intros [ok c'] w' [(Hf & Hc' & [[HI He] | []]) | (_ & [] & _)].
    simpl in Hf, Hc'. subst. auto.
Qed.

Lemma taken_over_console_is_not_acquired_witness :
  state_always taken_over (world_of released_after_takeover [no_event]) /\
  returns (nbcon_context_try_acquire
             1 (ctxt_of NBCON_PRIO_EMERGENCY false 500))
          (world_of released_after_takeover [no_event])
          (fun r w' =>
             r = (false, ctxt_of NBCON_PRIO_EMERGENCY false 500) /\
             env_only (world_of released_after_takeover [no_event]) w' /\
             state_always taken_over w').
Proof.
  assert (H : state_always taken_over
                           (world_of released_after_takeover [no_event])).
  { split; [|apply Forall_cons; [|apply Forall_nil]]; repeat split. }
  split; [exact H|].
  apply (taken_over_console_is_not_acquired
           1 (ctxt_of NBCON_PRIO_EMERGENCY false 500)
           (world_of released_after_takeover [no_event]));
    [left; reflexivity | exact H].
Defined.

(** ** The unsafe bit after a takeover *)

Lemma takeover_marks_unsafe_phases (smp_processor_id : Z)
      (c : nbcon_context) :
  acquire_phases smp_processor_id c
                 (state_always takeover_marks_unsafe)
                 (state_always takeover_marks_unsafe)
                 (state_always takeover_marks_unsafe)
                 (fun _ => True).
Proof.
  apply acquire_phases_intro;
    try apply stable_state_always; try (intros; exact Logic.I).
  - intros w HI _ _ _. apply state_always_store; [exact HI|].
    intros Ht. exact Ht.
  - intros w HI _ _ _ _. apply state_always_store; [exact HI|].
    destruct HI as [Hs _]. exact Hs.
  - intros w HI _ _. apply state_always_store; [exact HI|].
    intros Ht. exact Ht.
  - intros w HI _. apply state_always_store; [exact HI|].
    destruct HI as [Hs _]. exact Hs.
  - intros w cur HI _ _ _ _. apply state_always_store; [exact HI|].
    unfold takeover_marks_unsafe. simpl. intros Ht.
    rewrite orb_comm. exact Ht.
Qed.

Lemma takeover_marks_unsafe_owner (smp_processor_id : Z)
      (c : nbcon_context) :
  owner_stores smp_processor_id c (state_always takeover_marks_unsafe).
Proof.
  split; [apply stable_state_always|]. split.
  - intros w HI _. apply state_always_store; [exact HI|].
    unfold takeover_marks_unsafe. simpl. intros ->. apply orb_true_r.
  - intros w u HI _ Hu. apply state_always_store; [exact HI|].
    unfold takeover_marks_unsafe. simpl. intros Ht.
    destruct u; [reflexivity|]. rewrite Hu in Ht; [discriminate|reflexivity].
Qed.

(** X4.  A console that went through an unsafe hostile takeover stays
    unsafe: if every state word with unsafe_takeover set has unsafe set,
    now and in what other contexts store, then the same holds after
    nbcon_context_try_acquire (by any of its three ways), after
    nbcon_context_release and after entering or leaving an unsafe
    section. *)
Theorem takeover_keeps_console_unsafe
        (smp_processor_id : Z) (c : nbcon_context) (w : world) :
  state_always takeover_marks_unsafe w ->
  returns (nbcon_context_try_acquire smp_processor_id c) w
          (fun _ w' => state_always takeover_marks_unsafe w') /\
  returns (nbcon_context_release smp_processor_id c) w
          (fun _ w' => state_always takeover_marks_unsafe w') /\
  returns (nbcon_context_enter_unsafe smp_processor_id c) w
          (fun _ w' => state_always takeover_marks_unsafe w') /\
  returns (nbcon_context_exit_unsafe smp_processor_id c) w
          (fun _ w' => state_always takeover_marks_unsafe w').
Proof.
  intros H. split; [|split; [|split]].
  - eapply returns_weaken.
    + apply (phases_try_acquire
               smp_processor_id c _ _ _ _
               (takeover_marks_unsafe_phases smp_processor_id c) w H).
    + intros r w' [(_ & _ & [HI | HI]) | (_ & HI & _)]; exact HI.
  - eapply returns_weaken.
    + apply (owner_release
               smp_processor_id c _
               (takeover_marks_unsafe_owner smp_processor_id c) w H).
    + intros r w' [HI _]. exact HI.
  - eapply returns_weaken.
    + apply (owner_update_unsafe
               smp_processor_id c _
               (takeover_marks_unsafe_owner smp_processor_id c) true w H).
    + intros r w' [HI _]. exact HI.
  - eapply returns_weaken.
    + apply (owner_update_unsafe
               smp_processor_id c _
               (takeover_marks_unsafe_owner smp_processor_id c) false w H).
    + intros r w' [HI _]. exact HI.
Qed.

Lemma takeover_keeps_console_unsafe_witness :
  state_always takeover_marks_unsafe takeover_world /\
  returns (nbcon_context_exit_unsafe 0 (ctxt_of NBCON_PRIO_PANIC true 0))
          takeover_world
          (fun _ w' => state_always takeover_marks_unsafe w').
Proof.
  assert (H : state_always takeover_marks_unsafe takeover_world).
  { split; [|apply Forall_cons; [|apply Forall_nil]]; intros _; reflexivity. }
  split; [exact H|].
  apply (takeover_keeps_console_unsafe
           0 (ctxt_of NBCON_PRIO_PANIC true 0) takeover_world H).
Defined.

(** ** What a context that is not the owner can do *)

Lemma not_owner_stores (smp_processor_id : Z) (c : nbcon_context)
      (w : world) :
  owner_stores smp_processor_id c
               (fun w' =>
                  state_always (not_owner smp_processor_id (ctxt_prio c)) w'
                  /\ env_only w w').
Proof.
  split; [apply stable_and;
          [apply stable_state_always | apply stable_env_only]|].
  split.
  - intros w0 [[Hn _] _] Ho. unfold not_owner in Hn. congruence.
  - intros w0 u [[Hn _] _] Ho. unfold not_owner in Hn. congruence.
Qed.

(** X5.  A driver that has lost the console cannot harm the new owner: as
    long as the state word does not name the calling context as the owner,
    nbcon_can_proceed, nbcon_enter_unsafe and nbcon_exit_unsafe return
    false and nbcon_context_release returns, and none of them stores
    anything to the shared memory. *)
Theorem lost_ownership_is_harmless
        (smp_processor_id : Z) (wctxt : nbcon_write_context) (w : world) :
  state_always (not_owner smp_processor_id (ctxt_prio (ctxt wctxt))) w ->
  returns (nbcon_can_proceed smp_processor_id wctxt) w
          (fun r w' => fst r = false /\ env_only w w') /\
  returns (nbcon_enter_unsafe smp_processor_id wctxt) w
          (fun r w' => fst r = false /\ env_only w w') /\
  returns (nbcon_exit_unsafe smp_processor_id wctxt) w
          (fun r w' => fst r = false /\ env_only w w') /\
  returns (nbcon_context_release smp_processor_id (ctxt wctxt)) w
          (fun r w' =>
             r = set_pbufs (ctxt wctxt) PBUFS_NULL /\ env_only w w').
Proof.
  intros H.
  pose proof (not_owner_stores smp_processor_id (ctxt wctxt) w) as HO.
  assert (HI : state_always
                 (not_owner smp_processor_id (ctxt_prio (ctxt wctxt))) w /\
               env_only w w).
  { split; [exact H | apply env_only_refl]. }
  assert (Hupd :
            forall u,
              returns (__nbcon_context_update_unsafe
                         smp_processor_id (ctxt wctxt) u) w
                      (fun r w' => fst r = false /\ env_only w w')).
  { intros u. eapply returns_weaken.
    - apply (owner_update_unsafe smp_processor_id (ctxt wctxt) _ HO u w HI).
    - intros [ok c'] w' [[[Hn _] He] Ht]. split; [|exact He].
      destruct ok; [|reflexivity].
      destruct (Ht eq_refl) as [Ho _]. unfold not_owner in Hn. congruence. }
  split; [|split; [|split]].
  - unfold nbcon_can_proceed. apply returns_bind.
    eapply returns_weaken.
    { apply (returns_nbcon_state_read _ w (proj1 HO) HI). }
    intros cur w1 ([[Hn HF] He] & Hc & _).
    apply returns_bind.
    eapply returns_weaken.
    { apply (owner_can_proceed smp_processor_id (ctxt wctxt) _ HO cur w1).
      split; [split|]; assumption. }
    intros [ok c'] w2 [[_ He2] Ht]. apply returns_ret.
    split; [|exact He2]. simpl.
    destruct ok; [|reflexivity].
    destruct (Ht eq_refl) as (_ & Ho & _). subst cur.
    unfold not_owner in Hn. congruence.
  - unfold nbcon_enter_unsafe, nbcon_context_enter_unsafe.
    apply returns_bind.
    eapply returns_weaken; [apply Hupd|].
    intros [ok c'] w' H'. apply returns_ret. exact H'.
  - unfold nbcon_exit_unsafe, nbcon_context_exit_unsafe.
    apply returns_bind.
    eapply returns_weaken; [apply Hupd|].
    intros [ok c'] w' H'. apply returns_ret. exact H'.
  - eapply returns_weaken.
    + apply (owner_release smp_processor_id (ctxt wctxt) _ HO w HI).
    + intros r w' [[_ He] Hr]. auto.
Qed.

Lemma lost_ownership_is_harmless_witness :
  state_always (not_owner 0 (ctxt_prio (ctxt printer_wctxt)))
               (world_of emergency_unsafe [no_event]) /\
  returns (nbcon_exit_unsafe 0 printer_wctxt)
          (world_of emergency_unsafe [no_event])
          (fun r w' =>
             fst r = false /\
             env_only (world_of emergency_unsafe [no_event]) w').
Proof.
  assert (H : state_always (not_owner 0 (ctxt_prio (ctxt printer_wctxt)))
                           (world_of emergency_unsafe [no_event])).
  { split; [|apply Forall_cons; [|apply Forall_nil]];
      [reflexivity | exact Logic.I]. }
  split; [exact H|].
  apply (lost_ownership_is_harmless
           0 printer_wctxt (world_of emergency_unsafe [no_event]) H).
Defined.

(** ** What a true answer of the unsafe-section functions means *)

Lemma owner_stores_True (smp_processor_id : Z) (c : nbcon_context) :
  owner_stores smp_processor_id c (fun _ => True).
Proof. split; [apply stable_True | split; intros; exact Logic.I]. Qed.

Lemma set_ctxt_same (wctxt : nbcon_write_context) :
  set_ctxt wctxt (ctxt wctxt) = wctxt.
Proof. destruct wctxt; reflexivity. Qed.

(** X6.  When nbcon_enter_unsafe returns true, whatever the other contexts
    did meanwhile, the state word at that moment names the caller as the
    owner and has the unsafe bit set, and the write context is unchanged.
    When nbcon_exit_unsafe returns true the caller is still the owner, the
    unsafe bit is clear unless unsafe_takeover is set, and no safe console
    is kept from a waiter: a request is pending only if the word is
    unsafe. *)
Theorem unsafe_section_answers
        (smp_processor_id : Z) (wctxt : nbcon_write_context) (w : world) :
  returns (nbcon_enter_unsafe smp_processor_id wctxt) w
          (fun r w' =>
             fst r = true ->
             snd r = wctxt /\
             prio (con_nbcon_state w') = ctxt_prio (ctxt wctxt) /\
             cpu (con_nbcon_state w') = smp_processor_id /\
             unsafe (con_nbcon_state w') = true) /\
  returns (nbcon_exit_unsafe smp_processor_id wctxt) w
          (fun r w' =>
             fst r = true ->
             snd r = wctxt /\
             prio (con_nbcon_state w') = ctxt_prio (ctxt wctxt) /\
             cpu (con_nbcon_state w') = smp_processor_id /\
             (unsafe_takeover (con_nbcon_state w') = false ->
              unsafe (con_nbcon_state w') = false) /\
             (req_prio (con_nbcon_state w') = NBCON_PRIO_NONE \/
              unsafe (con_nbcon_state w') = true)).
Proof.
  assert (Hupd :
            forall u,
              returns (__nbcon_context_update_unsafe
                         smp_processor_id (ctxt wctxt) u) w
                      (fun r w' =>
                         fst r = true ->
                         snd r = ctxt wctxt /\
                         prio (con_nbcon_state w') = ctxt_prio (ctxt wctxt)
                         /\ cpu (con_nbcon_state w') = smp_processor_id /\
                         (req_prio (con_nbcon_state w') = NBCON_PRIO_NONE \/
                          unsafe (con_nbcon_state w') = true) /\
                         (u = true -> unsafe (con_nbcon_state w') = true) /\
                         (u = false ->
                          unsafe_takeover (con_nbcon_state w') = false ->
                          unsafe (con_nbcon_state w') = false))).
  { intros u. eapply returns_weaken.
    - apply returns_and.
      + apply (owner_update_unsafe
                 smp_processor_id (ctxt wctxt) _
                 (owner_stores_True smp_processor_id (ctxt wctxt)) u w
                 Logic.I).
      + apply (update_unsafe_returns_ctxt
                 (fun _ => True) smp_processor_id (ctxt wctxt) u w
                 respected_True Logic.I).
    - intros r w' [[_ Ht] (_ & _ & Hc)] Hr.
      destruct (Ht Hr) as (Ho & Hq & Hu1 & Hu2).
      apply owner_matches_true in Ho. destruct Ho as [Hp Hcpu].
      repeat split; auto. }
  split.
  - unfold nbcon_enter_unsafe, nbcon_context_enter_unsafe.
    apply returns_bind.
    eapply returns_weaken; [apply (Hupd true)|].
    intros [ok c'] w' H. apply returns_ret. simpl. intros Hr.
    destruct (H Hr) as (Hc & Hp & Hcpu & _ & Hu & _). simpl in Hc.
    subst c'. rewrite set_ctxt_same. auto.
  - unfold nbcon_exit_unsafe, nbcon_context_exit_unsafe.
    apply returns_bind.
    eapply returns_weaken; [apply (Hupd false)|].
    intros [ok c'] w' H. apply returns_ret. simpl. intros Hr.
    destruct (H Hr) as (Hc & Hp & Hcpu & Hq & _ & Hu). simpl in Hc.
    subst c'. rewrite set_ctxt_same. specialize (Hu eq_refl). auto.
Qed.

(** ** Running without interference *)

Lemma bind_eq {A B : Type} (m : M A) (k : A -> M B) (w : world) (a : A)
      (w' : world) :
  m w = Some (a, w') -> bind m k w = k a w'.
Proof. intros H. unfold bind. rewrite H. reflexivity. Qed.

Lemma nbcon_state_read_quiet (w : world) :
  quiet w -> nbcon_state_read w = Some (con_nbcon_state w, w).
Proof.
  intros Hq. unfold nbcon_state_read.
  rewrite (bind_eq _ _ _ _ _ (env_step_quiet w Hq)). reflexivity.
Qed.

Lemma nbcon_seq_read_quiet (w : world) :
  quiet w -> nbcon_seq_read w = Some (con_nbcon_seq w, w).
Proof.
  intros Hq. unfold nbcon_seq_read.
  rewrite (bind_eq _ _ _ _ _ (env_step_quiet w Hq)). reflexivity.
Qed.

Lemma try_cmpxchg_quiet (cur new : nbcon_state) (w : world) :
  quiet w -> con_nbcon_state w = cur ->
  nbcon_state_try_cmpxchg cur new w =
  Some ((true, cur), set_nbcon_state new w).
Proof.
  intros Hq Hc. unfold nbcon_state_try_cmpxchg.
  rewrite (bind_eq _ _ _ _ _ (env_step_quiet w Hq)).
  unfold bind, gets, modify, ret.
  rewrite Hc, nbcon_state_eqb_refl. reflexivity.
Qed.

Lemma cas_fuel_quiet (w : world) : quiet w -> cas_fuel w = 2%nat.
Proof. unfold quiet, cas_fuel. intros ->. reflexivity. Qed.

Lemma cmpxchg_loop_leave {R : Type} (body : nbcon_state -> M (attempt R))
      (cur : nbcon_state) (r : R) (w w' : world) :
  body cur w = Some (Leave r, w') ->
  cmpxchg_loop body cur w = Some (Left r cur, w').
Proof.
  intros H. unfold cmpxchg_loop, cas_fuel. simpl.
  rewrite (bind_eq _ _ _ _ _ H). reflexivity.
Qed.

Lemma cmpxchg_loop_swap_quiet {R : Type}
      (body : nbcon_state -> M (attempt R)) (cur new : nbcon_state)
      (w : world) :
  quiet w -> con_nbcon_state w = cur ->
  body cur w = Some (Swap new, w) ->
  cmpxchg_loop body cur w =
  Some (Swapped cur new, set_nbcon_state new w).
Proof.
  intros Hq Hc H. unfold cmpxchg_loop, cas_fuel. simpl.
  rewrite (bind_eq _ _ _ _ _ H).
  rewrite (bind_eq _ _ _ _ _ (try_cmpxchg_quiet cur new w Hq Hc)).
  reflexivity.
Qed.

Lemma try_acquire_direct_busy (smp_processor_id : Z) (c : nbcon_context)
      (cur : nbcon_state) (w : world) :
  panic_elsewhere smp_processor_id w = false -> direct_busy c cur ->
  nbcon_context_try_acquire_direct smp_processor_id c cur w =
  Some ((- EBUSY, cur), w).
Proof.
  intros Hp (H1 & H2 & Hu). unfold nbcon_context_try_acquire_direct.
  apply prio_leb_false in H1. apply prio_leb_false in H2.
  erewrite bind_eq.
  2:{ apply cmpxchg_loop_leave.
      unfold other_cpu_in_panic, bind, gets. rewrite Hp, H1, H2, Hu.
      reflexivity. }
  reflexivity.
Qed.

Lemma try_acquire_direct_quiet (smp_processor_id : Z) (c : nbcon_context)
      (w : world) :
  quiet w -> panic_elsewhere smp_processor_id w = false ->
  prio_val (prio (con_nbcon_state w)) < prio_val (ctxt_prio c) ->
  prio_val (req_prio (con_nbcon_state w)) < prio_val (ctxt_prio c) ->
  unsafe (con_nbcon_state w) = false ->
  nbcon_context_try_acquire_direct smp_processor_id c (con_nbcon_state w) w
  = Some ((0, con_nbcon_state w),
          set_nbcon_state
            (acquire_new smp_processor_id c (con_nbcon_state w)) w).
Proof.
  intros Hq Hp H1 H2 Hu. unfold nbcon_context_try_acquire_direct.
  apply prio_leb_false in H1. apply prio_leb_false in H2.
  erewrite bind_eq.
  2:{ apply cmpxchg_loop_swap_quiet; [exact Hq | reflexivity|].
      unfold other_cpu_in_panic, bind, gets. rewrite Hp, H1, H2, Hu.
      reflexivity. }
  reflexivity.
Qed.

Lemma try_acquire_requested_held (smp_processor_id : Z) (c : nbcon_context)
      (cur : nbcon_state) (w : world) :
  panic_elsewhere smp_processor_id w = false ->
  req_prio cur = ctxt_prio c -> prio cur <> NBCON_PRIO_NONE ->
  nbcon_context_try_acquire_requested smp_processor_id c cur w =
  Some ((- EBUSY, cur), w).
Proof.
  intros Hp Hr Hn. unfold nbcon_context_try_acquire_requested.
  unfold other_cpu_in_panic, bind, gets, nbcon_waiter_matches.
  rewrite Hp, Hr, prio_eqb_refl. simpl.
  apply prio_eqb_false in Hn. rewrite Hn. reflexivity.
Qed.

Lemma try_acquire_requested_quiet (smp_processor_id : Z)
      (c : nbcon_context) (w : world) :
  quiet w -> panic_elsewhere smp_processor_id w = false ->
  req_prio (con_nbcon_state w) = ctxt_prio c ->
  prio (con_nbcon_state w) = NBCON_PRIO_NONE ->
  nbcon_context_try_acquire_requested
    smp_processor_id c (con_nbcon_state w) w =
  Some ((0, con_nbcon_state w),
        set_nbcon_state
          (acquire_new smp_processor_id c (con_nbcon_state w)) w).
Proof.
  intros Hq Hp Hr Hn. unfold nbcon_context_try_acquire_requested.
  unfold other_cpu_in_panic, nbcon_waiter_matches.
  unfold bind at 1. unfold gets at 1.
  rewrite Hp, Hr, Hn, !prio_eqb_refl. simpl.
  rewrite (bind_eq _ _ _ _ _
             (try_cmpxchg_quiet _ _ w Hq eq_refl)).
  reflexivity.
Qed.

(** While the owner holds the console the waiter spins through its whole
    budget. *)
Lemma handover_spin_held (smp_processor_id : Z) (c : nbcon_context)
      (cur : nbcon_state) (w : world) (n : nat) :
  quiet w -> con_nbcon_state w = cur ->
  panic_elsewhere smp_processor_id w = false ->
  req_prio cur = ctxt_prio c -> prio cur <> NBCON_PRIO_NONE ->
  handover_spin smp_processor_id n c cur (- EBUSY) w =
  Some ((- EBUSY, cur), w).
Proof.
  intros Hq Hc Hp Hr Hn. induction n as [|n IH]; [reflexivity|].
  cbn [handover_spin].
  rewrite (bind_eq _ _ _ _ _
             (try_acquire_requested_held
                smp_processor_id c cur w Hp Hr Hn)).
  change (- EBUSY =? 0) with false. change (- EBUSY =? - EPERM) with false.
  cbv iota. unfold udelay.
  rewrite (bind_eq _ _ _ _ _ (eq_refl : ret tt w = Some (tt, w))).
  rewrite (bind_eq _ _ _ _ _ (nbcon_state_read_quiet w Hq)).
  rewrite Hc. exact IH.
Qed.

Lemma set_req_prio_twice (s : nbcon_state) (p q : nbcon_prio) :
  set_req_prio (set_req_prio s p) q = set_req_prio s q.
Proof. reflexivity. Qed.

(** A handover against an owner that does not release: the request is
    posted, the budget is spent and the request is removed again. *)
Lemma try_acquire_handover_timeout (smp_processor_id : Z)
      (c : nbcon_context) (w : world) :
  quiet w -> panic_elsewhere smp_processor_id w = false ->
  cpu (con_nbcon_state w) <> smp_processor_id ->
  unsafe_takeover (con_nbcon_state w) = false ->
  spinwait_max_us c <> 0 ->
  prio (con_nbcon_state w) <> NBCON_PRIO_NONE ->
  nbcon_context_try_acquire_handover
    smp_processor_id c (con_nbcon_state w) w =
  Some ((- EBUSY, set_req_prio (con_nbcon_state w) NBCON_PRIO_NONE),
        set_nbcon_state
          (set_req_prio (con_nbcon_state w) NBCON_PRIO_NONE) w).
Proof.
  intros Hq Hp Hc Hu Hs Hn. unfold nbcon_context_try_acquire_handover.
  apply Z.eqb_neq in Hc. apply Z.eqb_neq in Hs. rewrite Hc, Hu, Hs.
  rewrite (bind_eq _ _ _ _ _ (try_cmpxchg_quiet _ _ w Hq eq_refl)).
  cbv iota beta. cbn [negb].
  erewrite bind_eq.
  2:{ apply handover_spin_held; try reflexivity; assumption. }
  cbv iota beta. change (- EBUSY =? 0) with false. cbv iota beta.
  rewrite cas_fuel_quiet by exact Hq.
  cbn [handover_unset]. unfold nbcon_waiter_matches.
  cbn [req_prio set_req_prio]. rewrite prio_eqb_refl. cbn [negb].
  erewrite bind_eq.
  2:{ apply try_cmpxchg_quiet; [exact Hq | reflexivity]. }
  reflexivity.
Qed.

Lemma set_nbcon_state_same (w : world) :
  set_nbcon_state (con_nbcon_state w) w = w.
Proof. destruct w; reflexivity. Qed.

Lemma try_acquire_hostile_quiet (smp_processor_id : Z) (c : nbcon_context)
      (w : world) :
  quiet w ->
  nbcon_context_try_acquire_hostile smp_processor_id c (con_nbcon_state w) w
  = if allow_unsafe_takeover c && prio_eqb (ctxt_prio c) NBCON_PRIO_PANIC
    then Some ((0, con_nbcon_state w),
               set_nbcon_state
                 (hostile_new smp_processor_id c (con_nbcon_state w)) w)
    else Some ((- EPERM, con_nbcon_state w), w).
Proof.
  intros Hq. unfold nbcon_context_try_acquire_hostile.
  destruct (allow_unsafe_takeover c); [|reflexivity].
  destruct (prio_eqb (ctxt_prio c) NBCON_PRIO_PANIC); [|reflexivity].
  cbn [negb andb].
  erewrite bind_eq.
  2:{ apply cmpxchg_loop_swap_quiet; [exact Hq | reflexivity..]. }
  reflexivity.
Qed.

(** X7.  What nbcon_context_try_acquire does, without interference,
    against an owner on another CPU that sits in an unsafe section and
    does not hand over.  The direct acquire finds the console busy; with a
    spin budget the handover posts the request, spends the budget and
    removes the request again, so no stale request is left behind; then a
    PANIC context that is allowed to takes the console over, and the word
    it stores has unsafe and unsafe_takeover set; any other context gives
    up with false, context unchanged. *)
Theorem try_acquire_against_unsafe_owner
        (smp_processor_id : Z) (c : nbcon_context) (w : world) :
  quiet w -> panic_elsewhere smp_processor_id w = false ->
  direct_busy c (con_nbcon_state w) ->
  prio (con_nbcon_state w) <> NBCON_PRIO_NONE ->
  cpu (con_nbcon_state w) <> smp_processor_id ->
  unsafe_takeover (con_nbcon_state w) = false ->
  nbcon_context_try_acquire smp_processor_id c w =
  if allow_unsafe_takeover c && prio_eqb (ctxt_prio c) NBCON_PRIO_PANIC
  then Some ((true,
              set_ctxt_seq
                (set_pbufs c (if panic_cpu w =? smp_processor_id
                              then PBUFS_PANIC else PBUFS_CONSOLE))
                (con_nbcon_seq w)),
             set_nbcon_state
               (mkState NBCON_PRIO_PANIC
                        (if spinwait_max_us c =? 0
                         then req_prio (con_nbcon_state w)
                         else NBCON_PRIO_NONE)
                        true true smp_processor_id) w)
  else Some ((false, c),
             if spinwait_max_us c =? 0 then w
             else set_nbcon_state
                    (set_req_prio (con_nbcon_state w) NBCON_PRIO_NONE) w).
Proof.
  intros Hq Hp Hb Hn Hc Hu.
  unfold nbcon_context_try_acquire.
  rewrite (bind_eq _ _ _ _ _ (nbcon_state_read_quiet w Hq)).
  assert (Hloop :
            forall fuel,
              try_acquire_loop smp_processor_id (S fuel) c
                               (con_nbcon_state w) w =
              if spinwait_max_us c =? 0
              then
                (r <- nbcon_context_try_acquire_hostile
                        smp_processor_id c (con_nbcon_state w) ;;
                 ret (fst r)) w
              else
                (r <- nbcon_context_try_acquire_hostile
                        smp_processor_id c
                        (set_req_prio (con_nbcon_state w) NBCON_PRIO_NONE) ;;
                 ret (fst r))
                  (set_nbcon_state
                     (set_req_prio (con_nbcon_state w) NBCON_PRIO_NONE) w)).
  { intros fuel. cbn [try_acquire_loop].
    rewrite (bind_eq _ _ _ _ _
               (try_acquire_direct_busy
                  smp_processor_id c (con_nbcon_state w) w Hp Hb)).
    cbv beta iota. change (- EBUSY =? - EBUSY) with true. cbn [negb].
    cbv beta iota.
    destruct (spinwait_max_us c =? 0) eqn:Es.
    - erewrite bind_eq.
      2:{ unfold nbcon_context_try_acquire_handover.
          apply Z.eqb_neq in Hc. rewrite Hc, Hu, Es. reflexivity. }
      cbv beta iota. change (- EBUSY =? - EAGAIN) with false.
      change (- EBUSY =? - EBUSY) with true. cbn [negb]. cbv beta iota.
      unfold bind.
      destruct (nbcon_context_try_acquire_hostile
                  smp_processor_id c (con_nbcon_state w) w)
        as [[[err cur] w']|]; reflexivity.
    - apply Z.eqb_neq in Es.
      rewrite (bind_eq _ _ _ _ _
                 (try_acquire_handover_timeout
                    smp_processor_id c w Hq Hp Hc Hu Es Hn)).
      cbv beta iota. change (- EBUSY =? - EAGAIN) with false.
      change (- EBUSY =? - EBUSY) with true. cbn [negb]. cbv beta iota.
      unfold bind.
      destruct (nbcon_context_try_acquire_hostile
                  smp_processor_id c
                  (set_req_prio (con_nbcon_state w) NBCON_PRIO_NONE)
                  (set_nbcon_state
                     (set_req_prio (con_nbcon_state w) NBCON_PRIO_NONE) w))
        as [[[err cur] w']|]; reflexivity. }
  unfold bind at 1. rewrite cas_fuel_quiet by exact Hq.
  rewrite Hloop. clear Hloop.
  destruct Hb as (_ & _ & Hun).
  destruct (spinwait_max_us c =? 0).
  - unfold bind.
    rewrite (try_acquire_hostile_quiet smp_processor_id c w Hq).
    destruct (allow_unsafe_takeover c && _) eqn:Ea; [|reflexivity].
    apply andb_prop in Ea. destruct Ea as [_ Ea].
    apply prio_eqb_eq in Ea.
    cbn [ret fst]. change (0 =? 0) with true. cbn [negb]. unfold gets.
    rewrite nbcon_seq_read_quiet by exact Hq.
    unfold hostile_new. rewrite Ea, Hun, Hu. cbn [panic_cpu set_nbcon_state].
    destruct (panic_cpu w =? smp_processor_id); reflexivity.
  - unfold bind.
    pose proof (try_acquire_hostile_quiet
                  smp_processor_id c
                  (set_nbcon_state
                     (set_req_prio (con_nbcon_state w) NBCON_PRIO_NONE) w)
                  Hq) as Hh.
    cbn [con_nbcon_state set_nbcon_state] in Hh. rewrite Hh. clear Hh.
    destruct (allow_unsafe_takeover c && _) eqn:Ea; [|reflexivity].
    apply andb_prop in Ea. destruct Ea as [_ Ea].
    apply prio_eqb_eq in Ea.
    cbn [ret fst]. change (0 =? 0) with true. cbn [negb]. unfold gets.
    rewrite nbcon_seq_read_quiet by exact Hq.
    unfold hostile_new. cbn. rewrite Ea, Hun, Hu.
    destruct (panic_cpu w =? smp_processor_id); reflexivity.
Qed.

Lemma try_acquire_against_unsafe_owner_witness :
  nbcon_context_try_acquire 0 (ctxt_of NBCON_PRIO_PANIC true 500)
                            (world_of owned_unsafe []) =
  Some ((true, ctxt_of NBCON_PRIO_PANIC true 500),
        world_of (mkState NBCON_PRIO_PANIC NBCON_PRIO_NONE true true 0) [])
  /\
  nbcon_context_try_acquire 0 (ctxt_of NBCON_PRIO_EMERGENCY false 500)
                            (world_of owned_unsafe []) =
  Some ((false, ctxt_of NBCON_PRIO_EMERGENCY false 500),
        world_of owned_unsafe []).
Proof.
  split.
  - apply (try_acquire_against_unsafe_owner
             0 (ctxt_of NBCON_PRIO_PANIC true 500)
             (world_of owned_unsafe []));
      try reflexivity; try discriminate.
    unfold direct_busy; simpl; repeat split; lia || reflexivity.
  - apply (try_acquire_against_unsafe_owner
             0 (ctxt_of NBCON_PRIO_EMERGENCY false 500)
             (world_of owned_unsafe []));
      try reflexivity; try discriminate.
    unfold direct_busy; simpl; repeat split; lia || reflexivity.
Defined.

(** ** The friendly handover *)

Lemma env_step_no_event (w : world) (rest : list env_event) :
  sched w = no_event :: rest -> env_step w = Some (tt, set_sched rest w).
Proof. intros H. unfold env_step. rewrite H. reflexivity. Qed.

Lemma env_step_state_event (w : world) (s : nbcon_state)
      (rest : list env_event) :
  sched w = state_event s :: rest ->
  env_step w = Some (tt, set_sched rest (set_nbcon_state s w)).
Proof. intros H. unfold env_step. rewrite H. reflexivity. Qed.

(** The waiter spins while the owner holds the console and acquires it as
    soon as the word without owner, still carrying the request, shows
    up. *)
Lemma handover_spin_released (smp_processor_id : Z) (c : nbcon_context)
      (rel : nbcon_state) (m : nat) :
  req_prio rel = ctxt_prio c -> prio rel = NBCON_PRIO_NONE ->
  forall j cur w,
    sched w = repeat no_event j ++ [state_event rel] ->
    panic_elsewhere smp_processor_id w = false ->
    req_prio cur = ctxt_prio c -> prio cur <> NBCON_PRIO_NONE ->
    con_nbcon_state w = cur ->
    handover_spin smp_processor_id (S (S j) + m) c cur (- EBUSY) w =
    Some ((0, rel),
          set_sched []
            (set_nbcon_state (acquire_new smp_processor_id c rel) w)).
Proof.
  intros Hr Hn. induction j as [|j IH]; intros cur w Hs Hp Hrc Hnc Hc.
  - change (S (S 0) + m)%nat with (S (S m)).
    cbn [handover_spin].
    rewrite (bind_eq _ _ _ _ _
               (try_acquire_requested_held
                  smp_processor_id c cur w Hp Hrc Hnc)).
    cbv beta iota. change (- EBUSY =? 0) with false.
    change (- EBUSY =? - EPERM) with false. cbv iota. unfold udelay.
    rewrite (bind_eq _ _ _ _ _ (eq_refl : ret tt w = Some (tt, w))).
    erewrite bind_eq.
    2:{ unfold nbcon_state_read.
        rewrite (bind_eq _ _ _ _ _ (env_step_state_event w rel [] Hs)).
        reflexivity. }
    cbn [con_nbcon_state set_sched set_nbcon_state].
    erewrite bind_eq.
    2:{ apply (try_acquire_requested_quiet
                 smp_processor_id c
                 (set_sched [] (set_nbcon_state rel w)));
        [reflexivity | exact Hp | exact Hr | exact Hn]. }
    reflexivity.
  - change (S (S (S j)) + m)%nat with (S (S (S j) + m)).
    cbn [handover_spin].
    rewrite (bind_eq _ _ _ _ _
               (try_acquire_requested_held
                  smp_processor_id c cur w Hp Hrc Hnc)).
    cbv beta iota. change (- EBUSY =? 0) with false.
    change (- EBUSY =? - EPERM) with false. cbv iota. unfold udelay.
    rewrite (bind_eq _ _ _ _ _ (eq_refl : ret tt w = Some (tt, w))).
    erewrite bind_eq.
    2:{ unfold nbcon_state_read.
        rewrite (bind_eq _ _ _ _ _ (env_step_no_event w _ Hs)).
        reflexivity. }
    cbn [con_nbcon_state set_sched].
    subst cur.
    apply (IH (con_nbcon_state w)
              (set_sched (repeat no_event j ++ [state_event rel]) w));
      [reflexivity | exact Hp | exact Hrc | exact Hnc | reflexivity].
Qed.

Lemma to_int_small (z : Z) : 0 <= z <= INT_MAX -> to_int z = z.
Proof.
  unfold to_int, INT_MAX. intros H.
  rewrite Z.mod_small by lia. lia.
Qed.

(** X8.  The handover succeeds when the owner releases within the spin
    budget.  The owner, on another CPU, sits in an unsafe section; the
    waiter finds the console busy and posts its request; after [j]
    further polls of the state word, [j] below spinwait_max_us, the owner's
    release shows up: the word nbcon_exit_unsafe stores for it.  Then
    nbcon_context_try_acquire returns true and the console belongs to the
    waiter, with the request cleared and the unsafe bit clear.  The budget
    is one that the int counting the polls can hold: at most INT_MAX. *)
Theorem handover_succeeds_when_owner_releases
        (smp_processor_id : Z) (c : nbcon_context) (w : world) (j : nat) :
  panic_elsewhere smp_processor_id w = false ->
  direct_busy c (con_nbcon_state w) ->
  prio (con_nbcon_state w) <> NBCON_PRIO_NONE ->
  cpu (con_nbcon_state w) <> smp_processor_id ->
  unsafe_takeover (con_nbcon_state w) = false ->
  Z.of_nat j < spinwait_max_us c <= INT_MAX ->
  sched w =
  repeat no_event (2 + j) ++
  [state_event
     (release_new
        (set_unsafe (set_req_prio (con_nbcon_state w) (ctxt_prio c))
                    false))] ->
  nbcon_context_try_acquire smp_processor_id c w =
  Some ((true,
         set_ctxt_seq
           (set_pbufs c (if panic_cpu w =? smp_processor_id
                         then PBUFS_PANIC else PBUFS_CONSOLE))
           (con_nbcon_seq w)),
        set_sched []
          (set_nbcon_state
             (mkState (ctxt_prio c) NBCON_PRIO_NONE false false
                      smp_processor_id) w)).
Proof.
  intros Hp Hb Hn Hc Hu Hj Hs.
  set (rel := release_new
                (set_unsafe (set_req_prio (con_nbcon_state w) (ctxt_prio c))
                            false)) in *.
  unfold nbcon_context_try_acquire.
  erewrite bind_eq.
  2:{ unfold nbcon_state_read.
      rewrite (bind_eq _ _ _ _ _ (env_step_no_event w _ Hs)).
      reflexivity. }
  cbn [con_nbcon_state set_sched].
  unfold bind at 1. unfold cas_fuel. cbn [try_acquire_loop].
  erewrite bind_eq.
  2:{ apply try_acquire_direct_busy; [exact Hp | exact Hb]. }
  cbv beta iota. change (- EBUSY =? - EBUSY) with true. cbn [negb].
  cbv iota.
  erewrite bind_eq.
  2:{ unfold nbcon_context_try_acquire_handover.
      apply Z.eqb_neq in Hc. rewrite Hc, Hu.
      assert (Es : (spinwait_max_us c =? 0) = false)
        by (apply Z.eqb_neq; lia).
      rewrite Es.
      erewrite bind_eq.
      2:{ unfold nbcon_state_try_cmpxchg.
          erewrite bind_eq.
          2:{ apply env_step_no_event. reflexivity. }
          unfold bind, gets, modify, ret.
          cbn [con_nbcon_state set_sched].
          rewrite nbcon_state_eqb_refl. reflexivity. }
      cbv beta iota. cbn [negb].
      rewrite (to_int_small (spinwait_max_us c)) by lia.
      replace (Z.to_nat (spinwait_max_us c + 1))
        with (S (S j) + Z.to_nat (spinwait_max_us c - 1 - Z.of_nat j))%nat
        by lia.
      erewrite bind_eq.
      2:{ apply (handover_spin_released smp_processor_id c rel);
            try reflexivity.
          - exact Hp.
          - exact Hn. }
      reflexivity. }
  cbv beta iota. change (0 =? - EAGAIN) with false.
  change (0 =? - EBUSY) with false. cbn [negb]. cbv iota.
  unfold ret at 1. cbv beta iota. change (0 =? 0) with true. cbn [negb].
  unfold bind, gets.
  rewrite nbcon_seq_read_quiet by reflexivity.
  destruct Hb as (_ & _ & Hun). unfold rel, acquire_new.
  cbn. rewrite Hu.
  destruct (panic_cpu w =? smp_processor_id); reflexivity.
Qed.

Lemma handover_succeeds_when_owner_releases_witness :
  nbcon_context_try_acquire
    0 (ctxt_of NBCON_PRIO_EMERGENCY false 500)
    (world_of owned_unsafe
              [no_event; no_event; no_event; no_event; no_event;
               state_event released_with_request]) =
  Some ((true, ctxt_of NBCON_PRIO_EMERGENCY false 500),
        world_of (mkState NBCON_PRIO_EMERGENCY NBCON_PRIO_NONE false false 0)
                 []).
Proof.
  apply (handover_succeeds_when_owner_releases
           0 (ctxt_of NBCON_PRIO_EMERGENCY false 500)
           (world_of owned_unsafe
                     [no_event; no_event; no_event; no_event; no_event;
                      state_event released_with_request]) 3);
    try reflexivity; try discriminate.
  - unfold direct_busy; simpl; repeat split; lia || reflexivity.
  - unfold INT_MAX. simpl. lia.
Defined.

(** ** Unsafe sections without interference *)

Lemma can_proceed_release_quiet (smp_processor_id : Z) (c : nbcon_context)
      (w : world) :
  quiet w ->
  prio (con_nbcon_state w) = ctxt_prio c ->
  cpu (con_nbcon_state w) = smp_processor_id ->
  req_prio (con_nbcon_state w) <> NBCON_PRIO_NONE ->
  unsafe (con_nbcon_state w) = false ->
  nbcon_context_can_proceed smp_processor_id c (con_nbcon_state w) w =
  Some ((false, set_pbufs c PBUFS_NULL),
        set_nbcon_state (release_new (con_nbcon_state w)) w).
Proof.
  intros Hq Hp Hc Hr Hu. unfold nbcon_context_can_proceed.
  assert (Ho : nbcon_owner_matches (con_nbcon_state w) smp_processor_id
                                   (ctxt_prio c) = true).
  { apply owner_matches_true. auto. }
  apply prio_eqb_false in Hr. rewrite Ho, Hr, Hu. cbn [negb].
  rewrite (bind_eq _ _ _ _ _ (release_quiet smp_processor_id c w Hq)).
  rewrite Ho. reflexivity.
Qed.

Lemma update_unsafe_quiet (smp_processor_id : Z) (c : nbcon_context)
      (u : bool) (w : world) :
  quiet w ->
  prio (con_nbcon_state w) = ctxt_prio c ->
  cpu (con_nbcon_state w) = smp_processor_id ->
  unsafe_takeover (con_nbcon_state w) = false ->
  (req_prio (con_nbcon_state w) = NBCON_PRIO_NONE \/
   unsafe (con_nbcon_state w) = true) ->
  __nbcon_context_update_unsafe smp_processor_id c u w =
  nbcon_context_can_proceed
    smp_processor_id c (set_unsafe (con_nbcon_state w) u)
    (set_nbcon_state (set_unsafe (con_nbcon_state w) u) w).
Proof.
  intros Hq Hp Hc Ht Hr. unfold __nbcon_context_update_unsafe.
  rewrite (bind_eq _ _ _ _ _ (nbcon_state_read_quiet w Hq)).
  erewrite bind_eq.
  2:{ apply cmpxchg_loop_swap_quiet; [exact Hq | reflexivity|].
      rewrite Ht, andb_false_r.
      rewrite (bind_eq _ _ _ _ _
                 (can_proceed_owner smp_processor_id c (con_nbcon_state w)
                                    w Hp Hc Hr)).
      reflexivity. }
  reflexivity.
Qed.

(** X9.  The owner's side of the handover.  When a request is pending and
    the owner, inside its unsafe section on a console that was never taken
    over, calls nbcon_exit_unsafe, the unsafe bit is cleared and the
    console is released in the same call: the answer is false, the context
    has lost its buffers, and the word left behind has no owner and still
    carries the request.  This is the word the waiter of X8 waits for; its
    acquire by nbcon_context_try_acquire_requested then succeeds and
    clears the request. *)
Theorem exit_unsafe_hands_over
        (smp_processor_id : Z) (wctxt : nbcon_write_context) (w : world) :
  quiet w ->
  prio (con_nbcon_state w) = ctxt_prio (ctxt wctxt) ->
  cpu (con_nbcon_state w) = smp_processor_id ->
  req_prio (con_nbcon_state w) <> NBCON_PRIO_NONE ->
  unsafe (con_nbcon_state w) = true ->
  unsafe_takeover (con_nbcon_state w) = false ->
  nbcon_exit_unsafe smp_processor_id wctxt w =
  Some ((false, set_ctxt wctxt (set_pbufs (ctxt wctxt) PBUFS_NULL)),
        set_nbcon_state
          (mkState NBCON_PRIO_NONE (req_prio (con_nbcon_state w)) false
                   false smp_processor_id) w) /\
  forall waiter_cpu waiter,
    ctxt_prio waiter = req_prio (con_nbcon_state w) ->
    panic_elsewhere waiter_cpu w = false ->
    (r <- nbcon_exit_unsafe smp_processor_id wctxt ;;
     cur <- gets con_nbcon_state ;;
     nbcon_context_try_acquire_requested waiter_cpu waiter cur) w =
    Some ((0, mkState NBCON_PRIO_NONE (req_prio (con_nbcon_state w)) false
                      false smp_processor_id),
          set_nbcon_state
            (mkState (ctxt_prio waiter) NBCON_PRIO_NONE false false
                     waiter_cpu) w).
Proof.
  intros Hq Hp Hc Hr Hu Ht.
  assert (He : nbcon_exit_unsafe smp_processor_id wctxt w =
               Some ((false,
                      set_ctxt wctxt (set_pbufs (ctxt wctxt) PBUFS_NULL)),
                     set_nbcon_state
                       (mkState NBCON_PRIO_NONE
                                (req_prio (con_nbcon_state w)) false
                                false smp_processor_id) w)).
  { unfold nbcon_exit_unsafe, nbcon_context_exit_unsafe.
    erewrite bind_eq.
    2:{ rewrite update_unsafe_quiet; try assumption; [|right; exact Hu].
        apply (can_proceed_release_quiet
                 smp_processor_id (ctxt wctxt)
                 (set_nbcon_state (set_unsafe (con_nbcon_state w) false) w));
          try assumption; reflexivity. }
    cbv beta iota. unfold ret, release_new, set_unsafe, set_nbcon_state.
    cbn. rewrite Ht, Hc. reflexivity. }
  split; [exact He|].
  intros waiter_cpu waiter Hw Hpe.
  rewrite (bind_eq _ _ _ _ _ He).
  unfold bind at 1. unfold gets at 1.
  cbn [con_nbcon_state set_nbcon_state].
  pose proof (try_acquire_requested_quiet
                waiter_cpu waiter
                (set_nbcon_state
                   (mkState NBCON_PRIO_NONE (req_prio (con_nbcon_state w))
                            false false smp_processor_id) w)
                Hq Hpe (eq_sym Hw) eq_refl) as H.
  cbn [con_nbcon_state set_nbcon_state] in H. rewrite H. reflexivity.
Qed.

Lemma exit_unsafe_hands_over_witness :
  nbcon_exit_unsafe 0 printer_wctxt (world_of request_posted []) =
  Some ((false, set_ctxt printer_wctxt (set_pbufs printer PBUFS_NULL)),
        world_of (mkState NBCON_PRIO_NONE NBCON_PRIO_EMERGENCY false false 0)
                 []).
Proof.
  apply (exit_unsafe_hands_over 0 printer_wctxt
                                (world_of request_posted []));
    try reflexivity; discriminate.
Defined.

(** X10.  Entering and leaving an unsafe section without interference.
    For the owner of a console that was never taken over and has no
    request pending, nbcon_enter_unsafe sets the unsafe bit and
    nbcon_exit_unsafe clears it, both answer true and leave everything
    else, the write context included, as it was.  The bit is a flag and
    not a counter: the exit clears it whatever it was before the enter, so
    sections do not nest. *)
Theorem unsafe_section_round_trip
        (smp_processor_id : Z) (wctxt : nbcon_write_context) (w : world) :
  quiet w ->
  prio (con_nbcon_state w) = ctxt_prio (ctxt wctxt) ->
  cpu (con_nbcon_state w) = smp_processor_id ->
  req_prio (con_nbcon_state w) = NBCON_PRIO_NONE ->
  unsafe_takeover (con_nbcon_state w) = false ->
  nbcon_enter_unsafe smp_processor_id wctxt w =
  Some ((true, wctxt),
        set_nbcon_state (set_unsafe (con_nbcon_state w) true) w) /\
  (r <- nbcon_enter_unsafe smp_processor_id wctxt ;;
   nbcon_exit_unsafe smp_processor_id (snd r)) w =
  Some ((true, wctxt),
        set_nbcon_state (set_unsafe (con_nbcon_state w) false) w).
Proof.
  intros Hq Hp Hc Hr Ht.
  assert (Hupd :
            forall u w0,
              quiet w0 ->
              prio (con_nbcon_state w0) = ctxt_prio (ctxt wctxt) ->
              cpu (con_nbcon_state w0) = smp_processor_id ->
              req_prio (con_nbcon_state w0) = NBCON_PRIO_NONE ->
              unsafe_takeover (con_nbcon_state w0) = false ->
              __nbcon_context_update_unsafe
                smp_processor_id (ctxt wctxt) u w0 =
              Some ((true, ctxt wctxt),
                    set_nbcon_state (set_unsafe (con_nbcon_state w0) u) w0)).
  { intros u w0 Hq0 Hp0 Hc0 Hr0 Ht0.
    rewrite update_unsafe_quiet; try assumption; [|left; exact Hr0].
    apply can_proceed_owner; try assumption. left. exact Hr0. }
  assert (He : nbcon_enter_unsafe smp_processor_id wctxt w =
               Some ((true, wctxt),
                     set_nbcon_state
                       (set_unsafe (con_nbcon_state w) true) w)).
  { unfold nbcon_enter_unsafe, nbcon_context_enter_unsafe.
    rewrite (bind_eq _ _ _ _ _ (Hupd true w Hq Hp Hc Hr Ht)).
    cbv beta iota. rewrite set_ctxt_same. reflexivity. }
  split; [exact He|].
  rewrite (bind_eq _ _ _ _ _ He). cbn [snd].
  unfold nbcon_exit_unsafe, nbcon_context_exit_unsafe.
  erewrite bind_eq.
  2:{ apply Hupd; assumption. }
  cbv beta iota. rewrite set_ctxt_same. reflexivity.
Qed.

Lemma unsafe_section_round_trip_witness :
  (r <- nbcon_enter_unsafe 0 printer_wctxt ;;
   nbcon_exit_unsafe 0 (snd r)) (world_of owned_by_cpu0 []) =
  Some ((true, printer_wctxt), world_of owned_by_cpu0 []).
Proof.
  apply (unsafe_section_round_trip 0 printer_wctxt
                                   (world_of owned_by_cpu0 []));
    reflexivity.
Defined.

(** ** Acquiring a console that is free for the context *)

Lemma stable_never_panic_elsewhere (this_cpu : Z) :
  stable (never_panic_elsewhere this_cpu).
Proof.
  intros e rest w E [Hp HF]. rewrite E in HF.
  apply Forall_cons_iff in HF. destruct HF as [He HF].
  split; [|exact HF]. unfold panic_elsewhere. simpl.
  unfold event_panic_here in He.
  destruct (ev_panic_cpu e) as [z|]; simpl; [|exact Hp].
  destruct He as [-> | ->].
  - reflexivity.
  - rewrite Z.eqb_refl. apply andb_false_r.
Qed.

Lemma try_acquire_direct_acquires (smp_processor_id : Z)
      (c : nbcon_context) (cur : nbcon_state) (w : world) :
  state_always (acquirable c) w -> never_panic_elsewhere smp_processor_id w ->
  acquirable c cur ->
  returns (nbcon_context_try_acquire_direct smp_processor_id c cur) w
          (fun r w' =>
             fst r = 0 /\ never_panic_elsewhere smp_processor_id w').
Proof.
  intros HA HN Hc. unfold nbcon_context_try_acquire_direct.
  apply returns_bind.
  apply (cmpxchg_loop_rule
           (fun cur' w' =>
              (state_always (acquirable c) w' /\
               never_panic_elsewhere smp_processor_id w') /\
              acquirable c cur')).
  - intros cur0 w0 w1 [HI _] He _.
    destruct (env_step_inv _ w0 w1
                (stable_and _ _ (stable_state_always (acquirable c))
                   (stable_never_panic_elsewhere smp_processor_id))
                HI He) as [HI1 _].
    split; [exact HI1|]. apply HI1.
  - intros cur0 w0 [[HA0 [Hp0 HF0]] (H1 & H2 & Hu)].
    apply returns_bind. apply returns_gets. rewrite Hp0.
    apply prio_leb_false in H1. apply prio_leb_false in H2.
    rewrite H1, H2, Hu. simpl.
    apply returns_ret. split; [reflexivity|].
    intros w1 He _. apply returns_ret. split; [reflexivity|].
    destruct (env_step_inv _ w0 w1
                (stable_never_panic_elsewhere smp_processor_id)
                (conj Hp0 HF0) He) as [[Hp1 HF1] _].
    split; assumption.
  - auto.
Qed.

(** X11.  A context that outranks the owner and the waiter gets a safe
    console at once, whatever else happens: as long as every state word,
    the current one and those stored meanwhile by others, has a lower
    priority, a lower requested priority and the unsafe bit clear, and no
    other CPU is or goes into panic, nbcon_context_try_acquire returns true;
    the context then holds the sequence number read from the console and
    a printk buffer.  nbcon_reacquire, which spins on it, returns after
    its first attempt, and the write context it hands back has no output
    buffer, length 0 and the unsafe_takeover flag of the state word. *)
Theorem free_console_is_acquired
        (smp_processor_id : Z) (wctxt : nbcon_write_context) (fuel : nat)
        (w : world) :
  state_always (acquirable (ctxt wctxt)) w ->
  never_panic_elsewhere smp_processor_id w ->
  returns (nbcon_context_try_acquire smp_processor_id (ctxt wctxt)) w
          (fun r w' =>
             fst r = true /\
             exists p,
               p <> PBUFS_NULL /\
               snd r = set_ctxt_seq (set_pbufs (ctxt wctxt) p)
                                    (con_nbcon_seq w')) /\
  returns (nbcon_reacquire smp_processor_id (S fuel) wctxt) w
          (fun r w' =>
             outbuf r = None /\ len r = 0%N /\
             wctxt_unsafe_takeover r = unsafe_takeover (con_nbcon_state w')
             /\ ctxt_prio (ctxt r) = ctxt_prio (ctxt wctxt) /\
             pbufs (ctxt r) <> PBUFS_NULL).
Proof.
  intros HA HN.
  assert (Hacq :
            returns (nbcon_context_try_acquire smp_processor_id (ctxt wctxt))
                    w
                    (fun r w' =>
                       fst r = true /\
                       exists p,
                         p <> PBUFS_NULL /\
                         snd r = set_ctxt_seq (set_pbufs (ctxt wctxt) p)
                                              (con_nbcon_seq w'))).
  { unfold nbcon_context_try_acquire.
    apply returns_bind.
    eapply returns_weaken.
    { apply (returns_nbcon_state_read
               (fun w' => state_always (acquirable (ctxt wctxt)) w' /\
                          never_panic_elsewhere smp_processor_id w')).
      - apply stable_and;
          [apply stable_state_always | apply stable_never_panic_elsewhere].
      - split; assumption. }
    intros cur w1 ([HA1 HN1] & Hc & _).
    apply returns_bind. unfold cas_fuel. cbn [try_acquire_loop].
    apply returns_bind.
    eapply returns_weaken.
    { apply (try_acquire_direct_acquires
               smp_processor_id (ctxt wctxt) cur w1 HA1 HN1).
      rewrite Hc. apply HA1. }
    intros [err cur1] w2 [Hr HN2]. cbn [fst] in Hr. subst err.
    change (0 =? - EBUSY) with false. cbn [negb].
    apply returns_ret. change (0 =? 0) with true. cbn [negb].
    apply returns_bind, returns_gets.
    apply returns_bind.
    eapply returns_weaken;
      [apply (returns_nbcon_seq_read (fun _ => True));
       [apply stable_True | exact Logic.I]|].
    intros s w3 (_ & Hs & _). apply returns_ret.
    split; [reflexivity|]. cbn [snd]. rewrite Hs.
    destruct (panic_cpu w2 =? smp_processor_id);
      eexists; (split; [|reflexivity]); discriminate. }
  split; [exact Hacq|].
  unfold nbcon_reacquire. cbn [reacquire_spin].
  apply returns_bind. apply returns_bind.
  eapply returns_weaken; [exact Hacq|].
  intros [ok c'] w1 [Hr (p & Hp & Hc)]. cbn [fst snd] in Hr, Hc.
  subst ok c'. apply returns_ret.
  apply returns_bind.
  eapply returns_weaken;
    [apply (returns_nbcon_state_read (fun _ => True));
     [apply stable_True | exact Logic.I]|].
  intros cur w2 (_ & Hcur & _). apply returns_ret.
  simpl. rewrite Hcur. repeat split. exact Hp.
Qed.

Lemma free_console_is_acquired_witness :
  state_always (acquirable (ctxt printer_wctxt))
               (world_of nbcon_state_zero [state_event nbcon_state_zero]) /\
  never_panic_elsewhere
    0 (world_of nbcon_state_zero [state_event nbcon_state_zero]) /\
  returns (nbcon_reacquire 0 1 printer_wctxt)
          (world_of nbcon_state_zero [state_event nbcon_state_zero])
          (fun r w' =>
             outbuf r = None /\ len r = 0%N /\
             wctxt_unsafe_takeover r = unsafe_takeover (con_nbcon_state w')
             /\ ctxt_prio (ctxt r) = ctxt_prio (ctxt printer_wctxt) /\
             pbufs (ctxt r) <> PBUFS_NULL).
Proof.
  assert (HA : state_always
                 (acquirable (ctxt printer_wctxt))
                 (world_of nbcon_state_zero [state_event nbcon_state_zero])).
  { split; [|apply Forall_cons; [|apply Forall_nil]];
      unfold event_state_has, acquirable; simpl; repeat split; lia. }
  assert (HN : never_panic_elsewhere
                 0 (world_of nbcon_state_zero [state_event nbcon_state_zero])).
  { split; [reflexivity|].
    apply Forall_cons; [exact Logic.I | apply Forall_nil]. }
  split; [exact HA|]. split; [exact HN|].
  apply (free_console_is_acquired
           0 printer_wctxt 0
           (world_of nbcon_state_zero [state_event nbcon_state_zero])
           HA HN).
Defined.

(** ** The emitter without interference *)

Lemma update_unsafe_owner_quiet (smp_processor_id : Z) (c : nbcon_context)
      (u : bool) (w : world) :
  quiet w ->
  prio (con_nbcon_state w) = ctxt_prio c ->
  cpu (con_nbcon_state w) = smp_processor_id ->
  req_prio (con_nbcon_state w) = NBCON_PRIO_NONE ->
  unsafe_takeover (con_nbcon_state w) = false ->
  __nbcon_context_update_unsafe smp_processor_id c u w =
  Some ((true, c), set_nbcon_state (set_unsafe (con_nbcon_state w) u) w).
Proof.
  intros Hq Hp Hc Hr Ht.
  rewrite update_unsafe_quiet; try assumption; [|left; exact Hr].
  apply can_proceed_owner; try assumption. left. exact Hr.
Qed.

Lemma prev_seq_read_quiet (w : world) :
  quiet w -> nbcon_prev_seq_read w = Some (con_nbcon_prev_seq w, w).
Proof.
  intros Hq. unfold nbcon_prev_seq_read.
  rewrite (bind_eq _ _ _ _ _ (env_step_quiet w Hq)). reflexivity.
Qed.

Lemma prev_seq_try_cmpxchg_quiet (new : N) (w : world) :
  quiet w ->
  nbcon_prev_seq_try_cmpxchg (con_nbcon_prev_seq w) new w =
  Some ((true, con_nbcon_prev_seq w), set_nbcon_prev_seq new w).
Proof.
  intros Hq. unfold nbcon_prev_seq_try_cmpxchg.
  rewrite (bind_eq _ _ _ _ _ (env_step_quiet w Hq)).
  unfold bind, gets, modify, ret. rewrite N.eqb_refl. reflexivity.
Qed.

Lemma seq_try_update_quiet (c : nbcon_context) (new_seq : N) (w : world) :
  quiet w -> ctxt_seq c = con_nbcon_seq w ->
  nbcon_seq_try_update c new_seq w =
  Some (set_ctxt_seq c new_seq, set_nbcon_seq new_seq w).
Proof.
  intros Hq Hs. unfold nbcon_seq_try_update, nbcon_seq_try_cmpxchg.
  unfold __u64seq_to_ulseq.
  unfold bind at 1. unfold bind at 1.
  rewrite (env_step_quiet w Hq).
  unfold bind, gets, modify, ret. rewrite Hs, N.eqb_refl. reflexivity.
Qed.

Lemma emit_mark_replay_quiet (smp_processor_id : Z) (c : nbcon_context)
      (pmsg : printk_message) (w : world) :
  quiet w ->
  prio (con_nbcon_state w) = ctxt_prio c ->
  cpu (con_nbcon_state w) = smp_processor_id ->
  req_prio (con_nbcon_state w) = NBCON_PRIO_NONE ->
  emit_mark_replay smp_processor_id c pmsg w =
  Some ((true, c,
         if (con_nbcon_prev_seq w =? pmsg_seq pmsg)%N
         then console_prepend_replay pmsg else pmsg),
        set_nbcon_prev_seq (pmsg_seq pmsg) w).
Proof.
  intros Hq Hp Hc Hr. unfold emit_mark_replay.
  rewrite (bind_eq _ _ _ _ _ (prev_seq_read_quiet w Hq)).
  unfold __ulseq_to_u64seq, __u64seq_to_ulseq.
  destruct (con_nbcon_prev_seq w =? pmsg_seq pmsg)%N eqn:E.
  - apply N.eqb_eq in E. unfold ret. rewrite <- E.
    destruct w; reflexivity.
  - rewrite (bind_eq _ _ _ _ _ (nbcon_state_read_quiet w Hq)).
    rewrite (bind_eq _ _ _ _ _
               (can_proceed_owner smp_processor_id c (con_nbcon_state w) w
                                  Hp Hc (or_introl Hr))).
    cbv beta iota. cbn [negb].
    rewrite (bind_eq _ _ _ _ _ (prev_seq_try_cmpxchg_quiet _ w Hq)).
    reflexivity.
Qed.

Lemma set_unsafe_same (s : nbcon_state) (u : bool) :
  unsafe s = u -> set_unsafe s u = s.
Proof. destruct s. simpl. intros <-. reflexivity. Qed.

Lemma emit_update_con_quiet (smp_processor_id : Z)
      (wctxt : nbcon_write_context) (c : nbcon_context)
      (pmsg : printk_message) (con_dropped_seen dropped : N) (w : world) :
  quiet w ->
  prio (con_nbcon_state w) = ctxt_prio c ->
  cpu (con_nbcon_state w) = smp_processor_id ->
  req_prio (con_nbcon_state w) = NBCON_PRIO_NONE ->
  unsafe_takeover (con_nbcon_state w) = false ->
  unsafe (con_nbcon_state w) = false ->
  ctxt_seq c = con_nbcon_seq w ->
  emit_update_con smp_processor_id wctxt c pmsg con_dropped_seen dropped w =
  Some ((true,
         set_ctxt wctxt (set_ctxt_seq c (u64_add (pmsg_seq pmsg) 1))),
        mkWorld (con_nbcon_state w) (u64_add (pmsg_seq pmsg) 1)
                (con_nbcon_prev_seq w)
                (if negb (dropped =? con_dropped_seen)%N
                 then dropped else con_dropped w)
                (panic_cpu w) (sched w) (driver_calls w)).
Proof.
  intros Hq Hp Hc Hr Ht Hu Hs. unfold emit_update_con.
  unfold nbcon_context_enter_unsafe, nbcon_context_exit_unsafe.
  rewrite (bind_eq _ _ _ _ _
             (update_unsafe_owner_quiet
                smp_processor_id c true w Hq Hp Hc Hr Ht)).
  cbv beta iota. cbn [negb].
  set (w1 := set_nbcon_state (set_unsafe (con_nbcon_state w) true) w).
  set (w2 := if negb (dropped =? con_dropped_seen)%N
             then set_dropped dropped w1 else w1).
  assert (H2 : (if negb (dropped =? con_dropped_seen)%N
                then modify (set_dropped dropped) else ret tt) w1 =
               Some (tt, w2)).
  { unfold w2. destruct (negb (dropped =? con_dropped_seen)%N); reflexivity. }
  rewrite (bind_eq _ _ _ _ _ H2).
  assert (Hq2 : quiet w2).
  { unfold w2. destruct (negb _); exact Hq. }
  assert (Hst2 : con_nbcon_state w2 = set_unsafe (con_nbcon_state w) true).
  { unfold w2. destruct (negb _); reflexivity. }
  assert (Hs2 : ctxt_seq c = con_nbcon_seq w2).
  { unfold w2. destruct (negb _); exact Hs. }
  rewrite (bind_eq _ _ _ _ _
             (seq_try_update_quiet c (u64_add (pmsg_seq pmsg) 1) w2 Hq2 Hs2)).
  erewrite bind_eq.
  2:{ apply update_unsafe_owner_quiet.
      - exact Hq2.
      - cbn [con_nbcon_state set_nbcon_seq ctxt_prio set_ctxt_seq].
        rewrite Hst2. exact Hp.
      - cbn [con_nbcon_state set_nbcon_seq]. rewrite Hst2. exact Hc.
      - cbn [con_nbcon_state set_nbcon_seq]. rewrite Hst2. exact Hr.
      - cbn [con_nbcon_state set_nbcon_seq]. rewrite Hst2. exact Ht. }
  cbv beta iota. unfold ret. f_equal. f_equal.
  cbn [con_nbcon_state set_nbcon_seq]. rewrite Hst2.
  change (set_unsafe (set_unsafe (con_nbcon_state w) true) false)
    with (set_unsafe (con_nbcon_state w) false).
  rewrite (set_unsafe_same _ _ Hu).
  unfold w2, w1. destruct (negb (dropped =? con_dropped_seen)%N);
    reflexivity.
Qed.

Lemma owns_safely_fields (this_cpu : Z) (c : nbcon_context) (w : world) :
  owns_safely this_cpu c w ->
  quiet w /\
  prio (con_nbcon_state w) = ctxt_prio c /\
  cpu (con_nbcon_state w) = this_cpu /\
  req_prio (con_nbcon_state w) = NBCON_PRIO_NONE /\
  unsafe_takeover (con_nbcon_state w) = false /\
  unsafe (con_nbcon_state w) = false /\
  ctxt_seq c = con_nbcon_seq w.
Proof. intros (Hq & Hs & Hc). rewrite Hs. simpl. auto 10. Qed.

Lemma set_nbcon_state_unsafe_same (w : world) :
  unsafe (con_nbcon_state w) = false ->
  set_nbcon_state (set_unsafe (con_nbcon_state w) false) w = w.
Proof.
  intros Hu. rewrite (set_unsafe_same _ _ Hu). apply set_nbcon_state_same.
Qed.

(** The emitter up to the point where the text is ready: the unsafe
    section around the read of the record and the replay marking. *)
Lemma emit_quiet_prefix
      (smp_processor_id : Z) (is_extended : bool)
      (rd : N -> bool -> bool -> option printk_message)
      (write_atomic write_thread : option write_callback)
      (wctxt : nbcon_write_context) (use_atomic : bool)
      (m : printk_message) (w : world) :
  owns_safely smp_processor_id (ctxt wctxt) w ->
  rd (ctxt_seq (ctxt wctxt)) is_extended true = Some m ->
  nbcon_emit_next_record smp_processor_id is_extended rd write_atomic
                         write_thread wctxt use_atomic w =
  (let c := set_backlog (ctxt wctxt) true in
   let con_dropped_seen := con_dropped w in
   let dropped := u64_add con_dropped_seen (pmsg_dropped m) in
   let pmsg := rendered is_extended (con_dropped w) (con_nbcon_prev_seq w)
                        m in
   if (outbuf_len pmsg =? 0)%N
   then emit_update_con smp_processor_id wctxt c pmsg con_dropped_seen
                        dropped
   else
     cur <- nbcon_state_read ;;
     let wctxt := mkWctxt c (Some (pmsg_outbuf pmsg))
                          (outbuf_len pmsg) (unsafe_takeover cur) in
     match (if use_atomic then write_atomic else write_thread) with
     | None =>
         c <- nbcon_context_release smp_processor_id c ;;
         ret (false, set_ctxt wctxt c)
     | Some cb =>
         wctxt <- call_driver use_atomic cb wctxt ;;
         match outbuf wctxt with
         | None =>
             c <- nbcon_context_release smp_processor_id (ctxt wctxt) ;;
             ret (false, set_ctxt wctxt c)
         | Some _ =>
             emit_update_con smp_processor_id wctxt (ctxt wctxt) pmsg
                             con_dropped_seen 0%N
         end
     end)
    (set_nbcon_prev_seq (pmsg_seq m) w).
Proof.
  intros Ho Hrd.
  destruct (owns_safely_fields _ _ _ Ho) as (Hq & Hp & Hc & Hr & Ht & Hu & Hs).
  unfold nbcon_emit_next_record.
  unfold nbcon_context_enter_unsafe, nbcon_context_exit_unsafe.
  rewrite (bind_eq _ _ _ _ _
             (update_unsafe_owner_quiet
                smp_processor_id (ctxt wctxt) true w Hq Hp Hc Hr Ht)).
  cbv beta iota. cbn [negb]. rewrite Hrd.
  unfold bind at 1. unfold gets at 1.
  cbn [con_dropped set_nbcon_state].
  erewrite bind_eq.
  2:{ apply emit_mark_replay_quiet; [exact Hq | exact Hp | exact Hc | exact Hr]. }
  cbv beta iota. cbn [negb].
  erewrite bind_eq.
  2:{ apply update_unsafe_owner_quiet;
        [exact Hq | exact Hp | exact Hc | exact Hr | exact Ht]. }
  cbv beta iota zeta. cbn [negb].
  cbn [con_nbcon_state set_nbcon_state set_nbcon_prev_seq
       con_nbcon_prev_seq].
  change (set_unsafe (set_unsafe (con_nbcon_state w) true) false)
    with (set_unsafe (con_nbcon_state w) false).
  rewrite (set_unsafe_same _ _ Hu).
  assert (Hw : mkWorld (con_nbcon_state w) (con_nbcon_seq w) (pmsg_seq m)
                       (con_dropped w) (panic_cpu w) (sched w)
                       (driver_calls w) =
               set_nbcon_prev_seq (pmsg_seq m) w) by reflexivity.
  unfold rendered.
  match goal with
  | |- context [pmsg_seq (if ?b then _ else m)] =>
      replace (pmsg_seq (if b then console_prepend_dropped
                                     m (u64_add (con_dropped w)
                                                (pmsg_dropped m))
                         else m)) with (pmsg_seq m)
        by (destruct b; reflexivity)
  end.
  reflexivity.
Qed.

Lemma rendered_seq (is_extended : bool) (con_dropped prev_seq : N)
      (m : printk_message) :
  pmsg_seq (rendered is_extended con_dropped prev_seq m) = pmsg_seq m.
Proof.
  unfold rendered.
  destruct (negb _ && negb _); destruct (prev_seq =? _)%N; reflexivity.
Qed.

Lemma emit_quiet_none
      (smp_processor_id : Z) (is_extended : bool)
      (rd : N -> bool -> bool -> option printk_message)
      (write_atomic write_thread : option write_callback)
      (wctxt : nbcon_write_context) (use_atomic : bool) (w : world) :
  owns_safely smp_processor_id (ctxt wctxt) w ->
  rd (ctxt_seq (ctxt wctxt)) is_extended true = None ->
  nbcon_emit_next_record smp_processor_id is_extended rd write_atomic
                         write_thread wctxt use_atomic w =
  Some ((true, set_ctxt wctxt (set_backlog (ctxt wctxt) false)), w).
Proof.
  intros Ho Hrd.
  destruct (owns_safely_fields _ _ _ Ho) as (Hq & Hp & Hc & Hr & Ht & Hu & Hs).
  unfold nbcon_emit_next_record.
  unfold nbcon_context_enter_unsafe, nbcon_context_exit_unsafe.
  rewrite (bind_eq _ _ _ _ _
             (update_unsafe_owner_quiet
                smp_processor_id (ctxt wctxt) true w Hq Hp Hc Hr Ht)).
  cbv beta iota. cbn [negb]. rewrite Hrd.
  erewrite bind_eq.
  2:{ apply update_unsafe_owner_quiet;
        [exact Hq | exact Hp | exact Hc | exact Hr | exact Ht]. }
  cbv beta iota. unfold ret. f_equal. f_equal.
  cbn [con_nbcon_state set_nbcon_state].
  change (set_unsafe (set_unsafe (con_nbcon_state w) true) false)
    with (set_unsafe (con_nbcon_state w) false).
  change (set_nbcon_state
            (set_unsafe (con_nbcon_state w) false)
            (set_nbcon_state (set_unsafe (con_nbcon_state w) true) w))
    with (set_nbcon_state (set_unsafe (con_nbcon_state w) false) w).
  apply set_nbcon_state_unsafe_same, Hu.
Qed.

Lemma emit_quiet_suppressed
      (smp_processor_id : Z) (is_extended : bool)
      (rd : N -> bool -> bool -> option printk_message)
      (write_atomic write_thread : option write_callback)
      (wctxt : nbcon_write_context) (use_atomic : bool)
      (m : printk_message) (w : world) :
  owns_safely smp_processor_id (ctxt wctxt) w ->
  rd (ctxt_seq (ctxt wctxt)) is_extended true = Some m ->
  outbuf_len (rendered is_extended (con_dropped w) (con_nbcon_prev_seq w) m)
  = 0%N ->
  nbcon_emit_next_record smp_processor_id is_extended rd write_atomic
                         write_thread wctxt use_atomic w =
  Some ((true,
         set_ctxt wctxt
                  (set_ctxt_seq (set_backlog (ctxt wctxt) true)
                                (u64_add (pmsg_seq m) 1))),
        mkWorld (con_nbcon_state w) (u64_add (pmsg_seq m) 1) (pmsg_seq m)
                (u64_add (con_dropped w) (pmsg_dropped m))
                (panic_cpu w) [] (driver_calls w)).
Proof.
  intros Ho Hrd Hlen.
  destruct (owns_safely_fields _ _ _ Ho) as (Hq & Hp & Hc & Hr & Ht & Hu & Hs).
  rewrite (emit_quiet_prefix _ _ _ _ _ _ _ m w Ho Hrd).
  cbv zeta. rewrite Hlen. cbn [N.eqb].
  rewrite emit_update_con_quiet;
    [| exact Hq | exact Hp | exact Hc | exact Hr | exact Ht | exact Hu
     | exact Hs].
  rewrite rendered_seq.
  cbn [con_nbcon_state con_nbcon_prev_seq con_dropped panic_cpu sched
       driver_calls set_nbcon_prev_seq].
  rewrite Hq.
  destruct (u64_add (con_dropped w) (pmsg_dropped m) =? con_dropped w)%N
           eqn:E; cbn [negb]; [|reflexivity].
  apply N.eqb_eq in E. rewrite E. reflexivity.
Qed.

Lemma emit_quiet_no_callback
      (smp_processor_id : Z) (is_extended : bool)
      (rd : N -> bool -> bool -> option printk_message)
      (write_atomic write_thread : option write_callback)
      (wctxt : nbcon_write_context) (use_atomic : bool)
      (m : printk_message) (w : world) :
  owns_safely smp_processor_id (ctxt wctxt) w ->
  rd (ctxt_seq (ctxt wctxt)) is_extended true = Some m ->
  outbuf_len (rendered is_extended (con_dropped w) (con_nbcon_prev_seq w) m)
  <> 0%N ->
  (if use_atomic then write_atomic else write_thread) = None ->
  nbcon_emit_next_record smp_processor_id is_extended rd write_atomic
                         write_thread wctxt use_atomic w =
  Some ((false,
         mkWctxt (set_pbufs (set_backlog (ctxt wctxt) true) PBUFS_NULL)
                 (Some (pmsg_outbuf
                          (rendered is_extended (con_dropped w)
                                    (con_nbcon_prev_seq w) m)))
                 (outbuf_len
                    (rendered is_extended (con_dropped w)
                              (con_nbcon_prev_seq w) m))
                 false),
        mkWorld (mkState NBCON_PRIO_NONE NBCON_PRIO_NONE false false
                         smp_processor_id)
                (con_nbcon_seq w) (pmsg_seq m) (con_dropped w)
                (panic_cpu w) [] (driver_calls w)).
Proof.
  intros Ho Hrd Hlen Hcb.
  destruct (owns_safely_fields _ _ _ Ho) as (Hq & Hp & Hc & Hr & Ht & Hu & Hs).
  rewrite (emit_quiet_prefix _ _ _ _ _ _ _ m w Ho Hrd).
  cbv zeta. apply N.eqb_neq in Hlen. rewrite Hlen, Hcb.
  rewrite (bind_eq _ _ _ _ _
             (nbcon_state_read_quiet
                (set_nbcon_prev_seq (pmsg_seq m) w) Hq)).
  rewrite (bind_eq _ _ _ _ _
             (release_quiet smp_processor_id _
                            (set_nbcon_prev_seq (pmsg_seq m) w) Hq)).
  cbn [con_nbcon_state set_nbcon_prev_seq ctxt_prio set_backlog].
  assert (Hm : nbcon_owner_matches (con_nbcon_state w) smp_processor_id
                                   (ctxt_prio (ctxt wctxt)) = true).
  { apply owner_matches_true. auto. }
  rewrite Hm, Ht. unfold ret, set_ctxt.
  unfold set_nbcon_state, set_nbcon_prev_seq, release_new. cbn.
  rewrite Hr, Hu, Ht, Hc, Hq. reflexivity.
Qed.

Lemma emit_quiet_printed
      (smp_processor_id : Z) (is_extended : bool)
      (rd : N -> bool -> bool -> option printk_message)
      (write_atomic write_thread : option write_callback)
      (wctxt : nbcon_write_context) (use_atomic : bool)
      (m : printk_message) (cb : write_callback) (w : world) :
  owns_safely smp_processor_id (ctxt wctxt) w ->
  rd (ctxt_seq (ctxt wctxt)) is_extended true = Some m ->
  outbuf_len (rendered is_extended (con_dropped w) (con_nbcon_prev_seq w) m)
  <> 0%N ->
  (if use_atomic then write_atomic else write_thread) = Some cb ->
  (forall wc, cb wc (con_nbcon_state w) = (wc, con_nbcon_state w)) ->
  nbcon_emit_next_record smp_processor_id is_extended rd write_atomic
                         write_thread wctxt use_atomic w =
  Some ((true,
         mkWctxt (set_ctxt_seq (set_backlog (ctxt wctxt) true)
                               (u64_add (pmsg_seq m) 1))
                 (Some (pmsg_outbuf
                          (rendered is_extended (con_dropped w)
                                    (con_nbcon_prev_seq w) m)))
                 (outbuf_len
                    (rendered is_extended (con_dropped w)
                              (con_nbcon_prev_seq w) m))
                 false),
        mkWorld (con_nbcon_state w) (u64_add (pmsg_seq m) 1) (pmsg_seq m)
                0 (panic_cpu w) []
                (driver_calls w ++
                 [mkCall use_atomic
                         (pmsg_outbuf
                            (rendered is_extended (con_dropped w)
                                      (con_nbcon_prev_seq w) m))
                         true])).
Proof.
  intros Ho Hrd Hlen Hcb Hdrv.
  destruct (owns_safely_fields _ _ _ Ho) as (Hq & Hp & Hc & Hr & Ht & Hu & Hs).
  rewrite (emit_quiet_prefix _ _ _ _ _ _ _ m w Ho Hrd).
  cbv zeta. apply N.eqb_neq in Hlen. rewrite Hlen, Hcb.
  rewrite (bind_eq _ _ _ _ _
             (nbcon_state_read_quiet
                (set_nbcon_prev_seq (pmsg_seq m) w) Hq)).
  cbn [con_nbcon_state set_nbcon_prev_seq]. rewrite Ht.
  rewrite (bind_eq _ _ _ _ _ (call_driver_eq _ _ _ _)).
  cbn [con_nbcon_state set_nbcon_prev_seq]. rewrite Hdrv.
  cbn [fst snd outbuf ctxt].
  rewrite emit_update_con_quiet;
    [| exact Hq | exact Hp | exact Hc | exact Hr | exact Ht | exact Hu
     | exact Hs].
  rewrite rendered_seq.
  cbn [con_nbcon_state con_nbcon_prev_seq con_dropped panic_cpu sched
       driver_calls set_nbcon_prev_seq set_nbcon_state log_driver_call].
  rewrite Hq. unfold set_ctxt. cbn [outbuf len wctxt_unsafe_takeover].
  destruct (0 =? con_dropped w)%N eqn:E; cbn [negb]; [|reflexivity].
  apply N.eqb_eq in E. rewrite <- E. reflexivity.
Qed.

(** X12.  What nbcon_emit_next_record does for the owner at a safe point
    when nobody interferes.  Without a record at the context's sequence it
    answers true with backlog cleared and changes nothing.  With a record
    it first stores the record's sequence to nbcon_prev_seq.  A record
    rendered to no text moves the cursor past it without a driver call and
    adds its dropped count to the console's.  A record with text but
    without the callback asked for is treated as lost ownership: the
    console is released, the answer is false and the cursor stays.
    Otherwise the driver, assumed to return in the state it was called in
    with the buffer intact, is handed the text once, through the callback
    asked for; then the dropped count is reset to 0, the cursor moves past
    the record and the console is still owned, at a safe point. *)
Theorem emit_without_interference
        (smp_processor_id : Z) (is_extended : bool)
        (rd : N -> bool -> bool -> option printk_message)
        (write_atomic write_thread : option write_callback)
        (wctxt : nbcon_write_context) (use_atomic : bool) (w : world) :
  owns_safely smp_processor_id (ctxt wctxt) w ->
  (rd (ctxt_seq (ctxt wctxt)) is_extended true = None ->
   nbcon_emit_next_record smp_processor_id is_extended rd write_atomic
                          write_thread wctxt use_atomic w =
   Some ((true, set_ctxt wctxt (set_backlog (ctxt wctxt) false)), w)) /\
  (forall m,
      rd (ctxt_seq (ctxt wctxt)) is_extended true = Some m ->
      (outbuf_len
         (rendered is_extended (con_dropped w) (con_nbcon_prev_seq w) m)
       = 0%N ->
       nbcon_emit_next_record smp_processor_id is_extended rd write_atomic
                              write_thread wctxt use_atomic w =
       Some ((true,
              set_ctxt wctxt
                       (set_ctxt_seq (set_backlog (ctxt wctxt) true)
                                     (u64_add (pmsg_seq m) 1))),
             mkWorld (con_nbcon_state w) (u64_add (pmsg_seq m) 1)
                     (pmsg_seq m)
                     (u64_add (con_dropped w) (pmsg_dropped m))
                     (panic_cpu w) [] (driver_calls w))) /\
      (outbuf_len
         (rendered is_extended (con_dropped w) (con_nbcon_prev_seq w) m)
       <> 0%N ->
       (if use_atomic then write_atomic else write_thread) = None ->
       nbcon_emit_next_record smp_processor_id is_extended rd write_atomic
                              write_thread wctxt use_atomic w =
       Some ((false,
              mkWctxt
                (set_pbufs (set_backlog (ctxt wctxt) true) PBUFS_NULL)
                (Some (pmsg_outbuf
                         (rendered is_extended (con_dropped w)
                                   (con_nbcon_prev_seq w) m)))
                (outbuf_len
                   (rendered is_extended (con_dropped w)
                             (con_nbcon_prev_seq w) m))
                false),
             mkWorld (mkState NBCON_PRIO_NONE NBCON_PRIO_NONE false false
                              smp_processor_id)
                     (con_nbcon_seq w) (pmsg_seq m) (con_dropped w)
                     (panic_cpu w) [] (driver_calls w))) /\
      (outbuf_len
         (rendered is_extended (con_dropped w) (con_nbcon_prev_seq w) m)
       <> 0%N ->
       forall cb,
         (if use_atomic then write_atomic else write_thread) = Some cb ->
         (forall wc, cb wc (con_nbcon_state w) = (wc, con_nbcon_state w)) ->
         nbcon_emit_next_record smp_processor_id is_extended rd
                                write_atomic write_thread wctxt use_atomic
                                w =
         Some ((true,
                mkWctxt
                  (set_ctxt_seq (set_backlog (ctxt wctxt) true)
                                (u64_add (pmsg_seq m) 1))
                  (Some (pmsg_outbuf
                           (rendered is_extended (con_dropped w)
                                     (con_nbcon_prev_seq w) m)))
                  (outbuf_len
                     (rendered is_extended (con_dropped w)
                               (con_nbcon_prev_seq w) m))
                  false),
               mkWorld (con_nbcon_state w) (u64_add (pmsg_seq m) 1)
                       (pmsg_seq m) 0 (panic_cpu w) []
                       (driver_calls w ++
                        [mkCall use_atomic
                                (pmsg_outbuf
                                   (rendered is_extended (con_dropped w)
                                             (con_nbcon_prev_seq w) m))
                                true])))).
Proof.
  intros Ho. split.
  - intros Hrd. apply emit_quiet_none; assumption.
  - intros m Hrd. split; [|split].
    + intros Hlen. apply emit_quiet_suppressed; assumption.
    + intros Hlen Hcb. apply emit_quiet_no_callback; assumption.
    + intros Hlen cb Hcb Hdrv. eapply emit_quiet_printed; eassumption.
Qed.

Lemma emit_without_interference_witness :
  owns_safely 0 (ctxt printer_wctxt) (world_of owned_by_cpu0 []) /\
  nbcon_emit_next_record 0 false reader_all (Some plain_driver) None
                         printer_wctxt true (world_of owned_by_cpu0 []) =
  Some ((true,
         mkWctxt (mkCtxt NBCON_PRIO_NORMAL false 0 6 true PBUFS_CONSOLE)
                 (Some "hello"%string) 5 false),
        mkWorld owned_by_cpu0 6 5 0 PANIC_CPU_INVALID []
                [mkCall true "hello" true]).
Proof.
  assert (Ho : owns_safely 0 (ctxt printer_wctxt)
                           (world_of owned_by_cpu0 [])).
  { repeat split. }
  split; [exact Ho|].
  refine (proj2 (proj2 (proj2 (emit_without_interference
                                 0 false reader_all (Some plain_driver) None
                                 printer_wctxt true
                                 (world_of owned_by_cpu0 []) Ho)
                              (mkPmsg "hello" 5 0) eq_refl))
                _ plain_driver eq_refl _).
  - discriminate.
  - reflexivity.
Defined.

(** ** The flush without interference *)

Lemma rendered_plain (is_extended : bool) (prev_seq : N)
      (m : printk_message) :
  pmsg_dropped m = 0%N -> prev_seq <> pmsg_seq m ->
  rendered is_extended 0 prev_seq m = m.
Proof.
  intros Hd Hp. unfold rendered. rewrite Hd.
  apply N.eqb_neq in Hp. rewrite Hp. reflexivity.
Qed.

Lemma try_acquire_quiet_free (smp_processor_id : Z) (c : nbcon_context)
      (w : world) :
  quiet w -> panic_elsewhere smp_processor_id w = false ->
  prio_val (prio (con_nbcon_state w)) < prio_val (ctxt_prio c) ->
  prio_val (req_prio (con_nbcon_state w)) < prio_val (ctxt_prio c) ->
  unsafe (con_nbcon_state w) = false ->
  nbcon_context_try_acquire smp_processor_id c w =
  Some ((true,
         set_ctxt_seq
           (set_pbufs c (if panic_cpu w =? smp_processor_id
                         then PBUFS_PANIC else PBUFS_CONSOLE))
           (con_nbcon_seq w)),
        set_nbcon_state
          (acquire_new smp_processor_id c (con_nbcon_state w)) w).
Proof.
  intros Hq Hp H1 H2 Hu. unfold nbcon_context_try_acquire.
  rewrite (bind_eq _ _ _ _ _ (nbcon_state_read_quiet w Hq)).
  unfold bind at 1. unfold cas_fuel. cbn [try_acquire_loop].
  rewrite (bind_eq _ _ _ _ _
             (try_acquire_direct_quiet smp_processor_id c w Hq Hp H1 H2 Hu)).
  cbv beta iota. change (0 =? - EBUSY) with false. cbn [negb].
  unfold ret at 1. cbv beta iota. change (0 =? 0) with true. cbn [negb].
  unfold bind, gets.
  rewrite nbcon_seq_read_quiet by exact Hq.
  cbn [panic_cpu set_nbcon_state con_nbcon_seq].
  destruct (panic_cpu w =? smp_processor_id); reflexivity.
Qed.

Lemma flush_loop_quiet
      (smp_processor_id : Z) (is_extended : bool)
      (rd : N -> bool -> bool -> option printk_message)
      (cb : write_callback) (write_thread : option write_callback)
      (stop_seq : N) (p : nbcon_prio) :
  (stop_seq <= u64_max)%N ->
  (forall wc,
      cb wc (mkState p NBCON_PRIO_NONE false false smp_processor_id) =
      (wc, mkState p NBCON_PRIO_NONE false false smp_processor_id)) ->
  forall n fuel wctxt w,
    (n < fuel)%nat ->
    owns_safely smp_processor_id (ctxt wctxt) w ->
    ctxt_prio (ctxt wctxt) = p ->
    con_dropped w = 0%N ->
    N.to_nat (stop_seq - con_nbcon_seq w) = n ->
    con_nbcon_prev_seq w <> con_nbcon_seq w ->
    records_in_order rd is_extended (con_nbcon_seq w) stop_seq ->
    exists wctxt',
      ctxt_prio (ctxt wctxt') = p /\
      flush_loop smp_processor_id is_extended rd (Some cb) write_thread
                 fuel wctxt stop_seq w =
      Some (inr (0, wctxt'),
            mkWorld (con_nbcon_state w)
                    (N.max (con_nbcon_seq w) stop_seq)
                    (if (con_nbcon_seq w <? stop_seq)%N
                     then stop_seq - 1 else con_nbcon_prev_seq w)%N
                    0 (panic_cpu w) []
                    (driver_calls w ++
                     flushed_calls rd is_extended n (con_nbcon_seq w))).
Proof.
  intros Hmax Hdrv.
  induction n as [|n IH]; intros fuel wctxt w Hf Ho Hp Hd Hn Hprev Hrec;
    (destruct fuel as [|fuel]; [lia|]); cbn [flush_loop];
    pose proof Ho as (Hq & Hst & Hseq);
    rewrite (bind_eq _ _ _ _ _ (nbcon_seq_read_quiet w Hq)).
  - assert (Hge : (con_nbcon_seq w <? stop_seq)%N = false).
    { apply N.ltb_ge. lia. }
    rewrite Hge. cbn [negb]. exists wctxt. split; [exact Hp|].
    unfold ret. f_equal. f_equal.
    rewrite N.max_l by (apply N.ltb_ge in Hge; exact Hge).
    rewrite app_nil_r. unfold quiet in Hq.
    destruct w; simpl in *. subst. reflexivity.
  - assert (Hlt : (con_nbcon_seq w <? stop_seq)%N = true).
    { apply N.ltb_lt. lia. }
    rewrite Hlt. cbn [negb]. apply N.ltb_lt in Hlt.
    destruct (Hrec (con_nbcon_seq w)) as (m & Hm & Hms & Hmd); [lia|].
    rewrite <- Hseq in Hm.
    assert (Hren : rendered is_extended (con_dropped w)
                            (con_nbcon_prev_seq w) m = m).
    { rewrite Hd. apply rendered_plain; [exact Hmd|]. rewrite Hms.
      exact Hprev. }
    assert (Hadd : u64_add (pmsg_seq m) 1 = (con_nbcon_seq w + 1)%N).
    { rewrite Hms. apply u64_add_1. lia. }
    assert (Hemit :
              exists wc1,
                ctxt_prio (ctxt wc1) = p /\ backlog (ctxt wc1) = true /\
                ctxt_seq (ctxt wc1) = (con_nbcon_seq w + 1)%N /\
                nbcon_emit_next_record smp_processor_id is_extended rd
                                       (Some cb) write_thread wctxt true w =
                Some ((true, wc1),
                      mkWorld (con_nbcon_state w) (con_nbcon_seq w + 1)
                              (con_nbcon_seq w) 0 (panic_cpu w) []
                              (driver_calls w ++
                               if (outbuf_len m =? 0)%N then []
                               else [mkCall true (pmsg_outbuf m) true]))).
    { destruct (outbuf_len m =? 0)%N eqn:El.
      - apply N.eqb_eq in El.
        eexists. split; [|split; [|split]].
        4:{ rewrite (emit_quiet_suppressed _ _ _ _ _ _ _ m w Ho Hm)
              by (rewrite Hren; exact El).
            rewrite Hadd, Hms, Hd, Hmd, app_nil_r. reflexivity. }
        + destruct wctxt; exact Hp.
        + destruct wctxt; reflexivity.
        + destruct wctxt; reflexivity.
      - apply N.eqb_neq in El.
        eexists. split; [|split; [|split]].
        4:{ rewrite (emit_quiet_printed _ _ _ _ _ _ _ m cb w Ho Hm).
            - rewrite Hren, Hadd, Hms. reflexivity.
            - rewrite Hren. exact El.
            - reflexivity.
            - intros wc. rewrite Hst, Hp. apply Hdrv. }
        + exact Hp.
        + reflexivity.
        + reflexivity. }
    destruct Hemit as (wc1 & Hp1 & Hb1 & Hs1 & Hemit).
    rewrite (bind_eq _ _ _ _ _ Hemit). cbv beta iota. cbn [negb].
    rewrite Hb1. cbn [negb].
    set (w1 := mkWorld (con_nbcon_state w) (con_nbcon_seq w + 1)
                       (con_nbcon_seq w) 0 (panic_cpu w) []
                       (driver_calls w ++
                        if (outbuf_len m =? 0)%N then []
                        else [mkCall true (pmsg_outbuf m) true])).
    destruct (IH fuel wc1 w1) as (wc2 & Hp2 & Hloop).
    + lia.
    + split; [reflexivity|]. split; [|exact Hs1].
      cbn. rewrite Hp1, <- Hp. exact Hst.
    + exact Hp1.
    + reflexivity.
    + cbn. lia.
    + cbn. lia.
    + intros s Hs. apply Hrec. cbn in Hs. lia.
    + exists wc2. split; [exact Hp2|]. rewrite Hloop.
      f_equal. f_equal. unfold w1. cbn [con_nbcon_state con_nbcon_seq
        con_nbcon_prev_seq panic_cpu driver_calls].
      rewrite Hseq in Hm. cbn [flushed_calls]. rewrite Hm.
      rewrite <- app_assoc.
      f_equal; try lia.
      destruct (con_nbcon_seq w + 1 <? stop_seq)%N eqn:E; [reflexivity|].
      apply N.ltb_ge in E. lia.
Qed.

Lemma flush_quiet_lower
        (smp_processor_id : Z) (is_extended : bool)
        (rd : N -> bool -> bool -> option printk_message)
        (cb : write_callback) (write_thread : option write_callback)
        (cpu_emergency_nesting : Z) (stop_seq : N) (allow : bool)
        (p : nbcon_prio) (w : world) :
  nbcon_get_default_prio smp_processor_id cpu_emergency_nesting w =
  Some (p, w) ->
  ready_to_flush_at p smp_processor_id w ->
  transparent_driver smp_processor_id cb ->
  (stop_seq <= u64_max)%N ->
  records_in_order rd is_extended (con_nbcon_seq w) stop_seq ->
  __nbcon_atomic_flush_pending_con
    smp_processor_id is_extended rd (Some cb) write_thread
    cpu_emergency_nesting stop_seq allow w =
  Some (0, flushed smp_processor_id rd is_extended stop_seq w).
Proof.
  intros Hdp (Hq & Hpe & Hp & Hr & Hu & Ht & Hd & Hprev) Hdrv Hmax Hrec.
  unfold __nbcon_atomic_flush_pending_con.
  rewrite (bind_eq _ _ _ _ _ Hdp).
  set (c := mkCtxt p allow 2000 0 false PBUFS_NULL).
  assert (Hlow : prio_val NBCON_PRIO_NONE < prio_val (ctxt_prio c)).
  { cbn [ctxt_prio c]. destruct (prio (con_nbcon_state w));
      simpl in *; lia. }
  erewrite bind_eq.
  2:{ apply (try_acquire_quiet_free smp_processor_id c w);
        [exact Hq | exact Hpe | exact Hp
         | rewrite Hr; exact Hlow | exact Hu]. }
  cbv beta iota. cbn [negb].
  set (c1 := set_ctxt_seq
               (set_pbufs c (if panic_cpu w =? smp_processor_id
                             then PBUFS_PANIC else PBUFS_CONSOLE))
               (con_nbcon_seq w)).
  set (w1 := set_nbcon_state
               (acquire_new smp_processor_id c (con_nbcon_state w)) w).
  destruct (flush_loop_quiet
              smp_processor_id is_extended rd cb write_thread stop_seq p
              Hmax (fun wc => Hdrv wc p)
              (N.to_nat (stop_seq - con_nbcon_seq w))
              (flush_fuel stop_seq w1) (mkWctxt c1 None 0 false) w1)
    as (wc' & Hp' & Hloop).
  - unfold flush_fuel, w1. cbn [sched set_nbcon_state]. rewrite Hq.
    cbn [List.length]. lia.
  - split; [exact Hq|]. split; [|reflexivity].
    unfold w1, acquire_new. cbn. rewrite Ht. reflexivity.
  - reflexivity.
  - exact Hd.
  - reflexivity.
  - exact Hprev.
  - exact Hrec.
  - unfold bind at 1. rewrite Hloop. cbv beta iota.
    erewrite bind_eq.
    2:{ apply release_quiet. reflexivity. }
    unfold w1, acquire_new.
    cbn [con_nbcon_state set_nbcon_state con_nbcon_seq con_nbcon_prev_seq
         panic_cpu driver_calls].
    rewrite Hp', Ht.
    unfold nbcon_owner_matches. cbn [prio cpu].
    rewrite prio_eqb_refl, Z.eqb_refl. cbn [negb].
    reflexivity.
Qed.

Lemma ready_to_flush_any (p : nbcon_prio) (smp_processor_id : Z)
      (w : world) :
  ready_to_flush smp_processor_id w -> p <> NBCON_PRIO_NONE ->
  ready_to_flush_at p smp_processor_id w.
Proof.
  intros (Hq & Hpe & Hp & Hr & Hu & Ht & Hd & Hprev) Hn.
  repeat split; try assumption.
  rewrite Hp. destruct p; simpl; try lia. congruence.
Qed.

Lemma flush_quiet
        (smp_processor_id : Z) (is_extended : bool)
        (rd : N -> bool -> bool -> option printk_message)
        (cb : write_callback) (write_thread : option write_callback)
        (cpu_emergency_nesting : Z) (stop_seq : N) (allow : bool)
        (w : world) :
  quiet w -> panic_elsewhere smp_processor_id w = false ->
  prio (con_nbcon_state w) = NBCON_PRIO_NONE ->
  req_prio (con_nbcon_state w) = NBCON_PRIO_NONE ->
  unsafe (con_nbcon_state w) = false ->
  unsafe_takeover (con_nbcon_state w) = false ->
  con_dropped w = 0%N ->
  con_nbcon_prev_seq w <> con_nbcon_seq w ->
  (stop_seq <= u64_max)%N ->
  records_in_order rd is_extended (con_nbcon_seq w) stop_seq ->
  (forall wc p,
      cb wc (mkState p NBCON_PRIO_NONE false false smp_processor_id) =
      (wc, mkState p NBCON_PRIO_NONE false false smp_processor_id)) ->
  __nbcon_atomic_flush_pending_con
    smp_processor_id is_extended rd (Some cb) write_thread
    cpu_emergency_nesting stop_seq allow w =
  Some (0,
        mkWorld (mkState NBCON_PRIO_NONE NBCON_PRIO_NONE false false
                         smp_processor_id)
                (N.max (con_nbcon_seq w) stop_seq)
                (if (con_nbcon_seq w <? stop_seq)%N
                 then stop_seq - 1 else con_nbcon_prev_seq w)%N
                0 (panic_cpu w) []
                (driver_calls w ++
                 flushed_calls rd is_extended
                               (N.to_nat (stop_seq - con_nbcon_seq w))
                               (con_nbcon_seq w))).
Proof.
  intros Hq Hpe Hp Hr Hu Ht Hd Hprev Hmax Hrec Hdrv.
  destruct (default_prio_not_none smp_processor_id cpu_emergency_nesting w)
    as (p & Hdp & Hpn).
  apply (flush_quiet_lower
           smp_processor_id is_extended rd cb write_thread
           cpu_emergency_nesting stop_seq allow p w Hdp).
  - apply ready_to_flush_any; [|exact Hpn]. repeat split; assumption.
  - exact Hdrv.
  - exact Hmax.
  - exact Hrec.
Qed.


(** X13.  A flush prints the backlog, in order and once.  On a console
    that is free and safe, with no dropped messages pending, a ring
    buffer that holds every record from the console's cursor up to
    [stop_seq], and a write_atomic callback that returns in the state it
    was called in with the buffer intact, __nbcon_atomic_flush_pending_con
    without interference returns 0; it has handed the driver the text of
    each of those records that has text, in sequence order, each exactly
    once and completed; the cursor is at [stop_seq] (or where it was, if
    it was already there), nbcon_prev_seq names the last record printed,
    and the console is released: no owner, no request, safe.  A second
    flush up to the same record then finds nothing to do: it returns 0 and
    leaves everything as it is. *)
Theorem flush_prints_the_backlog
        (smp_processor_id : Z) (is_extended : bool)
        (rd : N -> bool -> bool -> option printk_message)
        (cb : write_callback) (write_thread : option write_callback)
        (cpu_emergency_nesting : Z) (stop_seq : N) (allow : bool)
        (w : world) :
  quiet w -> panic_elsewhere smp_processor_id w = false ->
  prio (con_nbcon_state w) = NBCON_PRIO_NONE ->
  req_prio (con_nbcon_state w) = NBCON_PRIO_NONE ->
  unsafe (con_nbcon_state w) = false ->
  unsafe_takeover (con_nbcon_state w) = false ->
  con_dropped w = 0%N ->
  con_nbcon_prev_seq w <> con_nbcon_seq w ->
  (stop_seq <= u64_max)%N ->
  records_in_order rd is_extended (con_nbcon_seq w) stop_seq ->
  (forall wc p,
      cb wc (mkState p NBCON_PRIO_NONE false false smp_processor_id) =
      (wc, mkState p NBCON_PRIO_NONE false false smp_processor_id)) ->
  exists w',
    w' =
    mkWorld (mkState NBCON_PRIO_NONE NBCON_PRIO_NONE false false
                     smp_processor_id)
            (N.max (con_nbcon_seq w) stop_seq)
            (if (con_nbcon_seq w <? stop_seq)%N
             then stop_seq - 1 else con_nbcon_prev_seq w)%N
            0 (panic_cpu w) []
            (driver_calls w ++
             flushed_calls rd is_extended
                           (N.to_nat (stop_seq - con_nbcon_seq w))
                           (con_nbcon_seq w)) /\
    __nbcon_atomic_flush_pending_con
      smp_processor_id is_extended rd (Some cb) write_thread
      cpu_emergency_nesting stop_seq allow w = Some (0, w') /\
    __nbcon_atomic_flush_pending_con
      smp_processor_id is_extended rd (Some cb) write_thread
      cpu_emergency_nesting stop_seq allow w' = Some (0, w').
Proof.
  intros Hq Hpe Hp Hr Hu Ht Hd Hprev Hmax Hrec Hdrv.
  eexists. split; [reflexivity|]. split.
  - apply flush_quiet; assumption.
  - rewrite flush_quiet; try assumption; try reflexivity.
    + cbn [con_nbcon_state con_nbcon_seq con_nbcon_prev_seq panic_cpu
           driver_calls].
      replace (N.to_nat (stop_seq - N.max (con_nbcon_seq w) stop_seq))
        with 0%nat by lia.
      cbn [flushed_calls]. rewrite app_nil_r.
      replace (N.max (N.max (con_nbcon_seq w) stop_seq) stop_seq)
        with (N.max (con_nbcon_seq w) stop_seq) by lia.
      replace (N.max (con_nbcon_seq w) stop_seq <? stop_seq)%N
        with false by (symmetry; apply N.ltb_ge; lia).
      reflexivity.
    + cbn [con_nbcon_seq con_nbcon_prev_seq].
      destruct (con_nbcon_seq w <? stop_seq)%N eqn:E.
      * apply N.ltb_lt in E. lia.
      * apply N.ltb_ge in E. rewrite N.max_l by exact E. exact Hprev.
    + intros s Hs. cbn [con_nbcon_seq] in Hs. lia.
Qed.

Lemma flush_prints_the_backlog_witness :
  exists w',
    w' =
    mkWorld nbcon_state_zero 8 7 0 PANIC_CPU_INVALID []
            [mkCall true "hello" true; mkCall true "hello" true;
             mkCall true "hello" true] /\
    __nbcon_atomic_flush_pending_con
      0 false reader_all (Some plain_driver) None 0 8 false
      (world_of nbcon_state_zero []) = Some (0, w') /\
    __nbcon_atomic_flush_pending_con
      0 false reader_all (Some plain_driver) None 0 8 false w' =
    Some (0, w').
Proof.
  apply (flush_prints_the_backlog
           0 false reader_all plain_driver None 0 8 false
           (world_of nbcon_state_zero []));
    try reflexivity; try discriminate.
  intros s Hs. exists (mkPmsg "hello" s 0). unfold reader_all.
  assert (E : (s <? 8)%N = true) by (apply N.ltb_lt; lia).
  rewrite E. repeat split.
Defined.

(** ** One record at a time *)

Lemma emit_calls_driver_once
      (smp_processor_id : Z) (is_extended : bool)
      (rd : N -> bool -> bool -> option printk_message)
      (write_atomic write_thread : option write_callback)
      (wctxt : nbcon_write_context) (use_atomic : bool) (w : world) :
  returns (nbcon_emit_next_record smp_processor_id is_extended rd
                                  write_atomic write_thread
                                  wctxt use_atomic) w
          (fun _ w' =>
             driver_calls w' = driver_calls w \/
             exists t completed,
               driver_calls w' =
               driver_calls w ++ [mkCall use_atomic t completed]).
Proof.
  set (l := driver_calls w).
  assert (HD : handed_to_driver l w) by reflexivity.
  pose proof (respected_handed_to_driver l) as HR.
  unfold nbcon_emit_next_record, nbcon_context_enter_unsafe,
    nbcon_context_exit_unsafe.
  apply returns_bind.
  eapply returns_weaken;
    [apply (update_unsafe_returns_ctxt (handed_to_driver l)); assumption|].
  intros [ok c1] w1 (HD1 & _ & _).
  destruct ok; simpl.
  2:{ apply returns_ret. left. exact HD1. }
  destruct (rd (ctxt_seq c1) is_extended true) as [m|].
  2:{ apply returns_bind.
      eapply returns_weaken;
        [apply (update_unsafe_returns_ctxt (handed_to_driver l));
         assumption|].
      intros [ok c2] w2 (HD2 & _). apply returns_ret. left. exact HD2. }
  apply returns_bind, returns_gets.
  apply returns_bind.
  eapply returns_weaken.
  { apply (emit_mark_replay_returns (handed_to_driver l));
      [exact HR | intros w0 n H; exact H | exact HD1]. }
  intros [[ok c2] m2] w2 (HD2 & _).
  destruct ok; simpl.
  2:{ apply returns_ret. left. exact HD2. }
  apply returns_bind.
  eapply returns_weaken;
    [apply (update_unsafe_returns_ctxt (handed_to_driver l)); assumption|].
  intros [ok c3] w3 (HD3 & _).
  destruct ok; simpl.
  2:{ apply returns_ret. left. exact HD3. }
  destruct (outbuf_len m2 =? 0)%N.
  { eapply returns_weaken;
      [apply (emit_update_con_keeps_log l); exact HD3|].
    intros r w' H. left. exact H. }
  apply returns_bind.
  eapply returns_weaken;
    [apply (returns_nbcon_state_read (handed_to_driver l));
     [apply HR | exact HD3]|].
  intros cur w4 (HD4 & _).
  destruct (if use_atomic then write_atomic else write_thread) as [cb|].
  2:{ apply returns_bind.
      eapply returns_weaken;
        [apply (release_returns (handed_to_driver l)); assumption|].
      intros c5 w5 (HD5 & _). apply returns_ret. left. exact HD5. }
  apply returns_bind.
  eapply returns_eq; [apply call_driver_eq|]. simpl outbuf.
  set (wc' := fst (cb _ (con_nbcon_state w4))).
  set (l' := l ++ [mkCall use_atomic (pmsg_outbuf m2)
                          match outbuf wc' with
                          | Some _ => true
                          | None => false
                          end]).
  match goal with |- returns _ ?w5 _ => assert (HD5 : handed_to_driver l' w5)
  end.
  { unfold handed_to_driver, l'. simpl. rewrite HD4. reflexivity. }
  pose proof (respected_handed_to_driver l') as HR'.
  destruct (outbuf wc').
  - eapply returns_weaken;
      [apply (emit_update_con_keeps_log l'); exact HD5|].
    intros r w' H. right. eexists. eexists. exact H.
  - apply returns_bind.
    eapply returns_weaken;
      [apply (release_returns (handed_to_driver l')); assumption|].
    intros c5 w6 (HD6 & _). apply returns_ret. right.
    eexists. eexists. exact HD6.
Qed.

Lemma emit_one_returns
      (smp_processor_id : Z) (is_extended : bool)
      (rd : N -> bool -> bool -> option printk_message)
      (write_atomic write_thread : option write_callback)
      (wctxt : nbcon_write_context) (use_atomic : bool) (w : world) :
  callback_keeps_context write_atomic ->
  callback_keeps_context write_thread ->
  returns (nbcon_emit_one smp_processor_id is_extended rd write_atomic
                          write_thread wctxt use_atomic) w
          (fun r w' =>
             (driver_calls w' = driver_calls w \/
              exists t completed,
                driver_calls w' =
                driver_calls w ++ [mkCall use_atomic t completed]) /\
             (fst r = true ->
              backlog (ctxt (snd r)) = true /\
              pbufs (ctxt (snd r)) = PBUFS_NULL /\
              (ctxt_prio (ctxt wctxt) <> NBCON_PRIO_NONE ->
               nbcon_owner_matches (con_nbcon_state w') smp_processor_id
                                   (ctxt_prio (ctxt wctxt)) = false))).
Proof.
  intros Hwa Hwt.
  set (l := driver_calls w).
  assert (HD : handed_to_driver l w) by reflexivity.
  pose proof (respected_handed_to_driver l) as HR.
  unfold nbcon_emit_one.
  apply returns_bind.
  eapply returns_weaken;
    [apply (try_acquire_returns (handed_to_driver l)); assumption|].
  intros [ok c1] w1 (HD1 & Hf & Ht). cbn [fst snd] in Hf, Ht.
  destruct ok; cbn [negb].
  2:{ apply returns_ret. split; [left; exact HD1|].
      cbn [fst]. discriminate. }
  destruct (Ht eq_refl) as (pb & Hc1). clear Hf Ht.
  assert (Hp1 : ctxt_prio c1 = ctxt_prio (ctxt wctxt)).
  { rewrite Hc1. reflexivity. }
  apply returns_bind.
  eapply returns_weaken.
  { apply returns_and.
    - apply emit_calls_driver_once.
    - apply (emit_next_record_returns
               (fun _ => True) (fun _ => True) (fun _ _ => True));
        [exact emitter_respected_True | exact emitter_respected_True
         | exact Hwa | exact Hwt | | exact Logic.I].
      intros m c' w0 _ _ _.
      eapply returns_weaken.
      + apply (seq_try_update_blind (fun _ => True));
          [apply stable_True | intros; exact Logic.I | exact Logic.I].
      + intros c'' w2 [_ H]. repeat split. exact H. }
  intros [ok wc2] w2 [Hlog (Hp2 & Hout)]. cbn [fst snd] in Hp2, Hout.
  cbn [ctxt set_ctxt] in Hp2.
  assert (Hlog2 :
            driver_calls w2 = l \/
            exists t completed,
              driver_calls w2 = l ++ [mkCall use_atomic t completed]).
  { unfold handed_to_driver in HD1. rewrite HD1 in Hlog. exact Hlog. }
  destruct ok; cbn [negb].
  2:{ apply returns_ret. split; [exact Hlog2|]. cbn [fst]. discriminate. }
  apply returns_bind.
  eapply returns_weaken.
  { apply (release_returns (handed_to_driver (driver_calls w2)));
      [apply respected_handed_to_driver | reflexivity]. }
  intros c3 w3 (HD3 & Hc3 & Hrel). apply returns_ret.
  unfold handed_to_driver in HD3. rewrite HD3.
  split; [exact Hlog2|]. cbn [fst snd ctxt set_ctxt].
  rewrite Hc3. cbn [backlog pbufs set_pbufs]. intros Hb.
  split; [exact Hb|]. split; [reflexivity|].
  intros Hn. rewrite <- Hp1, <- Hp2. apply Hrel.
  rewrite Hp2, Hp1. exact Hn.
Qed.

(** X14.  Printing one record from a legacy context.  Under any
    interference nbcon_emit_one returns, having run the driver at most
    once and only through the callback asked for; when it answers true,
    a record was emitted, the context has given its buffers back and the
    console is no longer owned by this CPU at the priority of the context.
    nbcon_legacy_emit_next_record does the same at the default priority
    of the CPU, and when the thread callback is asked for it reports that
    no printk waiter took over. *)
Theorem legacy_emit_prints_at_most_one_record
        (smp_processor_id : Z) (is_extended : bool)
        (rd : N -> bool -> bool -> option printk_message)
        (write_atomic write_thread : option write_callback)
        (cpu_emergency_nesting : Z) (spinning_answer : bool)
        (wctxt : nbcon_write_context) (use_atomic : bool) (w : world) :
  callback_keeps_context write_atomic ->
  callback_keeps_context write_thread ->
  returns (nbcon_emit_one smp_processor_id is_extended rd write_atomic
                          write_thread wctxt use_atomic) w
          (fun r w' =>
             (driver_calls w' = driver_calls w \/
              exists t completed,
                driver_calls w' =
                driver_calls w ++ [mkCall use_atomic t completed]) /\
             (fst r = true ->
              backlog (ctxt (snd r)) = true /\
              pbufs (ctxt (snd r)) = PBUFS_NULL /\
              (ctxt_prio (ctxt wctxt) <> NBCON_PRIO_NONE ->
               nbcon_owner_matches (con_nbcon_state w') smp_processor_id
                                   (ctxt_prio (ctxt wctxt)) = false))) /\
  returns (nbcon_legacy_emit_next_record
             smp_processor_id is_extended rd write_atomic write_thread
             cpu_emergency_nesting spinning_answer use_atomic) w
          (fun r w' =>
             (use_atomic = false -> snd r = false) /\
             (driver_calls w' = driver_calls w \/
              exists t completed,
                driver_calls w' =
                driver_calls w ++ [mkCall use_atomic t completed]) /\
             (fst r = true ->
              forall p,
                nbcon_get_default_prio
                  smp_processor_id cpu_emergency_nesting w = Some (p, w) ->
                nbcon_owner_matches (con_nbcon_state w')
                                    smp_processor_id p = false)).
Proof.
  intros Hwa Hwt. split; [apply emit_one_returns; assumption|].
  unfold nbcon_legacy_emit_next_record.
  destruct (default_prio_not_none smp_processor_id cpu_emergency_nesting w)
    as (p & Hdp & Hpn).
  assert (Hone :
            returns (nbcon_emit_one
                       smp_processor_id is_extended rd write_atomic
                       write_thread
                       (set_ctxt nbcon_write_context_zero
                                 (set_ctxt_prio
                                    (ctxt nbcon_write_context_zero) p))
                       use_atomic) w
                    (fun r w' =>
                       (driver_calls w' = driver_calls w \/
                        exists t completed,
                          driver_calls w' =
                          driver_calls w ++
                          [mkCall use_atomic t completed]) /\
                       (fst r = true ->
                        nbcon_owner_matches (con_nbcon_state w')
                                            smp_processor_id p = false))).
  { eapply returns_weaken; [apply emit_one_returns; assumption|].
    intros r w' [Hl Ht]. split; [exact Hl|].
    intros Hr. destruct (Ht Hr) as (_ & _ & Ho). apply Ho. exact Hpn. }
  assert (Hfin :
            forall (r : bool * nbcon_write_context) w',
              (fst r = true ->
               nbcon_owner_matches (con_nbcon_state w')
                                   smp_processor_id p = false) ->
              fst r = true ->
              forall p0,
                nbcon_get_default_prio
                  smp_processor_id cpu_emergency_nesting w =
                Some (p0, w) ->
                nbcon_owner_matches (con_nbcon_state w')
                                    smp_processor_id p0 = false).
  { intros r w' Ho Hr p0 Hp0. rewrite Hdp in Hp0.
    injection Hp0 as <-. exact (Ho Hr). }
  destruct use_atomic.
  - apply returns_bind. eapply returns_eq; [exact Hdp|].
    apply returns_bind.
    eapply returns_weaken; [exact Hone|].
    intros [progress wc] w' [Hl Ho]. apply returns_ret.
    cbn [fst snd]. split; [discriminate|]. split; [exact Hl|].
    apply (Hfin (progress, wc) w' Ho).
  - apply returns_bind. eapply returns_eq; [exact Hdp|].
    apply returns_bind.
    eapply returns_weaken; [exact Hone|].
    intros [progress wc] w' [Hl Ho]. apply returns_ret.
    cbn [fst snd]. split; [reflexivity|]. split; [exact Hl|].
    apply (Hfin (progress, wc) w' Ho).
Qed.

Lemma legacy_emit_prints_at_most_one_record_witness :
  callback_keeps_context (Some plain_driver) /\
  callback_keeps_context None /\
  returns (nbcon_legacy_emit_next_record
             0 false reader_all (Some plain_driver) None 0 true false)
          (world_of nbcon_state_zero [])
          (fun r w' =>
             (false = false -> snd r = false) /\
             (driver_calls w' = [] \/
              exists t completed,
                driver_calls w' = [] ++ [mkCall false t completed]) /\
             (fst r = true ->
              forall p,
                nbcon_get_default_prio 0 0 (world_of nbcon_state_zero []) =
                Some (p, world_of nbcon_state_zero []) ->
                nbcon_owner_matches (con_nbcon_state w') 0 p = false)).
Proof.
  split; [exact plain_driver_keeps_context|].
  split; [exact no_callback_keeps_context|].
  exact (proj2 (legacy_emit_prints_at_most_one_record
                  0 false reader_all (Some plain_driver) None 0 true
                  printer_wctxt false (world_of nbcon_state_zero [])
                  plain_driver_keeps_context no_callback_keeps_context)).
Defined.

(** ** Flushing until nothing is left *)

Lemma flushed_calls_app
      (rd : N -> bool -> bool -> option printk_message) (is_extended : bool)
      (a b : nat) (s : N) :
  flushed_calls rd is_extended (a + b) s =
  flushed_calls rd is_extended a s ++
  flushed_calls rd is_extended b (s + N.of_nat a).
Proof.
  revert s. induction a as [|a IH]; intros s.
  - simpl. rewrite N.add_0_r. reflexivity.
  - cbn [flushed_calls Nat.add]. rewrite IH, <- app_assoc.
    do 3 f_equal. lia.
Qed.

Lemma flush_ready
      (smp_processor_id : Z) (is_extended : bool)
      (rd : N -> bool -> bool -> option printk_message)
      (cb : write_callback) (write_thread : option write_callback)
      (cpu_emergency_nesting : Z) (stop_seq : N) (allow : bool)
      (w : world) :
  ready_to_flush smp_processor_id w ->
  transparent_driver smp_processor_id cb ->
  (stop_seq <= u64_max)%N ->
  records_in_order rd is_extended (con_nbcon_seq w) stop_seq ->
  __nbcon_atomic_flush_pending_con
    smp_processor_id is_extended rd (Some cb) write_thread
    cpu_emergency_nesting stop_seq allow w =
  Some (0, flushed smp_processor_id rd is_extended stop_seq w).
Proof.
  intros (Hq & Hpe & Hp & Hr & Hu & Ht & Hd & Hprev) Hdrv Hmax Hrec.
  apply flush_quiet; assumption.
Qed.

Lemma flushed_ready
      (smp_processor_id : Z)
      (rd : N -> bool -> bool -> option printk_message)
      (is_extended : bool) (stop_seq : N) (w : world) :
  ready_to_flush smp_processor_id w ->
  ready_to_flush smp_processor_id
                 (flushed smp_processor_id rd is_extended stop_seq w).
Proof.
  intros (Hq & Hpe & Hp & Hr & Hu & Ht & Hd & Hprev).
  unfold ready_to_flush, flushed, quiet, panic_elsewhere in *.
  cbn [sched panic_cpu con_nbcon_state con_dropped con_nbcon_prev_seq
       con_nbcon_seq prio req_prio unsafe unsafe_takeover].
  repeat split; try assumption.
  destruct (con_nbcon_seq w <? stop_seq)%N eqn:E.
  - apply N.ltb_lt in E. lia.
  - apply N.ltb_ge in E. lia.
Qed.

Lemma flushed_twice
      (smp_processor_id : Z)
      (rd : N -> bool -> bool -> option printk_message)
      (is_extended : bool) (stop_seq next : N) (w : world) :
  (N.max (con_nbcon_seq w) stop_seq < next)%N ->
  flushed smp_processor_id rd is_extended next
          (flushed smp_processor_id rd is_extended stop_seq w) =
  flushed smp_processor_id rd is_extended next w.
Proof.
  intros Hlt. unfold flushed.
  cbn [sched panic_cpu con_nbcon_state con_dropped con_nbcon_prev_seq
       con_nbcon_seq driver_calls].
  assert (E1 : (N.max (con_nbcon_seq w) stop_seq <? next)%N = true)
    by (apply N.ltb_lt; lia).
  assert (E2 : (con_nbcon_seq w <? next)%N = true)
    by (apply N.ltb_lt; lia).
  rewrite E1, E2. rewrite <- app_assoc. f_equal; try lia. f_equal.
  replace (N.to_nat (next - con_nbcon_seq w))
    with (N.to_nat (stop_seq - con_nbcon_seq w) +
          N.to_nat (next - N.max (con_nbcon_seq w) stop_seq))%nat by lia.
  rewrite flushed_calls_app. do 2 f_equal. lia.
Qed.

Lemma flush_pending_con_S
      (smp_processor_id : Z) (is_extended : bool)
      (rd : N -> bool -> bool -> option printk_message)
      (write_atomic write_thread : option write_callback)
      (cpu_emergency_nesting : Z) (prb_read_valid : N -> bool)
      (prb_next_reserve_seq : N)
      (con_kthread system_state_after_running : bool)
      (fuel : nat) (stop_seq : N) (allow : bool) :
  nbcon_atomic_flush_pending_con
    smp_processor_id is_extended rd write_atomic write_thread
    cpu_emergency_nesting prb_read_valid prb_next_reserve_seq
    con_kthread system_state_after_running (S fuel) stop_seq allow =
  (err <- __nbcon_atomic_flush_pending_con
            smp_processor_id is_extended rd write_atomic write_thread
            cpu_emergency_nesting stop_seq allow ;;
   if negb (err =? 0) then ret tt
   else if negb con_kthread || system_state_after_running
        then
          s <- nbcon_seq_read ;;
          if prb_read_valid s
          then nbcon_atomic_flush_pending_con
                 smp_processor_id is_extended rd write_atomic write_thread
                 cpu_emergency_nesting prb_read_valid prb_next_reserve_seq
                 con_kthread system_state_after_running
                 fuel prb_next_reserve_seq allow
          else ret tt
        else ret tt)%nbcon.
Proof. reflexivity. Qed.

Lemma flush_pending_con_round
      (smp_processor_id : Z) (is_extended : bool)
      (rd : N -> bool -> bool -> option printk_message)
      (write_atomic write_thread : option write_callback)
      (cpu_emergency_nesting : Z) (prb_read_valid : N -> bool)
      (prb_next_reserve_seq : N)
      (con_kthread system_state_after_running : bool)
      (fuel : nat) (stop_seq : N) (allow : bool) (w w1 : world) :
  __nbcon_atomic_flush_pending_con
    smp_processor_id is_extended rd write_atomic write_thread
    cpu_emergency_nesting stop_seq allow w = Some (0, w1) ->
  quiet w1 ->
  nbcon_atomic_flush_pending_con
    smp_processor_id is_extended rd write_atomic write_thread
    cpu_emergency_nesting prb_read_valid prb_next_reserve_seq
    con_kthread system_state_after_running (S fuel) stop_seq allow w =
  if (negb con_kthread || system_state_after_running) &&
     prb_read_valid (con_nbcon_seq w1)
  then nbcon_atomic_flush_pending_con
         smp_processor_id is_extended rd write_atomic write_thread
         cpu_emergency_nesting prb_read_valid prb_next_reserve_seq
         con_kthread system_state_after_running
         fuel prb_next_reserve_seq allow w1
  else Some (tt, w1).
Proof.
  intros Hflush Hq1.
  rewrite flush_pending_con_S.
  rewrite (bind_eq _ _ _ _ _ Hflush).
  change (negb (0 =? 0)) with false. cbv beta iota.
  destruct (negb con_kthread || system_state_after_running);
    [|reflexivity].
  rewrite (bind_eq _ _ _ _ _ (nbcon_seq_read_quiet w1 Hq1)).
  cbn [andb].
  destruct (prb_read_valid (con_nbcon_seq w1)); reflexivity.
Qed.

(** X15.  Flushing until nothing is left, without interference.  On a free
    console nbcon_atomic_flush_pending_con prints the records up to
    stop_seq and releases the console.  If the printer thread is not
    available (none exists, or the system is past SYSTEM_RUNNING) and the
    ring buffer holds a record at the new cursor, it goes round once more
    and prints up to the head of the ring buffer; otherwise it stops at
    stop_seq.  Two rounds always suffice, and the outcome is the same as
    that of one flush up to the final cursor. *)
Theorem flush_pending_con_prints_late_records
        (smp_processor_id : Z) (is_extended : bool)
        (rd : N -> bool -> bool -> option printk_message)
        (cb : write_callback) (write_thread : option write_callback)
        (cpu_emergency_nesting : Z) (prb_read_valid : N -> bool)
        (prb_next_reserve_seq : N)
        (con_kthread system_state_after_running : bool)
        (fuel : nat) (stop_seq : N) (allow : bool) (w : world) :
  ready_to_flush smp_processor_id w ->
  transparent_driver smp_processor_id cb ->
  (stop_seq <= prb_next_reserve_seq <= u64_max)%N ->
  records_in_order rd is_extended (con_nbcon_seq w) prb_next_reserve_seq ->
  (forall s, prb_read_valid s = true -> (s < prb_next_reserve_seq)%N) ->
  nbcon_atomic_flush_pending_con
    smp_processor_id is_extended rd (Some cb) write_thread
    cpu_emergency_nesting prb_read_valid prb_next_reserve_seq
    con_kthread system_state_after_running (S (S fuel)) stop_seq allow w =
  Some (tt,
        flushed smp_processor_id rd is_extended
                (if (negb con_kthread || system_state_after_running) &&
                    prb_read_valid (N.max (con_nbcon_seq w) stop_seq)
                 then prb_next_reserve_seq else stop_seq)
                w).
Proof.
  intros Hready Hdrv [Hstop Hmax] Hrec Hvalid.
  assert (Hrec1 : records_in_order rd is_extended (con_nbcon_seq w) stop_seq).
  { intros s Hs. apply Hrec. lia. }
  rewrite (flush_pending_con_round
             smp_processor_id is_extended rd (Some cb) write_thread
             cpu_emergency_nesting prb_read_valid prb_next_reserve_seq
             con_kthread system_state_after_running (S fuel) stop_seq allow
             w (flushed smp_processor_id rd is_extended stop_seq w)
             (flush_ready smp_processor_id is_extended rd cb write_thread
                          cpu_emergency_nesting stop_seq allow w
                          Hready Hdrv (N.le_trans _ _ _ Hstop Hmax) Hrec1)
             eq_refl).
  change (con_nbcon_seq
            (flushed smp_processor_id rd is_extended stop_seq w))
    with (N.max (con_nbcon_seq w) stop_seq).
  destruct ((negb con_kthread || system_state_after_running) &&
            prb_read_valid (N.max (con_nbcon_seq w) stop_seq)) eqn:E;
    [|reflexivity].
  apply andb_prop in E. destruct E as [Ek Ev].
  pose proof (Hvalid _ Ev) as Hlt.
  set (w1 := flushed smp_processor_id rd is_extended stop_seq w).
  assert (Hseq1 : con_nbcon_seq w1 = N.max (con_nbcon_seq w) stop_seq)
    by reflexivity.
  assert (Hrec2 : records_in_order rd is_extended (con_nbcon_seq w1)
                                   prb_next_reserve_seq).
  { intros s Hs. apply Hrec. rewrite Hseq1 in Hs. lia. }
  rewrite (flush_pending_con_round
             smp_processor_id is_extended rd (Some cb) write_thread
             cpu_emergency_nesting prb_read_valid prb_next_reserve_seq
             con_kthread system_state_after_running fuel
             prb_next_reserve_seq allow w1
             (flushed smp_processor_id rd is_extended
                      prb_next_reserve_seq w1)
             (flush_ready smp_processor_id is_extended rd cb write_thread
                          cpu_emergency_nesting prb_next_reserve_seq allow
                          w1
                          (flushed_ready smp_processor_id rd is_extended
                                         stop_seq w Hready)
                          Hdrv Hmax Hrec2)
             eq_refl).
  change (con_nbcon_seq
            (flushed smp_processor_id rd is_extended
                     prb_next_reserve_seq w1))
    with (N.max (con_nbcon_seq w1) prb_next_reserve_seq).
  rewrite Hseq1.
  replace (N.max (N.max (con_nbcon_seq w) stop_seq) prb_next_reserve_seq)
    with prb_next_reserve_seq by lia.
  destruct (prb_read_valid prb_next_reserve_seq) eqn:Ev2.
  { apply Hvalid in Ev2. lia. }
  rewrite andb_false_r. unfold w1.
  rewrite (flushed_twice smp_processor_id rd is_extended stop_seq
                         prb_next_reserve_seq w Hlt).
  reflexivity.
Qed.

Lemma flush_pending_con_prints_late_records_witness :
  ready_to_flush 0 (world_of nbcon_state_zero []) /\
  transparent_driver 0 plain_driver /\
  (6 <= 8 <= u64_max)%N /\
  records_in_order reader_all false
                   (con_nbcon_seq (world_of nbcon_state_zero [])) 8 /\
  (forall s, (s <? 8)%N = true -> (s < 8)%N) /\
  nbcon_atomic_flush_pending_con
    0 false reader_all (Some plain_driver) None 0 (fun s => (s <? 8)%N) 8
    false false 2 6 false (world_of nbcon_state_zero []) =
  Some (tt,
        mkWorld nbcon_state_zero 8 7 0 PANIC_CPU_INVALID []
                [mkCall true "hello" true; mkCall true "hello" true;
                 mkCall true "hello" true]).
Proof.
  assert (Hready : ready_to_flush 0 (world_of nbcon_state_zero [])).
  { repeat split. discriminate. }
  assert (Hdrv : transparent_driver 0 plain_driver).
  { intros wc p. reflexivity. }
  assert (Hb : (6 <= 8 <= u64_max)%N).
  { split; discriminate. }
  assert (Hrec : records_in_order
                   reader_all false
                   (con_nbcon_seq (world_of nbcon_state_zero [])) 8).
  { intros s Hs. exists (mkPmsg "hello" s 0). unfold reader_all.
    assert (E : (s <? 8)%N = true) by (apply N.ltb_lt; lia).
    rewrite E. repeat split. }
  assert (Hvalid : forall s, (s <? 8)%N = true -> (s < 8)%N).
  { intros s. apply N.ltb_lt. }
  repeat (split; [assumption|]).
  exact (flush_pending_con_prints_late_records
           0 false reader_all plain_driver None 0 (fun s => (s <? 8)%N) 8
           false false 0 6 false (world_of nbcon_state_zero [])
           Hready Hdrv Hb Hrec Hvalid).
Defined.

Lemma atomic_flush_pending_at
      (smp_processor_id : Z) (is_extended : bool)
      (rd : N -> bool -> bool -> option printk_message)
      (cb : write_callback) (write_thread : option write_callback)
      (cpu_emergency_nesting : Z) (prb_read_valid : N -> bool)
      (prb_next_reserve_seq : N)
      (con_kthread system_state_after_running con_flags_nbcon : bool)
      (console_is_usable : bool -> bool)
      (fuel : nat) (allow : bool) (p : nbcon_prio) (w : world) :
  nbcon_get_default_prio smp_processor_id cpu_emergency_nesting w =
  Some (p, w) ->
  ready_to_flush_at p smp_processor_id w ->
  transparent_driver smp_processor_id cb ->
  (prb_next_reserve_seq <= u64_max)%N ->
  records_in_order rd is_extended (con_nbcon_seq w) prb_next_reserve_seq ->
  (forall s, prb_read_valid s = true -> (s < prb_next_reserve_seq)%N) ->
  __nbcon_atomic_flush_pending
    smp_processor_id is_extended rd (Some cb) write_thread
    cpu_emergency_nesting prb_read_valid prb_next_reserve_seq
    con_kthread system_state_after_running con_flags_nbcon
    console_is_usable (S fuel) prb_next_reserve_seq allow w =
  Some (tt,
        if con_flags_nbcon && console_is_usable true &&
           (con_nbcon_seq w <? prb_next_reserve_seq)%N
        then flushed smp_processor_id rd is_extended
                     prb_next_reserve_seq w
        else w).
Proof.
  intros Hdp Hready Hdrv Hmax Hrec Hvalid.
  pose proof Hready as (Hq & _).
  unfold __nbcon_atomic_flush_pending.
  destruct con_flags_nbcon; [|reflexivity].
  destruct (console_is_usable true); [|reflexivity].
  cbn [negb andb].
  rewrite (bind_eq _ _ _ _ _ (nbcon_seq_read_quiet w Hq)).
  rewrite N.leb_antisym.
  destruct (con_nbcon_seq w <? prb_next_reserve_seq)%N eqn:E;
    [|reflexivity].
  cbn [negb]. apply N.ltb_lt in E.
  rewrite (flush_pending_con_round
             smp_processor_id is_extended rd (Some cb) write_thread
             cpu_emergency_nesting prb_read_valid prb_next_reserve_seq
             con_kthread system_state_after_running fuel
             prb_next_reserve_seq allow w
             (flushed smp_processor_id rd is_extended
                      prb_next_reserve_seq w)
             (flush_quiet_lower
                smp_processor_id is_extended rd cb write_thread
                cpu_emergency_nesting prb_next_reserve_seq allow p w
                Hdp Hready Hdrv Hmax Hrec)
             eq_refl).
  change (con_nbcon_seq
            (flushed smp_processor_id rd is_extended
                     prb_next_reserve_seq w))
    with (N.max (con_nbcon_seq w) prb_next_reserve_seq).
  replace (N.max (con_nbcon_seq w) prb_next_reserve_seq)
    with prb_next_reserve_seq by lia.
  destruct (prb_read_valid prb_next_reserve_seq) eqn:Ev.
  { apply Hvalid in Ev. lia. }
  rewrite andb_false_r. reflexivity.
Qed.

(** X16.  The exported flush entry points, without interference.
    nbcon_atomic_flush_pending and nbcon_atomic_flush_unsafe leave a
    console alone that is not an nbcon console, is not usable, or has
    already printed everything up to the head of the ring buffer: they do
    not even acquire it.  Otherwise both print exactly the records from
    the cursor to the head, in one round, and release the console; the
    permission to take over by force makes no difference on a free
    console. *)
Theorem atomic_flush_pending_prints_the_backlog
        (smp_processor_id : Z) (is_extended : bool)
        (rd : N -> bool -> bool -> option printk_message)
        (cb : write_callback) (write_thread : option write_callback)
        (cpu_emergency_nesting : Z) (prb_read_valid : N -> bool)
        (prb_next_reserve_seq : N)
        (con_kthread system_state_after_running con_flags_nbcon : bool)
        (console_is_usable : bool -> bool)
        (fuel : nat) (w : world) :
  ready_to_flush smp_processor_id w ->
  transparent_driver smp_processor_id cb ->
  (prb_next_reserve_seq <= u64_max)%N ->
  records_in_order rd is_extended (con_nbcon_seq w) prb_next_reserve_seq ->
  (forall s, prb_read_valid s = true -> (s < prb_next_reserve_seq)%N) ->
  nbcon_atomic_flush_pending
    smp_processor_id is_extended rd (Some cb) write_thread
    cpu_emergency_nesting prb_read_valid prb_next_reserve_seq
    con_kthread system_state_after_running con_flags_nbcon
    console_is_usable (S fuel) w =
  Some (tt,
        if con_flags_nbcon && console_is_usable true &&
           (con_nbcon_seq w <? prb_next_reserve_seq)%N
        then flushed smp_processor_id rd is_extended
                     prb_next_reserve_seq w
        else w) /\
  nbcon_atomic_flush_unsafe
    smp_processor_id is_extended rd (Some cb) write_thread
    cpu_emergency_nesting prb_read_valid prb_next_reserve_seq
    con_kthread system_state_after_running con_flags_nbcon
    console_is_usable (S fuel) w =
  nbcon_atomic_flush_pending
    smp_processor_id is_extended rd (Some cb) write_thread
    cpu_emergency_nesting prb_read_valid prb_next_reserve_seq
    con_kthread system_state_after_running con_flags_nbcon
    console_is_usable (S fuel) w.
Proof.
  intros Hready Hdrv Hmax Hrec Hvalid.
  destruct (default_prio_not_none smp_processor_id cpu_emergency_nesting w)
    as (p & Hdp & Hpn).
  pose proof (ready_to_flush_any p smp_processor_id w Hready Hpn) as Hat.
  unfold nbcon_atomic_flush_unsafe, nbcon_atomic_flush_pending.
  rewrite (atomic_flush_pending_at
             smp_processor_id is_extended rd cb write_thread
             cpu_emergency_nesting prb_read_valid prb_next_reserve_seq
             con_kthread system_state_after_running con_flags_nbcon
             console_is_usable fuel true p w
             Hdp Hat Hdrv Hmax Hrec Hvalid).
  rewrite (atomic_flush_pending_at
             smp_processor_id is_extended rd cb write_thread
             cpu_emergency_nesting prb_read_valid prb_next_reserve_seq
             con_kthread system_state_after_running con_flags_nbcon
             console_is_usable fuel false p w
             Hdp Hat Hdrv Hmax Hrec Hvalid).
  split; reflexivity.
Qed.

Lemma atomic_flush_pending_prints_the_backlog_witness :
  ready_to_flush 0 (world_of nbcon_state_zero []) /\
  transparent_driver 0 plain_driver /\
  (8 <= u64_max)%N /\
  records_in_order reader_all false
                   (con_nbcon_seq (world_of nbcon_state_zero [])) 8 /\
  (forall s, (s <? 8)%N = true -> (s < 8)%N) /\
  nbcon_atomic_flush_pending
    0 false reader_all (Some plain_driver) None 0 (fun s => (s <? 8)%N) 8
    true false true (fun _ => true) 1 (world_of nbcon_state_zero []) =
  Some (tt,
        mkWorld nbcon_state_zero 8 7 0 PANIC_CPU_INVALID []
                [mkCall true "hello" true; mkCall true "hello" true;
                 mkCall true "hello" true]).
Proof.
  assert (Hready : ready_to_flush 0 (world_of nbcon_state_zero [])).
  { repeat split. discriminate. }
  assert (Hdrv : transparent_driver 0 plain_driver).
  { intros wc p. reflexivity. }
  assert (Hb : (8 <= u64_max)%N) by discriminate.
  assert (Hrec : records_in_order
                   reader_all false
                   (con_nbcon_seq (world_of nbcon_state_zero [])) 8).
  { intros s Hs. exists (mkPmsg "hello" s 0). unfold reader_all.
    assert (E : (s <? 8)%N = true) by (apply N.ltb_lt; lia).
    rewrite E. repeat split. }
  assert (Hvalid : forall s, (s <? 8)%N = true -> (s < 8)%N).
  { intros s. apply N.ltb_lt. }
  repeat (split; [assumption|]).
  exact (proj1 (atomic_flush_pending_prints_the_backlog
                  0 false reader_all plain_driver None 0
                  (fun s => (s <? 8)%N) 8 true false true (fun _ => true)
                  0 (world_of nbcon_state_zero [])
                  Hready Hdrv Hb Hrec Hvalid)).
Defined.

(** ** The driver's own use of the console *)

(** X17.  A driver's non-printing use of the console, without
    interference.  On a free console nbcon_device_try_acquire succeeds and
    leaves the console owned by this CPU at NORMAL priority inside an
    unsafe section.  nbcon_device_release then leaves the section and
    frees the console; if the console is usable, the printer thread is not
    available and the ring buffer holds a record at the cursor, it also
    prints the records up to the head of the ring buffer before it
    returns, and otherwise it prints nothing. *)
Theorem device_acquire_release_round_trip
        (smp_processor_id : Z) (is_extended : bool)
        (rd : N -> bool -> bool -> option printk_message)
        (cb : write_callback) (write_thread : option write_callback)
        (cpu_emergency_nesting : Z) (prb_read_valid : N -> bool)
        (prb_next_reserve_seq : N)
        (con_kthread system_state_after_running : bool)
        (console_is_usable : bool -> bool) (w : world) :
  ready_to_flush smp_processor_id w ->
  transparent_driver smp_processor_id cb ->
  (prb_next_reserve_seq <= u64_max)%N ->
  records_in_order rd is_extended (con_nbcon_seq w) prb_next_reserve_seq ->
  exists c,
    ctxt_prio c = NBCON_PRIO_NORMAL /\
    nbcon_device_try_acquire smp_processor_id w =
    Some ((true, c),
          set_nbcon_state
            (mkState NBCON_PRIO_NORMAL NBCON_PRIO_NONE true false
                     smp_processor_id) w) /\
    nbcon_device_release
      smp_processor_id is_extended rd (Some cb) write_thread
      cpu_emergency_nesting prb_read_valid prb_next_reserve_seq
      con_kthread system_state_after_running console_is_usable c
      (set_nbcon_state
         (mkState NBCON_PRIO_NORMAL NBCON_PRIO_NONE true false
                  smp_processor_id) w) =
    Some (set_pbufs c PBUFS_NULL,
          if console_is_usable true &&
             (negb con_kthread || system_state_after_running) &&
             prb_read_valid (con_nbcon_seq w)
          then flushed smp_processor_id rd is_extended
                       prb_next_reserve_seq w
          else set_nbcon_state
                 (mkState NBCON_PRIO_NONE NBCON_PRIO_NONE false false
                          smp_processor_id) w).
Proof.
  intros Hready Hdrv Hmax Hrec.
  pose proof Hready as (Hq & Hpe & Hp & Hr & Hu & Ht & Hd & Hprev).
  set (c := set_ctxt_seq
              (set_pbufs device_ctxt
                         (if panic_cpu w =? smp_processor_id
                          then PBUFS_PANIC else PBUFS_CONSOLE))
              (con_nbcon_seq w)).
  set (held := mkState NBCON_PRIO_NORMAL NBCON_PRIO_NONE true false
                       smp_processor_id).
  exists c. split; [reflexivity|].
  assert (Hacq :
            nbcon_context_try_acquire smp_processor_id device_ctxt w =
            Some ((true, c),
                  set_nbcon_state
                    (mkState NBCON_PRIO_NORMAL NBCON_PRIO_NONE false false
                             smp_processor_id) w)).
  { rewrite (try_acquire_quiet_free smp_processor_id device_ctxt w Hq Hpe);
      [| rewrite Hp; simpl; lia | rewrite Hr; simpl; lia | exact Hu].
    unfold acquire_new. rewrite Ht. reflexivity. }
  split.
  - unfold nbcon_device_try_acquire.
    change (set_ctxt_prio nbcon_context_zero NBCON_PRIO_NORMAL)
      with device_ctxt.
    rewrite (bind_eq _ _ _ _ _ Hacq). cbv beta iota. cbn [negb].
    unfold nbcon_context_enter_unsafe.
    rewrite (bind_eq _ _ _ _ _
               (update_unsafe_owner_quiet
                  smp_processor_id c true
                  (set_nbcon_state
                     (mkState NBCON_PRIO_NORMAL NBCON_PRIO_NONE false false
                              smp_processor_id) w)
                  Hq eq_refl eq_refl eq_refl eq_refl)).
    reflexivity.
  - unfold nbcon_device_release, nbcon_context_exit_unsafe.
    rewrite (bind_eq _ _ _ _ _
               (update_unsafe_owner_quiet
                  smp_processor_id c false (set_nbcon_state held w)
                  Hq eq_refl eq_refl eq_refl eq_refl)).
    cbv beta iota. cbn [negb].
    rewrite (bind_eq _ _ _ _ _
               (release_quiet
                  smp_processor_id c
                  (set_nbcon_state
                     (set_unsafe
                        (con_nbcon_state (set_nbcon_state held w)) false)
                     (set_nbcon_state held w))
                  Hq)).
    cbn [con_nbcon_state set_nbcon_state set_unsafe held prio req_prio
         unsafe unsafe_takeover cpu].
    unfold nbcon_owner_matches.
    cbn [prio cpu ctxt_prio c set_ctxt_seq set_pbufs device_ctxt
         set_ctxt_prio nbcon_context_zero prio_eqb negb].
    rewrite Z.eqb_refl. cbn [negb]. unfold release_new.
    cbn [con_nbcon_state set_nbcon_state prio req_prio unsafe
         unsafe_takeover cpu orb].
    set (w2 := mkWorld
                 (mkState NBCON_PRIO_NONE NBCON_PRIO_NONE false false
                          smp_processor_id)
                 (con_nbcon_seq w) (con_nbcon_prev_seq w) (con_dropped w)
                 (panic_cpu w) (sched w) (driver_calls w)).
    assert (Hready2 : ready_to_flush smp_processor_id w2).
    { unfold ready_to_flush, quiet, panic_elsewhere in *. unfold w2.
      cbn. repeat split; assumption. }
    destruct (console_is_usable true); [|reflexivity].
    destruct (negb con_kthread || system_state_after_running);
      [|reflexivity].
    cbn [andb]. unfold bind at 1.
    rewrite (bind_eq _ _ _ _ _ (nbcon_seq_read_quiet w2 Hq)).
    change (con_nbcon_seq w2) with (con_nbcon_seq w).
    destruct (prb_read_valid (con_nbcon_seq w)); [|reflexivity].
    unfold bind at 1.
    rewrite (flush_ready smp_processor_id is_extended rd cb write_thread
                         cpu_emergency_nesting prb_next_reserve_seq false
                         w2 Hready2 Hdrv Hmax Hrec).
    reflexivity.
Qed.

Lemma device_acquire_release_round_trip_witness :
  ready_to_flush 0 (world_of nbcon_state_zero []) /\
  transparent_driver 0 plain_driver /\
  (8 <= u64_max)%N /\
  records_in_order reader_all false
                   (con_nbcon_seq (world_of nbcon_state_zero [])) 8 /\
  exists c,
    ctxt_prio c = NBCON_PRIO_NORMAL /\
    nbcon_device_try_acquire 0 (world_of nbcon_state_zero []) =
    Some ((true, c), world_of (mkState NBCON_PRIO_NORMAL NBCON_PRIO_NONE
                                       true false 0) []) /\
    nbcon_device_release
      0 false reader_all (Some plain_driver) None 0 (fun s => (s <? 8)%N) 8
      false false (fun _ => true) c
      (world_of (mkState NBCON_PRIO_NORMAL NBCON_PRIO_NONE true false 0) [])
    = Some (set_pbufs c PBUFS_NULL,
            mkWorld nbcon_state_zero 8 7 0 PANIC_CPU_INVALID []
                    [mkCall true "hello" true; mkCall true "hello" true;
                     mkCall true "hello" true]).
Proof.
  assert (Hready : ready_to_flush 0 (world_of nbcon_state_zero [])).
  { repeat split. discriminate. }
  assert (Hdrv : transparent_driver 0 plain_driver).
  { intros wc p. reflexivity. }
  assert (Hb : (8 <= u64_max)%N) by discriminate.
  assert (Hrec : records_in_order
                   reader_all false
                   (con_nbcon_seq (world_of nbcon_state_zero [])) 8).
  { intros s Hs. exists (mkPmsg "hello" s 0). unfold reader_all.
    assert (E : (s <? 8)%N = true) by (apply N.ltb_lt; lia).
    rewrite E. repeat split. }
  repeat (split; [assumption|]).
  exact (device_acquire_release_round_trip
           0 false reader_all plain_driver None 0 (fun s => (s <? 8)%N) 8
           false false (fun _ => true) (world_of nbcon_state_zero [])
           Hready Hdrv Hb Hrec).
Defined.

(** X18.  A driver never disturbs a busy console.  As long as the console
    has an owner, a waiter or is marked unsafe, now and in every state
    word other contexts store meanwhile, nbcon_device_try_acquire returns
    false and has stored nothing to the shared memory: it posts no
    handover request and takes nothing over. *)
Theorem device_try_acquire_leaves_busy_console
        (smp_processor_id : Z) (w : world) :
  state_always busy w ->
  returns (nbcon_device_try_acquire smp_processor_id) w
          (fun r w' =>
             r = (false, device_ctxt) /\ env_only w w' /\
             state_always busy w').
Proof.
  intros H.
  assert (Hb : forall s, busy s -> acquirable device_ctxt s -> False).
  { intros s [Hp | [Hr | Hu]] (Ap & Ar & Au).
    - destruct (prio s); simpl in Ap; try lia. congruence.
    - destruct (req_prio s); simpl in Ar; try lia. congruence.
    - congruence. }
  unfold nbcon_device_try_acquire.
  change (set_ctxt_prio nbcon_context_zero NBCON_PRIO_NORMAL)
    with device_ctxt.
  apply returns_bind.
  eapply returns_weaken.
  - apply (phases_try_acquire
             smp_processor_id device_ctxt
             (fun w' => state_always busy w' /\ env_only w w')
             (fun _ => False) (fun _ => False) busy).
    + apply acquire_phases_intro.
      * apply stable_and; [apply stable_state_always | apply stable_env_only].
      * apply stable_False.
      * apply stable_False.
      * intros w0 [[Hs _] _]. exact Hs.
      * intros w0 [[Hs _] _] Hp Hr Hu. exfalso.
        apply (Hb _ Hs). repeat split; assumption.
      * intros w0 _ _ _ _ Hspin. exfalso. apply Hspin. reflexivity.
      * intros w0 [].
      * intros w0 [].
      * intros w0 cur _ _ _ Hallow. discriminate Hallow.
    + split; [exact H | apply env_only_refl].
  - intros [ok c'] w' [(Hf & Hc & [[HI He] | []]) | (_ & [] & _)].
    cbn [fst snd] in Hf, Hc. subst. cbn [negb].
    apply returns_ret. auto.
Qed.

Lemma device_try_acquire_leaves_busy_console_witness :
  state_always busy (world_of emergency_unsafe
                              [state_event released_with_request]) /\
  returns (nbcon_device_try_acquire 1)
          (world_of emergency_unsafe [state_event released_with_request])
          (fun r w' =>
             r = (false, device_ctxt) /\
             env_only (world_of emergency_unsafe
                                [state_event released_with_request]) w' /\
             state_always busy w').
Proof.
  assert (H : state_always busy
                           (world_of emergency_unsafe
                                     [state_event released_with_request])).
  { split; [|apply Forall_cons; [|apply Forall_nil]];
      unfold event_state_has, busy; simpl.
    - left. discriminate.
    - right. left. discriminate. }
  split; [exact H|].
  apply (device_try_acquire_leaves_busy_console
           1 (world_of emergency_unsafe [state_event released_with_request])
           H).
Defined.

(** ** Flushing a console that somebody stronger holds *)

Lemma flush_outranked
      (smp_processor_id : Z) (is_extended : bool)
      (rd : N -> bool -> bool -> option printk_message)
      (write_atomic write_thread : option write_callback)
      (cpu_emergency_nesting : Z) (stop_seq : N) (allow : bool)
      (p : nbcon_prio) (w : world) :
  nbcon_get_default_prio smp_processor_id cpu_emergency_nesting w =
  Some (p, w) ->
  state_always (outranks p) w ->
  returns (__nbcon_atomic_flush_pending_con
             smp_processor_id is_extended rd write_atomic write_thread
             cpu_emergency_nesting stop_seq allow) w
          (fun err w' =>
             err = - EPERM /\ env_only w w' /\
             state_always (outranks p) w').
Proof.
  intros Hdp H.
  unfold __nbcon_atomic_flush_pending_con.
  apply returns_bind. eapply returns_eq; [exact Hdp|].
  set (c := mkCtxt p allow 2000 0 false PBUFS_NULL).
  apply returns_bind.
  eapply returns_weaken.
  - apply (phases_try_acquire
             smp_processor_id c
             (fun w' => state_always (outranks p) w' /\ env_only w w')
             (fun _ => False) (fun _ => False) (outranks p)).
    + apply acquire_phases_intro.
      * apply stable_and; [apply stable_state_always | apply stable_env_only].
      * apply stable_False.
      * apply stable_False.
      * intros w0 [[Hs _] _]. exact Hs.
      * intros w0 [[Hs _] _] Hp _ _. unfold outranks in Hs.
        cbn [ctxt_prio c] in Hp. lia.
      * intros w0 [[Hs _] _] (Hp & _) _ _ _. unfold outranks in Hs.
        cbn [ctxt_prio c] in Hp. lia.
      * intros w0 [].
      * intros w0 [].
      * intros w0 cur _ Hs (Hp & _) _ _. unfold outranks in Hs.
        cbn [ctxt_prio c] in Hp. lia.
    + split; [exact H | apply env_only_refl].
  - intros [ok c'] w' [(Hf & Hc & [[HI He] | []]) | (_ & [] & _)].
    cbn [fst snd] in Hf, Hc. subst ok. cbn [negb].
    apply returns_ret. auto.
Qed.

(** X19.  Flushing a console that somebody stronger holds.  As long as
    every state word, the current one and the ones stored meanwhile, names
    an owner of at least the default priority of this CPU,
    __nbcon_atomic_flush_pending_con returns -EPERM, and
    nbcon_atomic_flush_pending_con gives up after that one attempt
    whatever the ring buffer holds: neither prints anything nor stores
    anything to the shared memory. *)
Theorem flush_leaves_the_console_to_its_owner
        (smp_processor_id : Z) (is_extended : bool)
        (rd : N -> bool -> bool -> option printk_message)
        (write_atomic write_thread : option write_callback)
        (cpu_emergency_nesting : Z) (prb_read_valid : N -> bool)
        (prb_next_reserve_seq : N)
        (con_kthread system_state_after_running : bool)
        (fuel : nat) (stop_seq : N) (allow : bool)
        (p : nbcon_prio) (w : world) :
  nbcon_get_default_prio smp_processor_id cpu_emergency_nesting w =
  Some (p, w) ->
  state_always (outranks p) w ->
  returns (__nbcon_atomic_flush_pending_con
             smp_processor_id is_extended rd write_atomic write_thread
             cpu_emergency_nesting stop_seq allow) w
          (fun err w' => err = - EPERM /\ env_only w w') /\
  returns (nbcon_atomic_flush_pending_con
             smp_processor_id is_extended rd write_atomic write_thread
             cpu_emergency_nesting prb_read_valid prb_next_reserve_seq
             con_kthread system_state_after_running
             (S fuel) stop_seq allow) w
          (fun _ w' =>
             env_only w w' /\ driver_calls w' = driver_calls w).
Proof.
  intros Hdp H. split.
  - eapply returns_weaken; [apply flush_outranked; eassumption|].
    intros err w' (He & Ho & _). auto.
  - rewrite flush_pending_con_S. apply returns_bind.
    eapply returns_weaken; [apply flush_outranked; eassumption|].
    intros err w' (He & Ho & _). subst err.
    change (negb (- EPERM =? 0)) with true. cbv iota.
    apply returns_ret. split; [exact Ho|].
    destruct Ho as [k ->]. clear. induction k as [|k IH]; [reflexivity|].
    cbn [env_run]. rewrite <- IH. unfold env_next.
    destruct (sched (env_run k w)); reflexivity.
Qed.

Lemma flush_leaves_the_console_to_its_owner_witness :
  nbcon_get_default_prio
    0 0 (world_of emergency_unsafe [state_event takeover_state]) =
  Some (NBCON_PRIO_NORMAL,
        world_of emergency_unsafe [state_event takeover_state]) /\
  state_always (outranks NBCON_PRIO_NORMAL)
               (world_of emergency_unsafe [state_event takeover_state]) /\
  returns (nbcon_atomic_flush_pending_con
             0 false reader_all (Some plain_driver) None 0
             (fun s => (s <? 8)%N) 8 false false 1 8 true)
          (world_of emergency_unsafe [state_event takeover_state])
          (fun _ w' =>
             env_only (world_of emergency_unsafe
                                [state_event takeover_state]) w' /\
             driver_calls w' = []).
Proof.
  assert (H : state_always
                (outranks NBCON_PRIO_NORMAL)
                (world_of emergency_unsafe [state_event takeover_state])).
  { split; [|apply Forall_cons; [|apply Forall_nil]];
      unfold event_state_has, outranks; simpl; lia. }
  split; [reflexivity|]. split; [exact H|].
  exact (proj2 (flush_leaves_the_console_to_its_owner
                  0 false reader_all (Some plain_driver) None 0
                  (fun s => (s <? 8)%N) 8 false false 0 8 true
                  NBCON_PRIO_NORMAL
                  (world_of emergency_unsafe [state_event takeover_state])
                  eq_refl H)).
Defined.

(** ** Emergency sections *)

Lemma default_prio_in_emergency (smp_processor_id n : Z) (w : world) :
  n <> 0 ->
  exists p,
    nbcon_get_default_prio smp_processor_id n w = Some (p, w) /\
    prio_val NBCON_PRIO_EMERGENCY <= prio_val p.
Proof.
  intros Hn. unfold nbcon_get_default_prio, bind, gets, ret.
  destruct (panic_cpu w =? smp_processor_id).
  - eexists. split; [reflexivity | simpl; lia].
  - destruct (n =? 0) eqn:E; [apply Z.eqb_eq in E; contradiction|].
    eexists. split; [reflexivity | simpl; lia].
Qed.

Lemma ready_to_flush_at_higher (p q : nbcon_prio) (smp_processor_id : Z)
      (w : world) :
  ready_to_flush_at p smp_processor_id w -> prio_val p <= prio_val q ->
  ready_to_flush_at q smp_processor_id w.
Proof.
  intros (Hq & Hpe & Hp & Hr & Hu & Ht & Hd & Hprev) Hle.
  repeat split; try assumption. lia.
Qed.

(** X20.  Emergency sections print at the outermost exit only, and at
    emergency priority.  Leaving a nested emergency section only counts
    the nesting down: after nbcon_cpu_emergency_enter at a nesting of at
    least one, nbcon_cpu_emergency_exit restores the counter, touches no
    word of the console and asks for no deferred flush.  Leaving the
    outermost section without interference prints the backlog up to the
    head of the ring buffer first, also when a context of a priority below
    EMERGENCY owns the console at a safe point, then flushes the legacy
    consoles if that is allowed and the console lock is free and
    otherwise asks for a deferred flush; the counter ends at zero.
    nbcon_cpu_emergency_flush does the same printing inside a section and
    nothing at all outside of one. *)
Theorem emergency_section_prints_at_the_outermost_exit
        (smp_processor_id : Z) (is_extended : bool)
        (rd : N -> bool -> bool -> option printk_message)
        (cb : write_callback) (write_thread : option write_callback)
        (prb_read_valid : N -> bool) (prb_next_reserve_seq : N)
        (con_kthread system_state_after_running con_flags_nbcon : bool)
        (console_is_usable : bool -> bool)
        (force_printkthreads printing_via_unlock
           is_printk_legacy_deferred console_trylock : bool)
        (console_unlock : M unit) (fuel : nat) (n : Z) (w : world) :
  1 <= n < UINT_MAX ->
  ready_to_flush_at NBCON_PRIO_EMERGENCY smp_processor_id w ->
  transparent_driver smp_processor_id cb ->
  (prb_next_reserve_seq <= u64_max)%N ->
  records_in_order rd is_extended (con_nbcon_seq w) prb_next_reserve_seq ->
  (forall s, prb_read_valid s = true -> (s < prb_next_reserve_seq)%N) ->
  let printed :=
    if con_flags_nbcon && console_is_usable true &&
       (con_nbcon_seq w <? prb_next_reserve_seq)%N
    then flushed smp_processor_id rd is_extended prb_next_reserve_seq w
    else w in
  let legacy :=
    negb force_printkthreads && printing_via_unlock &&
    negb is_printk_legacy_deferred && console_trylock in
  nbcon_cpu_emergency_exit
    smp_processor_id is_extended rd (Some cb) write_thread
    prb_read_valid prb_next_reserve_seq con_kthread
    system_state_after_running con_flags_nbcon console_is_usable
    force_printkthreads printing_via_unlock is_printk_legacy_deferred
    console_trylock console_unlock
    fuel (nbcon_cpu_emergency_enter n) w = Some ((n, false), w) /\
  nbcon_cpu_emergency_exit
    smp_processor_id is_extended rd (Some cb) write_thread
    prb_read_valid prb_next_reserve_seq con_kthread
    system_state_after_running con_flags_nbcon console_is_usable
    force_printkthreads printing_via_unlock is_printk_legacy_deferred
    console_trylock console_unlock
    (S fuel) (nbcon_cpu_emergency_enter 0) w =
  (if legacy then console_unlock ;;; ret (0, false)
   else ret (0, true))%nbcon printed /\
  nbcon_cpu_emergency_flush
    smp_processor_id is_extended rd (Some cb) write_thread
    prb_read_valid prb_next_reserve_seq con_kthread
    system_state_after_running con_flags_nbcon console_is_usable
    force_printkthreads printing_via_unlock is_printk_legacy_deferred
    console_trylock console_unlock (S fuel) n w =
  (if legacy then console_unlock else ret tt) printed /\
  nbcon_cpu_emergency_flush
    smp_processor_id is_extended rd (Some cb) write_thread
    prb_read_valid prb_next_reserve_seq con_kthread
    system_state_after_running con_flags_nbcon console_is_usable
    force_printkthreads printing_via_unlock is_printk_legacy_deferred
    console_trylock console_unlock fuel 0 w = Some (tt, w).
Proof.
  intros Hn Hready Hdrv Hmax Hrec Hvalid printed legacy.
  assert (Hflush :
            forall m, m <> 0 ->
              nbcon_atomic_flush_pending
                smp_processor_id is_extended rd (Some cb) write_thread
                m prb_read_valid prb_next_reserve_seq con_kthread
                system_state_after_running con_flags_nbcon
                console_is_usable (S fuel) w = Some (tt, printed)).
  { intros m Hm.
    destruct (default_prio_in_emergency smp_processor_id m w Hm)
      as (p & Hdp & Hle).
    unfold nbcon_atomic_flush_pending.
    apply (atomic_flush_pending_at
             smp_processor_id is_extended rd cb write_thread
             m prb_read_valid prb_next_reserve_seq
             con_kthread system_state_after_running con_flags_nbcon
             console_is_usable fuel false p w Hdp
             (ready_to_flush_at_higher _ _ _ _ Hready Hle)
             Hdrv Hmax Hrec Hvalid). }
  unfold UINT_MAX in Hn.
  split; [|split; [|split]].
  - unfold nbcon_cpu_emergency_exit, nbcon_cpu_emergency_enter, UINT_MAX.
    rewrite (Z.mod_small (n + 1)) by lia.
    destruct (n + 1 =? 1) eqn:E1; [apply Z.eqb_eq in E1; lia|].
    destruct (n + 1 =? 0) eqn:E0; [apply Z.eqb_eq in E0; lia|].
    unfold bind, ret. do 3 f_equal. lia.
  - unfold nbcon_cpu_emergency_exit.
    change (nbcon_cpu_emergency_enter 0) with 1.
    change (1 =? 1) with true. change (1 =? 0) with false.
    cbv beta iota. unfold bind at 1. unfold bind at 1.
    rewrite (Hflush 1) by discriminate.
    subst legacy.
    destruct (negb force_printkthreads && printing_via_unlock &&
              negb is_printk_legacy_deferred);
      [|reflexivity].
    destruct console_trylock; cbn [andb]; [|reflexivity].
    unfold bind, ret. destruct (console_unlock printed) as [[[] w2]|];
      reflexivity.
  - unfold nbcon_cpu_emergency_flush.
    destruct (n =? 0) eqn:E0; [apply Z.eqb_eq in E0; lia|].
    cbn [negb]. unfold bind at 1.
    rewrite (Hflush n) by lia.
    subst legacy.
    destruct (negb force_printkthreads && printing_via_unlock &&
              negb is_printk_legacy_deferred);
      [|reflexivity].
    destruct console_trylock; reflexivity.
  - reflexivity.
Qed.

Lemma emergency_section_prints_at_the_outermost_exit_witness :
  1 <= 1 < UINT_MAX /\
  ready_to_flush_at NBCON_PRIO_EMERGENCY 1 (world_of owned_by_cpu0 []) /\
  transparent_driver 1 plain_driver /\
  (8 <= u64_max)%N /\
  records_in_order reader_all false
                   (con_nbcon_seq (world_of owned_by_cpu0 [])) 8 /\
  (forall s, (s <? 8)%N = true -> (s < 8)%N) /\
  nbcon_cpu_emergency_exit
    1 false reader_all (Some plain_driver) None (fun s => (s <? 8)%N) 8
    true false true (fun _ => true) false true false true (ret tt)
    1 (nbcon_cpu_emergency_enter 0) (world_of owned_by_cpu0 []) =
  Some ((0, false),
        mkWorld (mkState NBCON_PRIO_NONE NBCON_PRIO_NONE false false 1)
                8 7 0 PANIC_CPU_INVALID []
                [mkCall true "hello" true; mkCall true "hello" true;
                 mkCall true "hello" true]).
Proof.
  assert (Hn : 1 <= 1 < UINT_MAX) by (unfold UINT_MAX; lia).
  assert (Hready : ready_to_flush_at NBCON_PRIO_EMERGENCY 1
                                     (world_of owned_by_cpu0 [])).
  { repeat split; discriminate. }
  assert (Hdrv : transparent_driver 1 plain_driver).
  { intros wc p. reflexivity. }
  assert (Hb : (8 <= u64_max)%N) by discriminate.
  assert (Hrec : records_in_order
                   reader_all false
                   (con_nbcon_seq (world_of owned_by_cpu0 [])) 8).
  { intros s Hs. exists (mkPmsg "hello" s 0). unfold reader_all.
    assert (E : (s <? 8)%N = true) by (apply N.ltb_lt; lia).
    rewrite E. repeat split. }
  assert (Hvalid : forall s, (s <? 8)%N = true -> (s < 8)%N).
  { intros s. apply N.ltb_lt. }
  repeat (split; [assumption|]).
  exact (proj1 (proj2 (emergency_section_prints_at_the_outermost_exit
                         1 false reader_all plain_driver None
                         (fun s => (s <? 8)%N) 8 true false true
                         (fun _ => true) false true false true (ret tt)
                         0 1 (world_of owned_by_cpu0 [])
                         Hn Hready Hdrv Hb Hrec Hvalid))).
Defined.

(** ** A console that has just been initialised *)

(** X21.  nbcon_init makes the console printable from the record asked
    for.  Whatever the console's words held before (a stale owner, a
    pending request, the unsafe bits, an old cursor), after nbcon_init the
    console is free and safe, its cursor stands at init_seq or at the
    oldest record of the ring buffer if that is later, and the first
    flush, without interference, prints the records from there up to
    stop_seq as they are, none of them marked as a replay, and releases
    the console. *)
Theorem init_makes_the_console_printable
        (smp_processor_id : Z) (is_extended : bool)
        (rd : N -> bool -> bool -> option printk_message)
        (cb : write_callback) (write_thread : option write_callback)
        (cpu_emergency_nesting : Z) (first_valid_seq init_seq stop_seq : N)
        (allow : bool) (w : world) :
  quiet w -> panic_elsewhere smp_processor_id w = false ->
  con_dropped w = 0%N ->
  (N.max init_seq first_valid_seq < u64_max)%N ->
  (stop_seq <= u64_max)%N ->
  records_in_order rd is_extended (N.max init_seq first_valid_seq)
                   stop_seq ->
  transparent_driver smp_processor_id cb ->
  exists w0,
    nbcon_init first_valid_seq init_seq w = Some (tt, w0) /\
    con_nbcon_state w0 = nbcon_state_zero /\
    con_nbcon_seq w0 = N.max init_seq first_valid_seq /\
    driver_calls w0 = driver_calls w /\
    __nbcon_atomic_flush_pending_con
      smp_processor_id is_extended rd (Some cb) write_thread
      cpu_emergency_nesting stop_seq allow w0 =
    Some (0,
          mkWorld (mkState NBCON_PRIO_NONE NBCON_PRIO_NONE false false
                           smp_processor_id)
                  (N.max (N.max init_seq first_valid_seq) stop_seq)
                  (if (N.max init_seq first_valid_seq <? stop_seq)%N
                   then stop_seq - 1 else u64_max)%N
                  0 (panic_cpu w) []
                  (driver_calls w ++
                   flushed_calls
                     rd is_extended
                     (N.to_nat (stop_seq - N.max init_seq first_valid_seq))
                     (N.max init_seq first_valid_seq))).
Proof.
  intros Hq Hpe Hd Hlt Hmax Hrec Hdrv.
  set (w0 := mkWorld nbcon_state_zero (N.max init_seq first_valid_seq)
                     u64_max (con_dropped w) (panic_cpu w) (sched w)
                     (driver_calls w)).
  exists w0.
  assert (Hready : ready_to_flush smp_processor_id w0).
  { unfold ready_to_flush, quiet, panic_elsewhere in *. unfold w0. cbn.
    repeat split; try assumption. lia. }
  repeat split.
  rewrite (flush_ready smp_processor_id is_extended rd cb write_thread
                       cpu_emergency_nesting stop_seq allow w0
                       Hready Hdrv Hmax Hrec).
  reflexivity.
Qed.

Lemma init_makes_the_console_printable_witness :
  quiet (world_of takeover_state []) /\
  panic_elsewhere 1 (world_of takeover_state []) = false /\
  con_dropped (world_of takeover_state []) = 0%N /\
  (N.max 6 2 < u64_max)%N /\ (8 <= u64_max)%N /\
  records_in_order reader_all false (N.max 6 2) 8 /\
  transparent_driver 1 plain_driver /\
  exists w0,
    nbcon_init 2 6 (world_of takeover_state []) = Some (tt, w0) /\
    con_nbcon_state w0 = nbcon_state_zero /\
    con_nbcon_seq w0 = 6%N /\
    driver_calls w0 = [] /\
    __nbcon_atomic_flush_pending_con
      1 false reader_all (Some plain_driver) None 0 8 false w0 =
    Some (0,
          mkWorld (mkState NBCON_PRIO_NONE NBCON_PRIO_NONE false false 1)
                  8 7 0 PANIC_CPU_INVALID []
                  [mkCall true "hello" true; mkCall true "hello" true]).
Proof.
  assert (Hlt : (N.max 6 2 < u64_max)%N) by reflexivity.
  assert (Hb : (8 <= u64_max)%N) by discriminate.
  assert (Hrec : records_in_order reader_all false (N.max 6 2) 8).
  { intros s Hs. exists (mkPmsg "hello" s 0). unfold reader_all.
    assert (E : (s <? 8)%N = true) by (apply N.ltb_lt; lia).
    rewrite E. repeat split. }
  assert (Hdrv : transparent_driver 1 plain_driver).
  { intros wc p. reflexivity. }
  split; [reflexivity|]. split; [reflexivity|]. split; [reflexivity|].
  repeat (split; [assumption|]).
  exact (init_makes_the_console_printable
           1 false reader_all plain_driver None 0 2 6 8 false
           (world_of takeover_state [])
           eq_refl eq_refl eq_refl Hlt Hb Hrec Hdrv).
Defined.

(** ** Which stores clear a pending request *)








